(** * ShopSmart nutrition scoring engine

    A shallow embedding of the class [NutritionScoringService]
    (shopsmart-app/backend, the service imported by routes/nutrition and
    routes/products as services/nutritionScoring), of the constants it
    takes from shared/constants, of the types it takes from shared/types
    and of the additive seed table [additivesSeedData], followed by the
    properties of the scoring pipeline.

    Modelling conventions.
    - A JavaScript number is an IEEE 754 binary64 value: [spec_float] with
      precision 53 and maximal exponent 1024, operated on by the Standard
      Library's executable specification of correctly rounded arithmetic.
      Nutrient readings, their per-100g normalisation, the band thresholds
      and the weighted sum of the final score are all computed in that
      arithmetic.
    - The running [score] variables only ever hold integers (100 adjusted
      by integer penalties, bonuses and database deductions), on which
      binary64 arithmetic is exact below 2^53; they are carried as [Z].
    - A string is held as the bytes of its UTF-8 encoding.  The digits
      and letters of the two patterns, and the letters that the case
      mappings change, are ASCII, a byte each; the class [\s] is the white
      space of Unicode, of one to three bytes a character.
    - A call that can throw returns a [Completion]; the [async] functions
      only sequence reads of the additive table, so a promise is identified
      with the completion it settles to.
    - The Prisma model [additive] is a list of rows in insertion order;
      [findFirst] returns the first row satisfying its filter. *)

From Stdlib Require Import ZArith List Bool String Ascii Lia.
From Stdlib Require Import Floats.SpecFloat.
From Stdlib Require Import Sorted Permutation.
Import ListNotations.

Local Open Scope string_scope.
Local Open Scope list_scope.
Local Open Scope Z_scope.

(* ================================================================== *)
(** * JavaScript values *)
(* ================================================================== *)

Module Js.

(** ** Numbers *)

Definition number : Type := spec_float.

Definition prec : Z := 53.
Definition emax : Z := 1024.

(** The number nearest to an integer (exact up to 2^53). *)
Definition of_Z (z : Z) : number := binary_normalize prec emax z 0 false.

Definition add : number -> number -> number := SFadd prec emax.
Definition mul : number -> number -> number := SFmul prec emax.
Definition div : number -> number -> number := SFdiv prec emax.

(** [x > y]; false as soon as one side is NaN. *)
Definition gt (x y : number) : bool := SFltb y x.

(** The decimal literal [digits * 10^-places], e.g. [decimal 47 1] for
    [4.7]: both operands are exact, so the correctly rounded quotient is
    the number the literal denotes. *)
Definition decimal (digits : Z) (places : nat) : number :=
  div (of_Z digits) (of_Z (10 ^ Z.of_nat places)).

(** Truthiness of a number: [0], [-0] and [NaN] are falsy. *)
Definition truthy (x : number) : bool :=
  match x with
  | S754_finite _ _ _ | S754_infinity _ => true
  | S754_zero _ | S754_nan => false
  end.

(** [Number.isFinite] *)
Definition isFinite (x : number) : bool :=
  match x with
  | S754_finite _ _ _ | S754_zero _ => true
  | S754_infinity _ | S754_nan => false
  end.

(** [Math.round]: the integer nearest to [x], ties towards +infinity,
    that is [floor (x + 1/2)] computed exactly.  On NaN and the
    infinities JavaScript returns the argument; those are not integers
    and are sent to [0] here (the weighted sum that the service rounds is
    finite, see [weightedScore_finite]). *)
Definition Math_round (x : number) : Z :=
  match x with
  | S754_finite s m e =>
      let v := if s then Z.neg m else Z.pos m in
      match e with
      | Z.neg p => (2 * v + 2 ^ Z.pos p) / 2 ^ (Z.pos p + 1)
      | _ => v * 2 ^ e
      end
  | S754_zero _ => 0
  | S754_infinity _ | S754_nan => 0
  end.

(** ** Completions: a value returned or an exception thrown *)

Inductive Completion (A : Type) : Type :=
| Return (a : A)
| Throw (message : string).
Arguments Return {A} a.
Arguments Throw {A} message.

Definition bind {A B} (c : Completion A) (k : A -> Completion B)
  : Completion B :=
  match c with
  | Return a => k a
  | Throw m => Throw m
  end.

(** ** Characters and strings *)

Definition code (c : ascii) : N := N_of_ascii c.

Definition between (lo hi : N) (c : ascii) : bool :=
  ((lo <=? code c) && (code c <=? hi))%N.

(** [\d] *)
Definition isDigit (c : ascii) : bool := between 48 57 c.
(** The UTF-8 encoding of a code point of the basic plane. *)
Definition utf8 (codePoint : N) : string :=
  if (codePoint <? 128)%N then
    String (ascii_of_N codePoint) ""
  else if (codePoint <? 2048)%N then
    String (ascii_of_N (192 + codePoint / 64))
      (String (ascii_of_N (128 + codePoint mod 64)) "")
  else
    String (ascii_of_N (224 + codePoint / 4096))
      (String (ascii_of_N (128 + (codePoint / 64) mod 64))
         (String (ascii_of_N (128 + codePoint mod 64)) "")).

(** [\s]: the white space and the line terminators of ECMAScript, by
    code point: tab, line feed, vertical tab, form feed, carriage return,
    space, U+00A0 (no-break space), U+1680, U+2000 to U+200A, U+2028,
    U+2029, U+202F, U+205F, U+3000 and U+FEFF. *)
Definition whiteSpace : list string :=
  map utf8
    [ 9; 10; 11; 12; 13; 32; 160; 5760;
      8192; 8193; 8194; 8195; 8196; 8197; 8198; 8199; 8200; 8201; 8202;
      8232; 8233; 8239; 8287; 12288; 65279 ]%N.

(** [character], the encoding of one character, is in [\s]. *)
Definition isSpace (character : string) : bool :=
  existsb (String.eqb character) whiteSpace.
Definition isLower (c : ascii) : bool := between 97 122 c.
Definition isUpper (c : ascii) : bool := between 65 90 c.
(** [[a-z]] under the [i] flag *)
Definition isLetter (c : ascii) : bool := isLower c || isUpper c.

Definition lowerChar (c : ascii) : ascii :=
  if isUpper c then ascii_of_N (code c + 32) else c.
Definition upperChar (c : ascii) : ascii :=
  if isLower c then ascii_of_N (code c - 32) else c.

Fixpoint mapChars (f : ascii -> ascii) (s : string) : string :=
  match s with
  | EmptyString => EmptyString
  | String c s' => String (f c) (mapChars f s')
  end.

Definition toLowerCase : string -> string := mapChars lowerChar.
Definition toUpperCase : string -> string := mapChars upperChar.

(** [s.includes(sub)] *)
Fixpoint includes (s sub : string) : bool :=
  String.prefix sub s ||
  match s with
  | EmptyString => false
  | String _ s' => includes s' sub
  end.

(** [parts.join(sep)] *)
Fixpoint join (sep : string) (parts : list string) : string :=
  match parts with
  | [] => ""
  | [p] => p
  | p :: rest => (p ++ sep ++ join sep rest)%string
  end.

(** [parseInt] on a string of decimal digits. *)
Definition digitValue (c : ascii) : Z := Z.of_N (code c) - 48.

Fixpoint parseDigits (acc : Z) (s : string) : Z :=
  match s with
  | EmptyString => acc
  | String c s' => parseDigits (10 * acc + digitValue c) s'
  end.

Definition parseInt (digits : string) : number := of_Z (parseDigits 0 digits).

(** A string is falsy exactly when it is empty. *)
Definition emptyString (s : string) : bool :=
  match s with EmptyString => true | _ => false end.

End Js.

Notation "x <- c ;; k" := (Js.bind c (fun x => k))
  (at level 61, c at next level, right associativity).

(* ================================================================== *)
(** * shared/constants *)
(* ================================================================== *)

Module SCORING_WEIGHTS.
Definition NUTRITIONAL_QUALITY : Js.number := Js.decimal 6 1.
Definition ADDITIVES_IMPACT : Js.number := Js.decimal 3 1.
Definition ORGANIC_BONUS : Js.number := Js.decimal 1 1.
End SCORING_WEIGHTS.

Module SCORE_THRESHOLDS.
Definition EXCELLENT : Z := 80.
Definition GOOD : Z := 60.
Definition FAIR : Z := 40.
Definition POOR : Z := 0.
End SCORE_THRESHOLDS.

(* ================================================================== *)
(** * shared/types *)
(* ================================================================== *)

Inductive RiskLevel : Type := green | yellow | orange | red.

Inductive ScoreCategory : Type := excellent | good | fair | poor.

Inductive ScoreColor : Type :=
| color_green        (* 'green' *)
| color_light_green  (* 'light-green' *)
| color_orange       (* 'orange' *)
| color_red.         (* 'red' *)

(** A property that the service treats as a string.  A request body can
    carry any truthy value there; calling [.match] on one that is not a
    string throws a TypeError.  Falsy values are the absent case. *)
Inductive ServingSizeValue : Type :=
| ServingText (s : string)
| ServingNotText.

(** [nutrition.ingredients]: an array of strings, a single string, or a
    truthy value that is neither. *)
Inductive IngredientsValue : Type :=
| IngredientArray (parts : list string)
| IngredientText (s : string)
| IngredientOther.

(** The properties of [NutritionData] that the scoring service reads
    (the other nutrient fields of the interface are never consulted). *)
Module NutritionData.
Record t : Type := make {
  servingSize : option ServingSizeValue;
  calories : option Js.number;
  saturatedFat : option Js.number;
  sodium : option Js.number;
  dietaryFiber : option Js.number;
  sugars : option Js.number;
  protein : option Js.number;
  ingredients : option IngredientsValue
}.

(** The object with no property set. *)
Definition empty : t := make None None None None None None None None.
End NutritionData.

Module AdditiveInfo.
Record t : Type := make {
  code : string;
  name : string;
  riskLevel : RiskLevel;
  description : string;
  pointDeduction : Z
}.
End AdditiveInfo.

Module NutritionScoring.
Record Breakdown : Type := makeBreakdown {
  nutritionalQuality : Z;
  additivesImpact : Z;
  organicBonus : Z
}.

Record t : Type := make {
  finalScore : Z;
  category : ScoreCategory;
  color : ScoreColor;
  breakdown : Breakdown;
  additives : list AdditiveInfo.t;
  improvements : list string
}.
End NutritionScoring.

(* ================================================================== *)
(** * The additive table *)
(* ================================================================== *)

Module Additive.
(** A row of the [additive] model, restricted to the columns the
    service selects. *)
Record t : Type := row {
  eNumber : option string;
  name : string;
  riskLevel : RiskLevel;
  description : string;
  pointDeduction : Z
}.

(** [findFirst({ where: { eNumber: code } })]: equality of the stored
    string with [code], character for character (a string filter of
    Prisma compares case-sensitively on PostgreSQL unless it is given
    [mode: 'insensitive']). *)
Definition findFirstByENumber (table : list t) (code : string) : option t :=
  find (fun a => match eNumber a with
                 | Some e => String.eqb e code
                 | None => false
                 end) table.

(** [findFirst({ where: { name: { contains: text, mode: 'insensitive' } } })] *)
Definition findFirstByNameContains (table : list t) (text : string)
  : option t :=
  find (fun a => Js.includes (Js.toLowerCase (name a)) (Js.toLowerCase text))
       table.

(** Data-model invariant of the reference table: no negative deduction. *)
Definition nonNegative (table : list t) : Prop :=
  Forall (fun a => 0 <= pointDeduction a) table.
End Additive.

(** database/seeds/additives: [additivesSeedData], in source order. *)
Definition additivesSeedData : list Additive.t :=
  let row := Additive.row in
  [
    row (Some "E300") "Ascorbic acid (Vitamin C)" green
        "Natural antioxidant, vitamin C" 0;
    row (Some "E301") "Sodium ascorbate" green
        "Sodium salt of vitamin C, antioxidant" 0;
    row (Some "E306") "Tocopherols (Vitamin E)" green
        "Natural antioxidant, vitamin E" 0;
    row (Some "E330") "Citric acid" green
        "Natural acid found in citrus fruits" 0;
    row (Some "E440") "Pectin" green
        "Natural fiber found in fruits" 0;
    row (Some "E415") "Xanthan gum" green
        "Natural thickener produced by fermentation" 0;
    row (Some "E410") "Locust bean gum" green
        "Natural thickener from carob seeds" 0;
    row (Some "E322") "Lecithin" yellow
        "Emulsifier, usually from soy or sunflower" 5;
    row (Some "E202") "Potassium sorbate" yellow
        "Preservative, antimicrobial agent" 5;
    row (Some "E211") "Sodium benzoate" yellow
        "Preservative, antimicrobial agent" 5;
    row (Some "E407") "Carrageenan" yellow
        "Thickener extracted from seaweed" 5;
    row (Some "E412") "Guar gum" yellow
        "Natural thickener from guar beans" 5;
    row (Some "E414") "Acacia gum (Gum arabic)" yellow
        "Natural thickener from acacia trees" 5;
    row (Some "E249") "Potassium nitrite" orange
        "Preservative used in processed meats" 10;
    row (Some "E250") "Sodium nitrite" orange
        "Preservative used in processed meats" 10;
    row (Some "E621") "Monosodium glutamate (MSG)" orange
        "Flavor enhancer" 10;
    row (Some "E150d") "Caramel IV (ammonia sulfite)" orange
        "Artificial coloring agent" 10;
    row (Some "E319") "TBHQ (tert-Butylhydroquinone)" orange
        "Synthetic antioxidant" 10;
    row (Some "E320") "BHA (Butylated hydroxyanisole)" orange
        "Synthetic antioxidant" 10;
    row (Some "E321") "BHT (Butylated hydroxytoluene)" orange
        "Synthetic antioxidant" 10;
    row (Some "E102") "Tartrazine (Yellow 5)" red
        "Artificial yellow coloring" 20;
    row (Some "E110") "Sunset Yellow (Yellow 6)" red
        "Artificial orange/yellow coloring" 20;
    row (Some "E129") "Allura Red (Red 40)" red
        "Artificial red coloring" 20;
    row (Some "E133") "Brilliant Blue (Blue 1)" red
        "Artificial blue coloring" 20;
    row (Some "E951") "Aspartame" red
        "Artificial sweetener" 20;
    row (Some "E954") "Saccharin" red
        "Artificial sweetener" 20;
    row (Some "E952") "Cyclamate" red
        "Artificial sweetener" 20;
    row (None) "High fructose corn syrup" red
        "Processed sweetener from corn" 20;
    row (None) "Partially hydrogenated oils" red
        "Trans fats" 20;
    row (None) "Artificial flavor" orange
        "Generic artificial flavoring" 10;
    row (None) "Natural flavor" yellow
        "Natural flavoring compounds" 5;
    row (None) "Sodium phosphates" orange
        "Preservative and emulsifier" 10;
    row (Some "E338") "Phosphoric acid" orange
        "Acidifier, common in sodas" 10;
    row (Some "E200") "Sorbic acid" yellow
        "Natural antimicrobial preservative" 5;
    row (Some "E203") "Calcium sorbate" yellow
        "Calcium salt of sorbic acid" 5;
    row (Some "E210") "Benzoic acid" yellow
        "Natural preservative" 5;
    row (Some "E100") "Curcumin" green
        "Natural yellow coloring from turmeric" 0;
    row (Some "E160a") "Beta-carotene" green
        "Natural orange coloring, vitamin A precursor" 0;
    row (Some "E163") "Anthocyanins" green
        "Natural purple/red coloring from fruits" 0
  ].

(* ================================================================== *)
(** * NutritionScoringService *)
(* ================================================================== *)

Module NutritionScoringService.

Import Js.

(** ** The two regular expressions *)

(** The longest run of digits at the head of [s], and what follows. *)
Fixpoint takeDigits (s : string) : string * string :=
  match s with
  | String c s' =>
      if isDigit c then
        let (ds, rest) := takeDigits s' in (String c ds, rest)
      else (EmptyString, s)
  | EmptyString => (EmptyString, EmptyString)
  end.

(** [\s*]: what follows the longest run of white space at the head of
    [s].  The character at the head is its first byte, its first two or
    its first three; no encoding is the beginning of another. *)
Fixpoint skipSpaces (s : string) : string :=
  match s with
  | String c0 s1 =>
      if isSpace (String c0 "") then skipSpaces s1
      else
        match s1 with
        | String c1 s2 =>
            if isSpace (String c0 (String c1 "")) then skipSpaces s2
            else
              match s2 with
              | String c2 s3 =>
                  if isSpace (String c0 (String c1 (String c2 "")))
                  then skipSpaces s3
                  else s
              | EmptyString => s
              end
        | EmptyString => s
        end
  | EmptyString => EmptyString
  end.

Definition isG (c : ascii) : bool := (code c =? 103)%N || (code c =? 71)%N.

(** [(\d+)\s*g] anchored at the head of [s], returning group 1.  Both
    quantifiers are greedy and giving back a digit or a white-space
    character can never expose a [g], so the only candidate is the
    longest run of each. *)
Definition gramMatchAt (s : string) : option string :=
  let (ds, rest) := takeDigits s in
  if emptyString ds then None
  else
    match skipSpaces rest with
    | String c _ => if isG c then Some ds else None
    | EmptyString => None
    end.

(** [servingSize.match(/(\d+)\s*g/i)]: group 1 of the leftmost match. *)
Fixpoint gramMatch (s : string) : option string :=
  match gramMatchAt s with
  | Some ds => Some ds
  | None =>
      match s with
      | String _ s' => gramMatch s'
      | EmptyString => None
      end
  end.

Definition isE (c : ascii) : bool := (code c =? 69)%N || (code c =? 101)%N.

(** [text.match(/E\d{3}[a-z]?/gi) || []]: the successive non-overlapping
    matches, left to right. *)
Fixpoint eNumberMatches (s : string) : list string :=
  match s with
  | EmptyString => []
  | String c0 s1 =>
      match s1 with
      | String c1 (String c2 (String c3 s4)) =>
          if isE c0 && isDigit c1 && isDigit c2 && isDigit c3 then
            match s4 with
            | String c4 s5 =>
                if isLetter c4 then
                  String c0 (String c1 (String c2 (String c3 (String c4 ""))))
                    :: eNumberMatches s5
                else
                  String c0 (String c1 (String c2 (String c3 "")))
                    :: eNumberMatches s4
            | EmptyString =>
                [String c0 (String c1 (String c2 (String c3 "")))]
            end
          else eNumberMatches s1
      | _ => eNumberMatches s1
      end
  end.

(** ** normalizeToPerPor100g *)

Definition normalizeToPerPor100g
    (value : number) (servingSize : option ServingSizeValue)
  : Completion number :=
  match servingSize with
  | None | Some (ServingText EmptyString) =>
      Return value                          (* if (!servingSize) return value; *)
  | Some ServingNotText =>
      Throw "TypeError: servingSize.match is not a function"
  | Some (ServingText servingSize) =>
      match gramMatch servingSize with
      | Some gramMatch1 =>
          let grams := parseInt gramMatch1 in
          Return (mul (div value grams) (of_Z 100))
      | None =>
          (* no grams found: assume a serving of around 30g *)
          Return (mul (div value (of_Z 30)) (of_Z 100))
      end
  end.

(** ** calculateNutritionalQuality *)

Definition caloriesPenalty (score : Z) (caloriesPer100g : number) : Z :=
  if gt caloriesPer100g (of_Z 335) then score - 10
  else if gt caloriesPer100g (of_Z 270) then score - 8
  else if gt caloriesPer100g (of_Z 225) then score - 6
  else if gt caloriesPer100g (of_Z 180) then score - 4
  else if gt caloriesPer100g (of_Z 135) then score - 2
  else score.

Definition saturatedFatPenalty (score : Z) (satFatPer100g : number) : Z :=
  if gt satFatPer100g (of_Z 10) then score - 10
  else if gt satFatPer100g (of_Z 8) then score - 8
  else if gt satFatPer100g (of_Z 6) then score - 6
  else if gt satFatPer100g (of_Z 4) then score - 4
  else if gt satFatPer100g (of_Z 2) then score - 2
  else score.

Definition sugarsPenalty (score : Z) (sugarsPer100g : number) : Z :=
  if gt sugarsPer100g (of_Z 45) then score - 10
  else if gt sugarsPer100g (of_Z 36) then score - 8
  else if gt sugarsPer100g (of_Z 27) then score - 6
  else if gt sugarsPer100g (of_Z 18) then score - 4
  else if gt sugarsPer100g (of_Z 9) then score - 2
  else score.

Definition sodiumPenalty (score : Z) (sodiumPer100g : number) : Z :=
  if gt sodiumPer100g (of_Z 900) then score - 10
  else if gt sodiumPer100g (of_Z 720) then score - 8
  else if gt sodiumPer100g (of_Z 540) then score - 6
  else if gt sodiumPer100g (of_Z 360) then score - 4
  else if gt sodiumPer100g (of_Z 180) then score - 2
  else score.

Definition fiberBonus (score : Z) (fiberPer100g : number) : Z :=
  if gt fiberPer100g (decimal 47 1) then score + 5
  else if gt fiberPer100g (decimal 37 1) then score + 4
  else if gt fiberPer100g (decimal 28 1) then score + 3
  else if gt fiberPer100g (decimal 19 1) then score + 2
  else if gt fiberPer100g (decimal 9 1) then score + 1
  else score.

Definition proteinBonus (score : Z) (proteinPer100g : number) : Z :=
  if gt proteinPer100g (of_Z 8) then score + 5
  else if gt proteinPer100g (decimal 64 1) then score + 4
  else if gt proteinPer100g (decimal 48 1) then score + 3
  else if gt proteinPer100g (decimal 32 1) then score + 2
  else if gt proteinPer100g (decimal 16 1) then score + 1
  else score.

(** One block [if (nutrition.x) { const xPer100g = normalize(...); ... }]. *)
Definition nutrientBlock
    (field : option number) (servingSize : option ServingSizeValue)
    (adjust : Z -> number -> Z) (score : Z) : Completion Z :=
  match field with
  | Some value =>
      if truthy value then
        per100g <- normalizeToPerPor100g value servingSize ;;
        Return (adjust score per100g)
      else Return score
  | None => Return score                              (* undefined is falsy *)
  end.

Definition calculateNutritionalQuality (nutrition : NutritionData.t)
  : Completion Z :=
  let servingSize := NutritionData.servingSize nutrition in
  let score := 100 in
  (* negative points for unfavourable nutrients *)
  score <- nutrientBlock (NutritionData.calories nutrition) servingSize
             caloriesPenalty score ;;
  score <- nutrientBlock (NutritionData.saturatedFat nutrition) servingSize
             saturatedFatPenalty score ;;
  score <- nutrientBlock (NutritionData.sugars nutrition) servingSize
             sugarsPenalty score ;;
  score <- nutrientBlock (NutritionData.sodium nutrition) servingSize
             sodiumPenalty score ;;
  (* positive points for favourable nutrients *)
  score <- nutrientBlock (NutritionData.dietaryFiber nutrition) servingSize
             fiberBonus score ;;
  score <- nutrientBlock (NutritionData.protein nutrition) servingSize
             proteinBonus score ;;
  Return (Z.max 0 (Z.min 100 score)).

(** ** extractAdditives *)

Definition commonAdditives : list string :=
  [ "sodium benzoate"; "potassium sorbate"; "citric acid"; "ascorbic acid";
    "tocopherols"; "lecithin"; "carrageenan"; "xanthan gum"; "guar gum";
    "sodium nitrite"; "sodium nitrate"; "monosodium glutamate"; "msg";
    "high fructose corn syrup"; "artificial flavor"; "artificial color";
    "red 40"; "yellow 5"; "blue 1"; "caramel color" ].

Section WithTable.

(** [prisma.additive] *)
Variable table : list Additive.t.

(** The loop over the E-number matches: every match that resolves is
    pushed. *)
Fixpoint eNumberPass (eNumbers : list string)
    (extractedAdditives : list Additive.t) : list Additive.t :=
  match eNumbers with
  | [] => extractedAdditives
  | eNumber :: rest =>
      match Additive.findFirstByENumber table (toUpperCase eNumber) with
      | Some additive => eNumberPass rest (extractedAdditives ++ [additive])
      | None => eNumberPass rest extractedAdditives
      end
  end.

(** The loop over [commonAdditives]: a name found in the text is
    resolved by name and pushed unless a result of that name is
    already there. *)
Fixpoint namePass (ingredientsText : string) (names : list string)
    (extractedAdditives : list Additive.t) : list Additive.t :=
  match names with
  | [] => extractedAdditives
  | additiveName :: rest =>
      if includes (toLowerCase ingredientsText) (toLowerCase additiveName)
      then
        match Additive.findFirstByNameContains table additiveName with
        | Some additive =>
            if existsb (fun a => String.eqb (Additive.name a)
                                            (Additive.name additive))
                       extractedAdditives
            then namePass ingredientsText rest extractedAdditives
            else namePass ingredientsText rest
                   (extractedAdditives ++ [additive])
        | None => namePass ingredientsText rest extractedAdditives
        end
      else namePass ingredientsText rest extractedAdditives
  end.

Definition extractAdditives (ingredients : IngredientsValue)
  : Completion (list Additive.t) :=
  ingredientsText <-
    match ingredients with
    | IngredientArray parts => Return (join ", " parts)
    | IngredientText s => Return s
    | IngredientOther =>
        Throw "TypeError: ingredientsText.match is not a function"
    end ;;
  let eNumbers := eNumberMatches ingredientsText in
  let extractedAdditives := eNumberPass eNumbers [] in
  Return (namePass ingredientsText commonAdditives extractedAdditives).

(** ** calculateAdditivesImpact *)

Record AdditivesData : Type := makeAdditivesData {
  score : Z;
  additives : list AdditiveInfo.t
}.

Definition toAdditiveInfo (additive : Additive.t) : AdditiveInfo.t :=
  AdditiveInfo.make
    (match Additive.eNumber additive with     (* eNumber || name *)
     | Some e => if emptyString e then Additive.name additive else e
     | None => Additive.name additive
     end)
    (Additive.name additive)
    (Additive.riskLevel additive)
    (Additive.description additive)
    (Additive.pointDeduction additive).

Definition calculateAdditivesImpact (nutrition : NutritionData.t)
  : Completion AdditivesData :=
  match NutritionData.ingredients nutrition with
  | None | Some (IngredientText EmptyString) =>
      (* if (!nutrition.ingredients): no ingredients data = assume clean *)
      Return (makeAdditivesData 100 [])
  | Some ingredients =>
      extractedAdditives <- extractAdditives ingredients ;;
      (* the loop pushes one AdditiveInfo per extracted additive and
         subtracts its deduction from the running score *)
      let additives := map toAdditiveInfo extractedAdditives in
      let score :=
        fold_left (fun score additive =>
                     score - Additive.pointDeduction additive)
                  extractedAdditives 100 in
      Return (makeAdditivesData (Z.max 0 score) additives)
  end.

(** ** calculateOrganicBonus *)

Definition calculateOrganicBonus (nutrition : NutritionData.t) : Z :=
  0. (* default to no bonus without certification data *)

(** ** getScoreCategory, getScoreColor *)

Definition getScoreCategory (score : Z) : ScoreCategory :=
  if SCORE_THRESHOLDS.EXCELLENT <=? score then excellent
  else if SCORE_THRESHOLDS.GOOD <=? score then good
  else if SCORE_THRESHOLDS.FAIR <=? score then fair
  else poor.

Definition getScoreColor (category : ScoreCategory) : ScoreColor :=
  match category with
  | excellent => color_green
  | good => color_light_green
  | fair => color_orange
  | poor => color_red
  end.

(** ** generateImprovements *)

Definition isHighRisk (a : AdditiveInfo.t) : bool :=
  match AdditiveInfo.riskLevel a with
  | red | orange => true
  | _ => false
  end.

Definition generateImprovements (nutritionalQuality : Z)
    (additivesData : AdditivesData) (organicBonus : Z) : list string :=
  let improvements := [] in
  let improvements :=
    if nutritionalQuality <? 60 then
      improvements
        ++ ["Look for products with lower sugar, sodium, and saturated fat"]
        ++ ["Choose products with higher fiber and protein content"]
    else improvements in
  let improvements :=
    if score additivesData <? 80 then
      let highRiskAdditives := filter isHighRisk (additives additivesData) in
      let improvements :=
        match highRiskAdditives with
        | _ :: _ =>
            improvements
              ++ [("Avoid products with "
                     ++ join ", " (map AdditiveInfo.name highRiskAdditives))%string]
        | [] => improvements
        end in
      improvements
        ++ ["Choose products with fewer artificial additives and preservatives"]
    else improvements in
  if organicBonus =? 0 then
    improvements ++ ["Consider organic alternatives when available"]
  else improvements.

(** ** calculateScore *)

(** The weighted sum inside [Math.round], in binary64. *)
Definition weightedScore (nutritionalQuality additivesScore organicBonus : Z)
  : number :=
  add (add (mul (of_Z nutritionalQuality) SCORING_WEIGHTS.NUTRITIONAL_QUALITY)
           (mul (of_Z additivesScore) SCORING_WEIGHTS.ADDITIVES_IMPACT))
      (mul (of_Z organicBonus) SCORING_WEIGHTS.ORGANIC_BONUS).

Definition calculateScore (nutritionData : NutritionData.t)
  : Completion NutritionScoring.t :=
  let attempt :=
    nutritionalQuality <- calculateNutritionalQuality nutritionData ;;
    additivesData <- calculateAdditivesImpact nutritionData ;;
    let organicBonus := calculateOrganicBonus nutritionData in
    let finalScore :=
      Math_round
        (weightedScore nutritionalQuality (score additivesData) organicBonus) in
    let category := getScoreCategory finalScore in
    let color := getScoreColor category in
    let improvements :=
      generateImprovements nutritionalQuality additivesData organicBonus in
    Return
      (NutritionScoring.make finalScore category color
         (NutritionScoring.makeBreakdown
            nutritionalQuality (score additivesData) organicBonus)
         (additives additivesData)
         improvements) in
  match attempt with
  | Return scoring => Return scoring
  | Throw _ => Throw "Failed to calculate nutrition score"
  end.

(** ** batchCalculateScores *)

(** The default poor score for a failed calculation. *)
Definition failedScore : NutritionScoring.t :=
  NutritionScoring.make 0 poor color_red
    (NutritionScoring.makeBreakdown 0 0 0)
    []
    ["Unable to calculate nutrition score"].

(** [Promise.allSettled] keeps one settled result per input, in input
    order; the [map] that follows replaces each rejection. *)
Definition batchCalculateScores (nutritionDataList : list NutritionData.t)
  : list NutritionScoring.t :=
  let results := map calculateScore nutritionDataList in
  map (fun result =>
         match result with
         | Return value => value
         | Throw _ => failedScore
         end) results.

End WithTable.

End NutritionScoringService.

(* ================================================================== *)
(** * Reference definitions, in the words of the specification *)
(* ================================================================== *)

Module Reference.

Import Js.

(** A five-tier band table: thresholds per 100g, highest first, each
    with its points. *)
Definition Bands : Type := list (number * Z).

Definition caloriesBands : Bands :=
  [ (of_Z 335, 10); (of_Z 270, 8); (of_Z 225, 6); (of_Z 180, 4); (of_Z 135, 2) ].
Definition saturatedFatBands : Bands :=
  [ (of_Z 10, 10); (of_Z 8, 8); (of_Z 6, 6); (of_Z 4, 4); (of_Z 2, 2) ].
Definition sugarsBands : Bands :=
  [ (of_Z 45, 10); (of_Z 36, 8); (of_Z 27, 6); (of_Z 18, 4); (of_Z 9, 2) ].
Definition sodiumBands : Bands :=
  [ (of_Z 900, 10); (of_Z 720, 8); (of_Z 540, 6); (of_Z 360, 4); (of_Z 180, 2) ].
Definition fiberBands : Bands :=
  [ (decimal 47 1, 5); (decimal 37 1, 4); (decimal 28 1, 3);
    (decimal 19 1, 2); (decimal 9 1, 1) ].
Definition proteinBands : Bands :=
  [ (of_Z 8, 5); (decimal 64 1, 4); (decimal 48 1, 3);
    (decimal 32 1, 2); (decimal 16 1, 1) ].

(** The points of the first band whose threshold [x] exceeds; nothing
    below the lowest band. *)
Fixpoint bandPoints (bands : Bands) (x : number) : Z :=
  match bands with
  | [] => 0
  | (threshold, points) :: lower =>
      if gt x threshold then points else bandPoints lower x
  end.

Section Quality.

(** Normalisation to per-100g for the product at hand. *)
Variable per100g : number -> number.

(** A present nutrient contributes the points of its band; an absent
    one contributes nothing. *)
Definition contribution (bands : Bands) (field : option number) : Z :=
  match field with
  | Some value => bandPoints bands (per100g value)
  | None => 0
  end.

Definition clamp (score : Z) : Z := Z.max 0 (Z.min 100 score).

Definition nutritionalQuality (facts : NutritionData.t) : Z :=
  clamp
    (100
     - contribution caloriesBands (NutritionData.calories facts)
     - contribution saturatedFatBands (NutritionData.saturatedFat facts)
     - contribution sugarsBands (NutritionData.sugars facts)
     - contribution sodiumBands (NutritionData.sodium facts)
     + contribution fiberBands (NutritionData.dietaryFiber facts)
     + contribution proteinBands (NutritionData.protein facts)).

End Quality.

(** The normalisation rule as the specification words it: scale by the
    gram quantity when the serving size has one, and by an assumed 30g
    serving when it has none or is absent. *)
Definition normalize (value : number) (servingSize : option string)
  : number :=
  match servingSize with
  | Some text =>
      match NutritionScoringService.gramMatch text with
      | Some digits => div (mul value (of_Z 100)) (parseInt digits)
      | None => div (mul value (of_Z 100)) (of_Z 30)
      end
  | None => div (mul value (of_Z 100)) (of_Z 30)
  end.

(** The sum of the point deductions of a list of additives. *)
Definition totalDeduction (additives : list Additive.t) : Z :=
  fold_right (fun a total => Additive.pointDeduction a + total) 0 additives.

(** [round (q*0.6 + a*0.3 + o*0.1)] over the rationals:
    [floor ((6q + 3a + o) / 10 + 1/2)]. *)
Definition exactFinalScore (quality additivesScore organic : Z) : Z :=
  (6 * quality + 3 * additivesScore + organic + 5) / 10.

(** A result list without repetition of a resolved additive. *)
Definition deduplicated (found : list Additive.t) : Prop :=
  NoDup (map Additive.name found).

End Reference.

(** The sub-scores whose weighted sum is examined exhaustively:
    every quality and every additives score between 0 and 100. *)
Definition subScores : list Z := map Z.of_nat (seq 0 101).

Definition weightedScoreCheck (quality additivesScore : Z) : bool :=
  let weighted :=
    NutritionScoringService.weightedScore quality additivesScore 0 in
  let final := Js.Math_round weighted in
  Js.isFinite weighted
  && (0 <=? final) && (final <=? 90)
  && (if additivesScore mod 5 =? 0
      then final =? Reference.exactFinalScore quality additivesScore 0
      else true).

(** The scenario of the specification's worked example. *)
Definition scenarioFacts : NutritionData.t :=
  {| NutritionData.servingSize := Some (ServingText "50g");
     NutritionData.calories := None;
     NutritionData.saturatedFat := None;
     NutritionData.sodium := Some (Js.of_Z 1200);
     NutritionData.dietaryFiber := None;
     NutritionData.sugars := None;
     NutritionData.protein := None;
     NutritionData.ingredients :=
       Some (IngredientText "water, E102, E621, natural flavor") |}.

(** What the service returns on [scenarioFacts] with the seeded table. *)
Definition scenarioScoring : NutritionScoring.t :=
  {| NutritionScoring.finalScore := 75;
     NutritionScoring.category := good;
     NutritionScoring.color := color_light_green;
     NutritionScoring.breakdown :=
       {| NutritionScoring.nutritionalQuality := 90;
          NutritionScoring.additivesImpact := 70;
          NutritionScoring.organicBonus := 0 |};
     NutritionScoring.additives :=
       [ AdditiveInfo.make "E102" "Tartrazine (Yellow 5)" red
           "Artificial yellow coloring" 20;
         AdditiveInfo.make "E621" "Monosodium glutamate (MSG)" orange
           "Flavor enhancer" 10 ];
     NutritionScoring.improvements :=
       [ "Avoid products with Tartrazine (Yellow 5), Monosodium glutamate (MSG)";
         "Choose products with fewer artificial additives and preservatives";
         "Consider organic alternatives when available" ] |}.

(** A request body whose serving size is a number rather than a string. *)
Definition malformedFacts : NutritionData.t :=
  {| NutritionData.servingSize := Some ServingNotText;
     NutritionData.calories := Some (Js.of_Z 250);
     NutritionData.saturatedFat := None;
     NutritionData.sodium := None;
     NutritionData.dietaryFiber := None;
     NutritionData.sugars := None;
     NutritionData.protein := None;
     NutritionData.ingredients := None |}.

(** The numbers that are falsy as a condition: the zeros and NaN. *)
Definition falsyNumber (x : Js.number) : Prop :=
  match x with
  | S754_zero _ | S754_nan => True
  | _ => False
  end.

(** Normalisation on the declared type of [servingSize], an optional
    string, where it cannot throw. *)
Definition per100gOf (servingSize : option string) (value : Js.number)
  : Js.number :=
  match NutritionScoringService.normalizeToPerPor100g
          value (option_map ServingText servingSize) with
  | Js.Return x => x
  | Js.Throw _ => value
  end.

(** Every character of [s] satisfies [p]. *)
Fixpoint allChars (p : ascii -> bool) (s : string) : bool :=
  match s with
  | EmptyString => true
  | String c s' => p c && allChars p s'
  end.

(** A run of white space: characters of [\s], one after the other. *)
Inductive Blanks : string -> Prop :=
| Blanks_nil : Blanks ""
| Blanks_cons w blanks :
    In w Js.whiteSpace -> Blanks blanks -> Blanks (w ++ blanks).

(** The serving-size pattern in words.  It matches at the head of [s],
    with [digits] for its group, when [s] is a non-empty run of decimal
    digits, then a run of white space, possibly empty, then a letter g of
    either case, then anything. *)
Definition GramQuantityAt (s digits : string) : Prop :=
  exists blanks g rest,
    s = (digits ++ blanks ++ String g rest)%string
    /\ digits <> ""
    /\ allChars Js.isDigit digits = true
    /\ Blanks blanks
    /\ NutritionScoringService.isG g = true.

(** The gram quantity of a text: the group of the leftmost match, no
    match starting at an earlier position. *)
Definition GramQuantity (text digits : string) : Prop :=
  exists before s,
    text = (before ++ s)%string
    /\ GramQuantityAt s digits
    /\ forall skipped later,
         before = (skipped ++ later)%string ->
         later <> "" ->
         forall earlier, ~ GramQuantityAt (later ++ s) earlier.

(** The normalisation rule as the code has it, in words: [per100g] is
    the value itself when the serving size is absent or empty, the value
    divided by the gram quantity and multiplied by 100 when the serving
    size has a gram quantity, and the value divided by 30 and multiplied
    by 100 when it is non-empty without one. *)
Definition NormalizedPer100g (servingSize : option string)
    (value per100g : Js.number) : Prop :=
  match servingSize with
  | None | Some EmptyString => per100g = value
  | Some text =>
      (exists digits,
         GramQuantity text digits
         /\ per100g
            = Js.mul (Js.div value (Js.of_Z (Js.parseDigits 0 digits)))
                     (Js.of_Z 100))
      \/ ((forall digits, ~ GramQuantity text digits)
          /\ per100g = Js.mul (Js.div value (Js.of_Z 30)) (Js.of_Z 100))
  end.

(** [info] reports the detected [additive]: its E-number, or its name
    when it has none, as the code, and its name, risk level, description
    and point deduction. *)
Definition reportsAdditive (info : AdditiveInfo.t) (additive : Additive.t)
  : Prop :=
  AdditiveInfo.code info
  = match Additive.eNumber additive with
    | Some (String c e) => String c e
    | Some EmptyString | None => Additive.name additive
    end
  /\ AdditiveInfo.name info = Additive.name additive
  /\ AdditiveInfo.riskLevel info = Additive.riskLevel additive
  /\ AdditiveInfo.description info = Additive.description additive
  /\ AdditiveInfo.pointDeduction info = Additive.pointDeduction additive.

(** 200 mg of sodium and nothing else, the serving size not given. *)
Definition lowSodiumFacts : NutritionData.t :=
  {| NutritionData.servingSize := None;
     NutritionData.calories := None;
     NutritionData.saturatedFat := None;
     NutritionData.sodium := Some (Js.of_Z 200);
     NutritionData.dietaryFiber := None;
     NutritionData.sugars := None;
     NutritionData.protein := None;
     NutritionData.ingredients := None |}.

(* ================================================================== *)
(** * Further definitions used by the properties of the service *)
(* ================================================================== *)

(** Truthiness of an optional reading: [undefined] is falsy. *)
Definition truthyField (field : option Js.number) : bool :=
  match field with
  | Some value => Js.truthy value
  | None => false
  end.

(** The six readings [calculateNutritionalQuality] tests, in the order
    it tests them. *)
Definition scoredReadings (nutrition : NutritionData.t)
  : list (option Js.number) :=
  [ NutritionData.calories nutrition;
    NutritionData.saturatedFat nutrition;
    NutritionData.sugars nutrition;
    NutritionData.sodium nutrition;
    NutritionData.dietaryFiber nutrition;
    NutritionData.protein nutrition ].

(** The quality sub-scores the calculator can return. *)
Definition qualityScores : list Z := map Z.of_nat (seq 60 41).

Definition weightedFloorCheck (quality additivesScore : Z) : bool :=
  36 <=? Js.Math_round
           (NutritionScoringService.weightedScore quality additivesScore 0).

(** A product in the top band of every penalised nutrient, with five
    red additives. *)
Definition worstFacts : NutritionData.t :=
  {| NutritionData.servingSize := Some (ServingText "100g");
     NutritionData.calories := Some (Js.of_Z 500);
     NutritionData.saturatedFat := Some (Js.of_Z 20);
     NutritionData.sodium := Some (Js.of_Z 1000);
     NutritionData.dietaryFiber := None;
     NutritionData.sugars := Some (Js.of_Z 50);
     NutritionData.protein := None;
     NutritionData.ingredients :=
       Some (IngredientArray ["E102"; "E110"; "E129"; "E133"; "E951"]) |}.

(** The three fixed suggestions of [generateImprovements]. *)
Definition qualityAdvice : list string :=
  [ "Look for products with lower sugar, sodium, and saturated fat";
    "Choose products with higher fiber and protein content" ].
Definition additivesAdvice : string :=
  "Choose products with fewer artificial additives and preservatives".
Definition organicAdvice : string :=
  "Consider organic alternatives when available".

(** The inputs on which a sub-calculator throws: a serving size that is
    not a string while some scored reading is truthy, or ingredients that
    are neither an array nor a string. *)
Definition scoringFails (nutrition : NutritionData.t) : Prop :=
  (NutritionData.servingSize nutrition = Some ServingNotText
   /\ existsb truthyField (scoredReadings nutrition) = true)
  \/ NutritionData.ingredients nutrition = Some IngredientOther.

(** [E\d{3}] on four characters. *)
Definition eNumberHead (c0 c1 c2 c3 : ascii) : bool :=
  NutritionScoringService.isE c0
  && Js.isDigit c1 && Js.isDigit c2 && Js.isDigit c3.

(** The pattern [E\d{3}] matches at the head of [s]. *)
Definition eNumberAt (s : string) : bool :=
  match s with
  | String c0 (String c1 (String c2 (String c3 _))) => eNumberHead c0 c1 c2 c3
  | _ => false
  end.

(** The whole of [token] matches [E\d{3}[a-z]?] under the [i] flag. *)
Definition eNumberShape (token : string) : bool :=
  match token with
  | String c0 (String c1 (String c2 (String c3 rest))) =>
      eNumberHead c0 c1 c2 c3
      && match rest with
         | EmptyString => true
         | String c4 EmptyString => Js.isLetter c4
         | _ => false
         end
  | _ => false
  end.

(** The text that [extractAdditives] scans. *)
Definition ingredientsText (ingredients : IngredientsValue) : option string :=
  match ingredients with
  | IngredientArray parts => Some (Js.join ", " parts)
  | IngredientText s => Some s
  | IngredientOther => None
  end.

(** shared/constants: [ADDITIVE_POINT_DEDUCTIONS], keyed by risk level. *)
Definition ADDITIVE_POINT_DEDUCTIONS (riskLevel : RiskLevel) : Z :=
  match riskLevel with
  | green => 0
  | yellow => 5
  | orange => 10
  | red => 20
  end.

(** The deductions of a list of reported additives, by risk level. *)
Definition deductionByRisk (reported : list AdditiveInfo.t) : Z :=
  fold_right
    (fun info total =>
       ADDITIVE_POINT_DEDUCTIONS (AdditiveInfo.riskLevel info) + total)
    0 reported.

(* ================================================================== *)
(** * NutritionDataService: the mapping of provider records *)
(* ================================================================== *)

(** The numeric properties of the interface [NutritionData]. *)
Inductive Reading : Type :=
| servingsPerContainer | calories | caloriesFromFat | totalFat
| saturatedFat | transFat | cholesterol | sodium | totalCarbs
| dietaryFiber | sugars | addedSugars | protein | vitaminA | vitaminC
| calcium | iron | potassium | vitaminD.

Definition Reading_eqb (a b : Reading) : bool :=
  match a, b with
  | servingsPerContainer, servingsPerContainer | calories, calories
  | caloriesFromFat, caloriesFromFat | totalFat, totalFat
  | saturatedFat, saturatedFat | transFat, transFat
  | cholesterol, cholesterol | sodium, sodium | totalCarbs, totalCarbs
  | dietaryFiber, dietaryFiber | sugars, sugars | addedSugars, addedSugars
  | protein, protein | vitaminA, vitaminA | vitaminC, vitaminC
  | calcium, calcium | iron, iron | potassium, potassium
  | vitaminD, vitaminD => true
  | _, _ => false
  end.

(** A [NutritionData] object as the data service builds it: the serving
    size and, for each numeric property, its value if it is set. *)
Module NutritionObject.
Record t : Type := make {
  servingSize : option string;
  reading : Reading -> option Js.number
}.

(** [{}] *)
Definition empty : t := make None (fun _ => None).

(** [object.property = value] *)
Definition set (property : Reading) (value : Js.number) (object : t) : t :=
  make (servingSize object)
       (fun p => if Reading_eqb p property then Some value
                 else reading object p).

(** The same object as [calculateScore] reads it; the data service sets
    no [ingredients]. *)
Definition scoringView (object : t) : NutritionData.t :=
  {| NutritionData.servingSize := option_map ServingText (servingSize object);
     NutritionData.calories := reading object calories;
     NutritionData.saturatedFat := reading object saturatedFat;
     NutritionData.sodium := reading object sodium;
     NutritionData.dietaryFiber := reading object dietaryFiber;
     NutritionData.sugars := reading object sugars;
     NutritionData.protein := reading object protein;
     NutritionData.ingredients := None |}.
End NutritionObject.

(** The properties of [OpenFoodFactsProduct] that the mapping reads;
    [nutriments] is a record from keys to numbers. *)
Module OpenFoodFactsProduct.
Record t : Type := make {
  serving_size : option string;
  nutriments : option (string -> option Js.number)
}.
End OpenFoodFactsProduct.

Module USDANutrient.
Record t : Type := make {
  nutrientId : Z;
  value : Js.number
}.
End USDANutrient.

Module USDAProduct.
Record t : Type := make {
  foodNutrients : option (list USDANutrient.t)
}.
End USDAProduct.

Module NutritionDataService.

Import Js.

(** [a || b || undefined] on optional numbers. *)
Definition firstTruthy (a b : option number) : option number :=
  if truthyField a then a
  else if truthyField b then b
  else None.

(** The pair of nutriment keys read for each property, per 100g first;
    the properties the mapping sets to [undefined] have none. *)
Definition nutrimentKeys (property : Reading) : option (string * string) :=
  match property with
  | calories => Some ("energy-kcal_100g", "energy-kcal")
  | totalFat => Some ("fat_100g", "fat")
  | saturatedFat => Some ("saturated-fat_100g", "saturated-fat")
  | transFat => Some ("trans-fat_100g", "trans-fat")
  | cholesterol => Some ("cholesterol_100g", "cholesterol")
  | sodium => Some ("sodium_100g", "sodium")
  | totalCarbs => Some ("carbohydrates_100g", "carbohydrates")
  | dietaryFiber => Some ("fiber_100g", "fiber")
  | sugars => Some ("sugars_100g", "sugars")
  | protein => Some ("proteins_100g", "proteins")
  | vitaminA => Some ("vitamin-a_100g", "vitamin-a")
  | vitaminC => Some ("vitamin-c_100g", "vitamin-c")
  | calcium => Some ("calcium_100g", "calcium")
  | iron => Some ("iron_100g", "iron")
  | potassium => Some ("potassium_100g", "potassium")
  | vitaminD => Some ("vitamin-d_100g", "vitamin-d")
  | servingsPerContainer | caloriesFromFat | addedSugars => None
  end.

(** [mapOpenFoodFactsToNutrition]; nothing in the body can throw on a
    product object, so the [catch] that returns [null] is not reached. *)
Definition mapOpenFoodFactsToNutrition (product : OpenFoodFactsProduct.t)
  : NutritionObject.t :=
  let nutriments :=
    match OpenFoodFactsProduct.nutriments product with
    | Some nutriments => nutriments
    | None => fun _ => None                            (* || {} *)
    end in
  NutritionObject.make
    (match OpenFoodFactsProduct.serving_size product with
     | Some EmptyString | None => None                 (* || undefined *)
     | Some size => Some size
     end)
    (fun property =>
       match nutrimentKeys property with
       | Some (per100g, perServing) =>
           firstTruthy (nutriments per100g) (nutriments perServing)
       | None => None
       end).

(** The [switch] of [mapUSDAToNutrition]. *)
Definition usdaProperty (nutrientId : Z) : option Reading :=
  if nutrientId =? 1008 then Some calories
  else if nutrientId =? 1004 then Some totalFat
  else if nutrientId =? 1258 then Some saturatedFat
  else if nutrientId =? 1257 then Some transFat
  else if nutrientId =? 1253 then Some cholesterol
  else if nutrientId =? 1093 then Some sodium
  else if nutrientId =? 1005 then Some totalCarbs
  else if nutrientId =? 1079 then Some dietaryFiber
  else if nutrientId =? 2000 then Some sugars
  else if nutrientId =? 1003 then Some protein
  else if nutrientId =? 1106 then Some vitaminA
  else if nutrientId =? 1162 then Some vitaminC
  else if nutrientId =? 1087 then Some calcium
  else if nutrientId =? 1089 then Some iron
  else if nutrientId =? 1092 then Some potassium
  else if nutrientId =? 1114 then Some vitaminD
  else None.

(** [mapUSDAToNutrition]: one assignment per recognised nutrient, in
    list order. *)
Definition mapUSDAToNutrition (food : USDAProduct.t) : NutritionObject.t :=
  let foodNutrients :=
    match USDAProduct.foodNutrients food with
    | Some nutrients => nutrients
    | None => []                                       (* || [] *)
    end in
  fold_left
    (fun nutritionData nutrient =>
       match usdaProperty (USDANutrient.nutrientId nutrient) with
       | Some property =>
           NutritionObject.set property (USDANutrient.value nutrient)
                               nutritionData
       | None => nutritionData
       end)
    foodNutrients NutritionObject.empty.

Section Deduplicate.

(** The string a number renders to inside a template literal. *)
Variable numberToString : number -> string.

Definition render (x : option number) : string :=
  match x with
  | Some v => numberToString v
  | None => "undefined"
  end.

(** The hash of [deduplicateResults]. *)
Definition resultHash (result : NutritionObject.t) : string :=
  (render (NutritionObject.reading result calories) ++ "-"
   ++ render (NutritionObject.reading result totalFat) ++ "-"
   ++ render (NutritionObject.reading result protein) ++ "-"
   ++ render (NutritionObject.reading result sodium))%string.

(** The [filter] of [deduplicateResults], [seen] being the set so far. *)
Fixpoint filterUnseen (seen : list string) (results : list NutritionObject.t)
  : list NutritionObject.t :=
  match results with
  | [] => []
  | result :: rest =>
      let hash := resultHash result in
      if existsb (String.eqb hash) seen then filterUnseen seen rest
      else result :: filterUnseen (hash :: seen) rest
  end.

Definition deduplicateResults (results : list NutritionObject.t)
  : list NutritionObject.t :=
  filterUnseen [] results.

End Deduplicate.

End NutritionDataService.

(** [l] with some elements removed, the order kept. *)
Inductive Subsequence {A : Type} : list A -> list A -> Prop :=
| Subsequence_nil : Subsequence [] []
| Subsequence_keep x l l' : Subsequence l l' -> Subsequence (x :: l) (x :: l')
| Subsequence_drop x l l' : Subsequence l l' -> Subsequence l (x :: l').

(** The last nutrient of a list that the [switch] maps to [property]. *)
Definition lastNutrientFor (property : Reading)
    (nutrients : list USDANutrient.t) : option Js.number :=
  option_map USDANutrient.value
    (find (fun nutrient =>
             match NutritionDataService.usdaProperty
                     (USDANutrient.nutrientId nutrient) with
             | Some p => Reading_eqb property p
             | None => false
             end)
          (rev nutrients)).

(* ================================================================== *)
(** * Routes that call the scoring service *)
(* ================================================================== *)

(** The outcome of a route handler: the data of a success response, or
    the [AppError] handed to the error middleware. *)
Inductive Response (A : Type) : Type :=
| Success (data : A)
| AppError (message : string) (statusCode : Z).
Arguments Success {A} data.
Arguments AppError {A} message statusCode.

(** A value of the request body: a string, or anything else. *)
Inductive BodyValue : Type :=
| BodyString (s : string)
| BodyNotString.

Module IngredientAnalysis.
Record t : Type := make {
  additives : list AdditiveInfo.t;
  additivesScore : Z;
  riskAssessment : string;
  recommendations : list string
}.
End IngredientAnalysis.

Module NutritionRoutes.

Import Js.

Definition hasRisk (level : RiskLevel) (a : AdditiveInfo.t) : bool :=
  match level, AdditiveInfo.riskLevel a with
  | green, green | yellow, yellow | orange, orange | red, red => true
  | _, _ => false
  end.

(** POST /api/nutrition/analyze-ingredients, from the request body to
    the outcome. *)
Definition analyzeIngredients (table : list Additive.t)
    (ingredients : option BodyValue) : Response IngredientAnalysis.t :=
  match ingredients with
  | Some (BodyString (String _ _ as ingredients)) =>
      (* temporary nutrition data object for the analysis *)
      let tempNutritionData :=
        {| NutritionData.servingSize := None;
           NutritionData.calories := None;
           NutritionData.saturatedFat := None;
           NutritionData.sodium := None;
           NutritionData.dietaryFiber := None;
           NutritionData.sugars := None;
           NutritionData.protein := None;
           NutritionData.ingredients := Some (IngredientArray [ingredients]) |} in
      match NutritionScoringService.calculateScore table tempNutritionData with
      | Return scoring =>
          let additives := NutritionScoring.additives scoring in
          Success
            (IngredientAnalysis.make
               additives
               (NutritionScoring.additivesImpact
                  (NutritionScoring.breakdown scoring))
               (match additives with
                | [] => "No concerning additives found"
                | _ :: _ =>
                    if existsb (hasRisk red) additives
                    then "High risk additives present"
                    else if existsb (hasRisk orange) additives
                         then "Moderate risk additives present"
                         else "Low risk additives only"
                end)
               (filter (fun imp => includes imp "additive"
                                   || includes imp "artificial")
                       (NutritionScoring.improvements scoring)))
      | Throw _ => AppError "Failed to analyze ingredients" 500
      end
  | _ =>
      (* !ingredients || typeof ingredients !== 'string' *)
      AppError "Ingredients string is required" 400
  end.

End NutritionRoutes.

Module ProductRoutes.

Section Alternatives.

(** What the handler carries along with a scoring. *)
Variable Product : Type.

Definition Scored : Type := (Product * NutritionScoring.t)%type.

Definition finalScoreOf (product : Scored) : Z :=
  NutritionScoring.finalScore (snd product).

(** [sort((a, b) => b.scoring.finalScore - a.scoring.finalScore)]: the
    comparator is consistent, so the result is the stable arrangement by
    decreasing final score. *)
Fixpoint insertByScore (product : Scored) (sorted : list Scored)
  : list Scored :=
  match sorted with
  | [] => [product]
  | next :: rest =>
      if finalScoreOf next <=? finalScoreOf product
      then product :: next :: rest
      else next :: insertByScore product rest
  end.

Definition sortByScore (products : list Scored) : list Scored :=
  fold_right insertByScore [] products.

(** [slice(0, end)], [end] being what [parseInt] gave: [None] for NaN. *)
Definition sliceFromStart {A} (finish : option Z) (l : list A) : list A :=
  match finish with
  | None => []
  | Some finish =>
      if finish <? 0
      then firstn (Z.to_nat (Z.max (Z.of_nat (List.length l) + finish) 0)) l
      else firstn (Z.to_nat finish) l
  end.

(** The better alternatives of GET /api/products/:productId/alternatives. *)
Definition betterAlternatives (originalScore : Z) (limit : option Z)
    (productsWithScores : list Scored) : list Scored :=
  sliceFromStart limit
    (sortByScore
       (filter (fun product => originalScore <? finalScoreOf product)
               productsWithScores)).

(** [improvementScore] of an alternative. *)
Definition improvementScore (originalScore : Z) (product : Scored) : Z :=
  finalScoreOf product - originalScore.

End Alternatives.

End ProductRoutes.

(* ================================================================== *)
(** * Properties *)
(* ================================================================== *)

Import Js NutritionScoringService.

(** ** Completions *)

Lemma bind_Return_inv {A B} (c : Completion A) (k : A -> Completion B) b :
  bind c k = Return b -> exists a, c = Return a /\ k a = Return b.
Proof.
  destruct c as [a | m]; simpl; intros H; [ | discriminate H ].
  exists a; split; [ reflexivity | exact H ].
Qed.

Lemma bind_Return {A B} (a : A) (k : A -> Completion B) :
  bind (Return a) k = k a.
Proof. reflexivity. Qed.

Ltac invert_bind H :=
  let a := fresh "v" in
  let Ha := fresh "Hv" in
  apply bind_Return_inv in H; destruct H as (a & Ha & H).

Lemma Return_inj {A} (a b : A) : Return a = Return b -> a = b.
Proof. intros H; injection H as H; exact H. Qed.

Ltac invert_Return H := cbv zeta in H; apply Return_inj in H.

(** ** The additive table and the extractor *)

Lemma findFirstByENumber_In table code a :
  Additive.findFirstByENumber table code = Some a -> In a table.
Proof. intros H; apply find_some in H; tauto. Qed.

Lemma findFirstByNameContains_In table text a :
  Additive.findFirstByNameContains table text = Some a -> In a table.
Proof. intros H; apply find_some in H; tauto. Qed.

Lemma eNumberPass_from_table table eNumbers :
  forall found,
    Forall (fun a => In a table) found ->
    Forall (fun a => In a table) (eNumberPass table eNumbers found).
Proof.
  induction eNumbers as [ | e rest IH ]; intros found Hfound; simpl.
  - exact Hfound.
  - destruct (Additive.findFirstByENumber table (toUpperCase e)) as [a | ] eqn:Hfind.
    + apply IH, Forall_app; split; [ exact Hfound | ].
      constructor; [ | constructor ].
      eapply findFirstByENumber_In, Hfind.
    + apply IH, Hfound.
Qed.

Lemma namePass_from_table table text names :
  forall found,
    Forall (fun a => In a table) found ->
    Forall (fun a => In a table) (namePass table text names found).
Proof.
  induction names as [ | n rest IH ]; intros found Hfound; simpl.
  - exact Hfound.
  - destruct (includes (toLowerCase text) (toLowerCase n)); [ | apply IH, Hfound ].
    destruct (Additive.findFirstByNameContains table n) as [a | ] eqn:Hfind;
      [ | apply IH, Hfound ].
    destruct (existsb _ found); [ apply IH, Hfound | ].
    apply IH, Forall_app; split; [ exact Hfound | ].
    constructor; [ | constructor ].
    eapply findFirstByNameContains_In, Hfind.
Qed.

Lemma extractAdditives_from_table table ingredients found :
  extractAdditives table ingredients = Return found ->
  Forall (fun a => In a table) found.
Proof.
  unfold extractAdditives; intros H.
  invert_bind H. invert_Return H. subst found.
  apply namePass_from_table, eNumberPass_from_table. constructor.
Qed.

(** The name pass keeps what the pattern pass found, in place, and only
    appends. *)
Lemma namePass_extends table text names :
  forall found, exists added,
    namePass table text names found = found ++ added.
Proof.
  induction names as [ | n rest IH ]; intros found; simpl.
  - exists []. symmetry; apply app_nil_r.
  - destruct (includes (toLowerCase text) (toLowerCase n)); [ | apply IH ].
    destruct (Additive.findFirstByNameContains table n) as [a | ]; [ | apply IH ].
    destruct (existsb _ found); [ apply IH | ].
    destruct (IH (found ++ [a])) as (added & ->).
    exists (a :: added). rewrite <- app_assoc. reflexivity.
Qed.

(** ** Deductions *)

Lemma fold_deductions (l : list Additive.t) :
  forall start,
    fold_left (fun score additive => score - Additive.pointDeduction additive)
              l start
    = start - Reference.totalDeduction l.
Proof.
  induction l as [ | a l IH ]; intros start; simpl.
  - lia.
  - rewrite IH. lia.
Qed.

Lemma totalDeduction_nonneg table (l : list Additive.t) :
  Additive.nonNegative table ->
  Forall (fun a => In a table) l ->
  0 <= Reference.totalDeduction l.
Proof.
  unfold Additive.nonNegative; intros Htable Hl.
  induction Hl as [ | a l Ha Hl IH ]; simpl; [ lia | ].
  rewrite Forall_forall in Htable. specialize (Htable a Ha). lia.
Qed.

(** ** calculateAdditivesImpact *)

Lemma extractAdditives_empty_text table :
  extractAdditives table (IngredientText "") = Return [].
Proof. reflexivity. Qed.

Lemma calculateAdditivesImpact_absent table nutrition :
  NutritionData.ingredients nutrition = None ->
  calculateAdditivesImpact table nutrition = Return (makeAdditivesData 100 []).
Proof. unfold calculateAdditivesImpact; intros ->; reflexivity. Qed.

Lemma calculateAdditivesImpact_present table nutrition ingredients found :
  NutritionData.ingredients nutrition = Some ingredients ->
  extractAdditives table ingredients = Return found ->
  calculateAdditivesImpact table nutrition
  = Return (makeAdditivesData
              (Z.max 0 (100 - Reference.totalDeduction found))
              (map toAdditiveInfo found)).
Proof.
  unfold calculateAdditivesImpact; intros -> Hfound.
  assert (Hloop :
            (extractedAdditives <- extractAdditives table ingredients ;;
             Return (makeAdditivesData
                       (Z.max 0 (fold_left
                                   (fun score additive =>
                                      score - Additive.pointDeduction additive)
                                   extractedAdditives 100))
                       (map toAdditiveInfo extractedAdditives)))
            = Return (makeAdditivesData
                        (Z.max 0 (100 - Reference.totalDeduction found))
                        (map toAdditiveInfo found))).
  { rewrite Hfound, bind_Return, fold_deductions. reflexivity. }
  (* on the empty string the early return agrees with the loop, the
     extractor finding nothing there *)
  destruct ingredients as [ parts | [ | c s ] | ]; exact Hloop.
Qed.

Lemma calculateAdditivesImpact_Return table nutrition data :
  calculateAdditivesImpact table nutrition = Return data ->
  data = makeAdditivesData 100 []
  \/ exists ingredients found,
       NutritionData.ingredients nutrition = Some ingredients
       /\ extractAdditives table ingredients = Return found
       /\ data = makeAdditivesData
                   (Z.max 0 (100 - Reference.totalDeduction found))
                   (map toAdditiveInfo found).
Proof.
  intros H.
  destruct (NutritionData.ingredients nutrition) as [ ingredients | ] eqn:Hing.
  - destruct (extractAdditives table ingredients) as [ found | m ] eqn:Hfound.
    + right; exists ingredients, found.
      rewrite (calculateAdditivesImpact_present _ _ _ _ Hing Hfound) in H.
      apply Return_inj in H. auto.
    + left. unfold calculateAdditivesImpact in H. rewrite Hing in H.
      destruct ingredients as [ parts | [ | c s ] | ];
        try (rewrite Hfound in H; discriminate H).
      apply Return_inj in H. auto.
  - rewrite (calculateAdditivesImpact_absent _ _ Hing) in H.
    apply Return_inj in H. auto.
Qed.

Lemma additivesScore_bounds table nutrition data :
  calculateAdditivesImpact table nutrition = Return data ->
  0 <= score data /\ (Additive.nonNegative table -> score data <= 100).
Proof.
  intros H. apply calculateAdditivesImpact_Return in H.
  destruct H as [ -> | (ingredients & found & _ & Hfound & ->) ]; cbn [score].
  - split; [ lia | intros _; lia ].
  - split; [ lia | ]. intros Htable.
    pose proof (totalDeduction_nonneg table found Htable
                  (extractAdditives_from_table _ _ _ Hfound)).
    lia.
Qed.

(** ** calculateNutritionalQuality *)

Lemma calculateNutritionalQuality_bounds nutrition quality :
  calculateNutritionalQuality nutrition = Return quality ->
  0 <= quality <= 100.
Proof.
  unfold calculateNutritionalQuality; cbv zeta; intros H.
  do 6 invert_bind H. apply Return_inj in H. lia.
Qed.

(** ** calculateScore *)

Lemma calculateScore_Return table nutritionData scoring :
  calculateScore table nutritionData = Return scoring ->
  exists quality data,
    calculateNutritionalQuality nutritionData = Return quality
    /\ calculateAdditivesImpact table nutritionData = Return data
    /\ scoring =
       let final := Math_round (weightedScore quality (score data) 0) in
       NutritionScoring.make final
         (getScoreCategory final) (getScoreColor (getScoreCategory final))
         (NutritionScoring.makeBreakdown quality (score data) 0)
         (additives data)
         (generateImprovements quality data 0).
Proof.
  unfold calculateScore; cbv zeta; intros H.
  destruct (calculateNutritionalQuality nutritionData) as [ quality | ];
    [ | discriminate H ].
  destruct (calculateAdditivesImpact table nutritionData) as [ data | ];
    [ | discriminate H ].
  unfold bind, calculateOrganicBonus in H. apply Return_inj in H.
  exists quality, data. auto.
Qed.

(** The weighted sum of any two sub-scores in [0,100], with no organic
    bonus, is finite and rounds into [0,90], and to the exact rounding
    whenever the additives score is a multiple of five. *)
Lemma weightedScoreGrid_holds :
  forallb (fun quality => forallb (weightedScoreCheck quality) subScores)
          subScores = true.
Proof. vm_compute. reflexivity. Qed.

Lemma subScores_spec z : 0 <= z <= 100 -> In z subScores.
Proof.
  intros Hz. unfold subScores.
  apply in_map_iff. exists (Z.to_nat z). split; [ lia | ].
  apply in_seq. lia.
Qed.

Lemma weightedScoreCheck_holds quality additivesScore :
  0 <= quality <= 100 -> 0 <= additivesScore <= 100 ->
  weightedScoreCheck quality additivesScore = true.
Proof.
  intros Hq Ha.
  pose proof weightedScoreGrid_holds as H.
  rewrite forallb_forall in H. specialize (H _ (subScores_spec _ Hq)).
  rewrite forallb_forall in H. exact (H _ (subScores_spec _ Ha)).
Qed.

Lemma finalScore_range quality additivesScore :
  0 <= quality <= 100 -> 0 <= additivesScore <= 100 ->
  0 <= Math_round (weightedScore quality additivesScore 0) <= 90.
Proof.
  intros Hq Ha. pose proof (weightedScoreCheck_holds _ _ Hq Ha) as H.
  unfold weightedScoreCheck in H. cbv zeta in H.
  apply andb_prop in H; destruct H as [H _].
  apply andb_prop in H; destruct H as [H H2].
  apply andb_prop in H; destruct H as [_ H1].
  apply Z.leb_le in H1, H2. lia.
Qed.

Lemma weightedScore_finite quality additivesScore :
  0 <= quality <= 100 -> 0 <= additivesScore <= 100 ->
  isFinite (weightedScore quality additivesScore 0) = true.
Proof.
  intros Hq Ha. pose proof (weightedScoreCheck_holds _ _ Hq Ha) as H.
  unfold weightedScoreCheck in H. cbv zeta in H.
  apply andb_prop in H; destruct H as [H _].
  apply andb_prop in H; destruct H as [H _].
  apply andb_prop in H; destruct H as [H _].
  exact H.
Qed.

Lemma finalScore_exact quality additivesScore :
  0 <= quality <= 100 -> 0 <= additivesScore <= 100 ->
  additivesScore mod 5 = 0 ->
  Math_round (weightedScore quality additivesScore 0)
  = Reference.exactFinalScore quality additivesScore 0.
Proof.
  intros Hq Ha H5. pose proof (weightedScoreCheck_holds _ _ Hq Ha) as H.
  unfold weightedScoreCheck in H. cbv zeta in H.
  apply andb_prop in H; destruct H as [_ H].
  rewrite H5 in H. change (0 =? 0) with true in H. cbv iota in H.
  apply Z.eqb_eq in H. exact H.
Qed.

(** Off the multiples of five the binary64 sum can fall just short of a
    half that the exact sum reaches: 62*0.6 + 1*0.3 is 37.5, computed as
    37.49999999999999. *)
Lemma finalScore_rounding_gap :
  Math_round (weightedScore 62 1 0) = 37
  /\ Reference.exactFinalScore 62 1 0 = 38.
Proof. split; vm_compute; reflexivity. Qed.

(** ** getScoreCategory *)

Lemma getScoreCategory_spec score :
  (getScoreCategory score = excellent <-> 80 <= score)
  /\ (getScoreCategory score = good <-> 60 <= score < 80)
  /\ (getScoreCategory score = fair <-> 40 <= score < 60)
  /\ (getScoreCategory score = poor <-> score < 40).
Proof.
  unfold getScoreCategory, SCORE_THRESHOLDS.EXCELLENT, SCORE_THRESHOLDS.GOOD,
    SCORE_THRESHOLDS.FAIR.
  destruct (Z.leb_spec 80 score); [ | destruct (Z.leb_spec 60 score);
    [ | destruct (Z.leb_spec 40 score) ] ];
    repeat split; intros; try discriminate; try reflexivity; try lia.
Qed.

Lemma getScoreColor_injective c1 c2 :
  getScoreColor c1 = getScoreColor c2 -> c1 = c2.
Proof. destruct c1, c2; simpl; intros H; (reflexivity || discriminate H). Qed.

(** ** The seeded table *)

Lemma additivesSeedData_nonNegative : Additive.nonNegative additivesSeedData.
Proof.
  unfold Additive.nonNegative, additivesSeedData.
  repeat (apply Forall_cons; [ cbn [Additive.pointDeduction]; lia | ]).
  apply Forall_nil.
Qed.

Lemma scenario_scoring :
  calculateScore additivesSeedData scenarioFacts = Return scenarioScoring.
Proof. vm_compute. reflexivity. Qed.

Lemma malformed_throws table :
  calculateScore table malformedFacts
  = Throw "Failed to calculate nutrition score".
Proof. vm_compute. reflexivity. Qed.

(* ================================================================== *)
(** * The claims *)
(* ================================================================== *)

(** C1: Whenever [calculateScore] returns, the quality calculator and
    the additives calculator have returned on the same input, and the
    scoring is built on their results and on the organic bonus: these are
    the three sub-scores of the breakdown, and the final score is
    [Math.round] of quality*0.6 + additives*0.3 + organic*0.1 over them
    (and, when the additives score is a multiple of five no greater than
    100, as every seeded deduction makes it, the exact rounding of that
    sum); the category is excellent iff the final score is at least 80,
    good iff it is in [60,80), fair iff it is in [40,60) and poor iff it
    is below 40, so that 80, 79, 60, 59, 40 and 39 fall in excellent,
    good, good, fair, fair and poor; the colour is the image of the
    category under the one-to-one map excellent to green, good to
    light-green, fair to orange, poor to red. *)
Theorem C1_final_score_category_color table nutritionData scoring :
  calculateScore table nutritionData = Return scoring ->
  exists quality additivesData,
    calculateNutritionalQuality nutritionData = Return quality
    /\ calculateAdditivesImpact table nutritionData = Return additivesData
    /\ let additivesScore := score additivesData in
       let organic := calculateOrganicBonus nutritionData in
       let final := NutritionScoring.finalScore scoring in
       let category := NutritionScoring.category scoring in
       NutritionScoring.breakdown scoring
       = NutritionScoring.makeBreakdown quality additivesScore organic
       /\ final
          = Math_round
              (add (add (mul (of_Z quality) (decimal 6 1))
                        (mul (of_Z additivesScore) (decimal 3 1)))
                   (mul (of_Z organic) (decimal 1 1)))
       /\ (additivesScore <= 100 -> additivesScore mod 5 = 0 ->
           final = Reference.exactFinalScore quality additivesScore organic)
       /\ (category = excellent <-> 80 <= final)
       /\ (category = good <-> 60 <= final < 80)
       /\ (category = fair <-> 40 <= final < 60)
       /\ (category = poor <-> final < 40)
       /\ (getScoreCategory 80 = excellent /\ getScoreCategory 79 = good
           /\ getScoreCategory 60 = good /\ getScoreCategory 59 = fair
           /\ getScoreCategory 40 = fair /\ getScoreCategory 39 = poor)
       /\ NutritionScoring.color scoring = getScoreColor category
       /\ (getScoreColor excellent = color_green
           /\ getScoreColor good = color_light_green
           /\ getScoreColor fair = color_orange
           /\ getScoreColor poor = color_red)
       /\ (forall c1 c2, getScoreColor c1 = getScoreColor c2 -> c1 = c2).
Proof.
  intros H. apply calculateScore_Return in H.
  destruct H as (quality & data & Hquality & Hdata & ->).
  exists quality, data.
  split; [ exact Hquality | ].
  split; [ exact Hdata | ].
  cbv zeta. unfold calculateOrganicBonus.
  cbn [NutritionScoring.finalScore NutritionScoring.category
       NutritionScoring.color NutritionScoring.breakdown].
  pose proof (calculateNutritionalQuality_bounds _ _ Hquality) as Hq.
  pose proof (additivesScore_bounds _ _ _ Hdata) as [Ha _].
  pose proof (getScoreCategory_spec
                (Math_round (weightedScore quality (score data) 0)))
    as (Hexcellent & Hgood & Hfair & Hpoor).
  split; [ reflexivity | ].
  split; [ reflexivity | ].
  split; [ intros Hle Hmod; apply finalScore_exact; lia | ].
  repeat (split; [ assumption | ]).
  split; [ repeat split | ].
  split; [ reflexivity | ].
  split; [ repeat split | ].
  exact getScoreColor_injective.
Qed.

Lemma C1_witness :
  calculateScore additivesSeedData scenarioFacts = Return scenarioScoring
  /\ exists quality additivesData,
       calculateNutritionalQuality scenarioFacts = Return quality
       /\ calculateAdditivesImpact additivesSeedData scenarioFacts
          = Return additivesData
       /\ NutritionScoring.breakdown scenarioScoring
          = NutritionScoring.makeBreakdown quality (score additivesData) 0
       /\ (NutritionScoring.category scenarioScoring = good
           <-> 60 <= NutritionScoring.finalScore scenarioScoring < 80).
Proof.
  destruct (C1_final_score_category_color
              additivesSeedData scenarioFacts scenarioScoring scenario_scoring)
    as (quality & additivesData & Hquality & Hdata & Hbreakdown & _ & _ & _
        & Hgood & _).
  split; [ exact scenario_scoring | ].
  exists quality, additivesData.
  split; [ exact Hquality | ].
  split; [ exact Hdata | ].
  split; [ exact Hbreakdown | exact Hgood ].
Defined.

(** C2: With a reference table free of negative deductions, whenever
    [calculateScore] returns, the final score and each of the three
    sub-scores (nutritional quality, additives impact, organic bonus) lie
    between 0 and 100 inclusive. *)
Theorem C2_scores_within_0_100 table nutritionData scoring :
  Additive.nonNegative table ->
  calculateScore table nutritionData = Return scoring ->
  let breakdown := NutritionScoring.breakdown scoring in
  0 <= NutritionScoring.finalScore scoring <= 100
  /\ 0 <= NutritionScoring.nutritionalQuality breakdown <= 100
  /\ 0 <= NutritionScoring.additivesImpact breakdown <= 100
  /\ 0 <= NutritionScoring.organicBonus breakdown <= 100.
Proof.
  intros Htable H. apply calculateScore_Return in H.
  destruct H as (quality & data & Hquality & Hdata & ->).
  cbv zeta. cbn [NutritionScoring.finalScore NutritionScoring.breakdown
                 NutritionScoring.nutritionalQuality
                 NutritionScoring.additivesImpact NutritionScoring.organicBonus].
  pose proof (calculateNutritionalQuality_bounds _ _ Hquality) as Hq.
  pose proof (additivesScore_bounds _ _ _ Hdata) as [Ha0 Ha100].
  specialize (Ha100 Htable).
  pose proof (finalScore_range quality (score data) Hq (conj Ha0 Ha100)).
  lia.
Qed.

Lemma C2_witness :
  Additive.nonNegative additivesSeedData
  /\ calculateScore additivesSeedData scenarioFacts = Return scenarioScoring
  /\ 0 <= NutritionScoring.finalScore scenarioScoring <= 100.
Proof.
  split; [ exact additivesSeedData_nonNegative | ].
  split; [ exact scenario_scoring | ].
  exact (proj1 (C2_scores_within_0_100
                  additivesSeedData scenarioFacts scenarioScoring
                  additivesSeedData_nonNegative scenario_scoring)).
Defined.

(** C5: If the ingredients field is absent the additives calculator
    returns exactly score 100 with no additive; otherwise it returns the
    additives the extractor detected, one report per detected additive
    and in the same order, each with the additive's E-number (its name
    when it has none) as code and its name, risk level, description and
    point deduction, with score 100 minus the sum of their point
    deductions, clamped below at 0; with no negative deduction in the
    table that score never exceeds 100. *)
Theorem C5_additives_impact table nutrition :
  (NutritionData.ingredients nutrition = None ->
   calculateAdditivesImpact table nutrition
   = Return (makeAdditivesData 100 []))
  /\ (forall ingredients detected,
        NutritionData.ingredients nutrition = Some ingredients ->
        extractAdditives table ingredients = Return detected ->
        exists reported,
          calculateAdditivesImpact table nutrition
          = Return (makeAdditivesData
                      (Z.max 0 (100 - Reference.totalDeduction detected))
                      reported)
          /\ Forall2 reportsAdditive reported detected)
  /\ (forall data,
        calculateAdditivesImpact table nutrition = Return data ->
        0 <= score data
        /\ (Additive.nonNegative table -> score data <= 100)).
Proof.
  split; [ apply calculateAdditivesImpact_absent | ].
  split.
  - intros ingredients detected Hingredients Hdetected.
    exists (map toAdditiveInfo detected).
    split; [ exact (calculateAdditivesImpact_present
                      _ _ _ _ Hingredients Hdetected) | ].
    clear Hdetected. induction detected as [ | additive detected IH ];
      cbn [map]; constructor; [ | exact IH ].
    unfold reportsAdditive, toAdditiveInfo.
    cbn [AdditiveInfo.code AdditiveInfo.name AdditiveInfo.riskLevel
         AdditiveInfo.description AdditiveInfo.pointDeduction].
    split; [ | repeat split ].
    destruct (Additive.eNumber additive) as [ [ | c e ] | ]; reflexivity.
  - intros data. apply additivesScore_bounds.
Qed.

Lemma C5_witness :
  calculateAdditivesImpact additivesSeedData NutritionData.empty
  = Return (makeAdditivesData 100 [])
  /\ exists detected reported,
       extractAdditives additivesSeedData
         (IngredientText "water, E102, E621, natural flavor")
       = Return detected
       /\ calculateAdditivesImpact additivesSeedData scenarioFacts
          = Return (makeAdditivesData
                      (Z.max 0 (100 - Reference.totalDeduction detected))
                      reported)
       /\ Forall2 reportsAdditive reported detected.
Proof.
  destruct (C5_additives_impact additivesSeedData NutritionData.empty)
    as (Habsent & _).
  destruct (C5_additives_impact additivesSeedData scenarioFacts)
    as (_ & Hpresent & _).
  split; [ apply Habsent; reflexivity | ].
  assert (Hdetected :
            exists detected,
              extractAdditives additivesSeedData
                (IngredientText "water, E102, E621, natural flavor")
              = Return detected)
    by (eexists; vm_compute; reflexivity).
  destruct Hdetected as (detected & Hdetected).
  destruct (Hpresent (IngredientText "water, E102, E621, natural flavor")
              detected eq_refl Hdetected)
    as (reported & Hreported & Hreports).
  exists detected, reported.
  split; [ exact Hdetected | ].
  split; [ exact Hreported | exact Hreports ].
Defined.

(** C8: [batchCalculateScores] returns exactly one result per input, in
    input order: slot [i] holds the scoring of input [i] when that scoring
    returns, and otherwise the sentinel with final score 0, category poor,
    colour red, all sub-scores 0, no additive and the improvement
    "Unable to calculate nutrition score"; the batch itself is a total
    function and never throws. *)
Theorem C8_batch_preserves_slots table nutritionDataList :
  List.length (batchCalculateScores table nutritionDataList)
  = List.length nutritionDataList
  /\ (forall i,
        nth_error (batchCalculateScores table nutritionDataList) i
        = option_map
            (fun nutrition =>
               match calculateScore table nutrition with
               | Return scoring => scoring
               | Throw _ => failedScore
               end)
            (nth_error nutritionDataList i))
  /\ failedScore
     = NutritionScoring.make 0 poor color_red
         (NutritionScoring.makeBreakdown 0 0 0) []
         ["Unable to calculate nutrition score"].
Proof.
  unfold batchCalculateScores; cbv zeta.
  split; [ rewrite !List.length_map; reflexivity | ].
  split; [ | reflexivity ].
  intros i. rewrite map_map, nth_error_map. reflexivity.
Qed.

(** A batch with a malformed item in the middle: the neighbours are
    scored, the malformed slot holds the sentinel. *)
Example batch_isolation :
  batchCalculateScores additivesSeedData
    [scenarioFacts; malformedFacts; scenarioFacts]
  = [scenarioScoring; failedScore; scenarioScoring].
Proof. vm_compute. reflexivity. Qed.

(** C10: Whenever [calculateScore] returns, the organic bonus of the
    breakdown is 0, the organic calculator being constantly 0; hence,
    with no negative deduction in the table, the final score never
    exceeds 90, the rounding of 100*0.6 + 100*0.3. *)
Theorem C10_organic_zero_caps_final_at_90 table nutritionData scoring :
  calculateScore table nutritionData = Return scoring ->
  NutritionScoring.organicBonus (NutritionScoring.breakdown scoring) = 0
  /\ (forall nutrition, calculateOrganicBonus nutrition = 0)
  /\ (Additive.nonNegative table ->
      NutritionScoring.finalScore scoring <= 90)
  /\ Math_round (weightedScore 100 100 0) = 90.
Proof.
  intros H. apply calculateScore_Return in H.
  destruct H as (quality & data & Hquality & Hdata & ->).
  cbv zeta. cbn [NutritionScoring.finalScore NutritionScoring.breakdown
                 NutritionScoring.organicBonus].
  split; [ reflexivity | ].
  split; [ reflexivity | ].
  split; [ | vm_compute; reflexivity ].
  intros Htable.
  pose proof (calculateNutritionalQuality_bounds _ _ Hquality) as Hq.
  pose proof (additivesScore_bounds _ _ _ Hdata) as [Ha0 Ha100].
  specialize (Ha100 Htable).
  pose proof (finalScore_range quality (score data) Hq (conj Ha0 Ha100)).
  lia.
Qed.

Lemma C10_witness :
  calculateScore additivesSeedData scenarioFacts = Return scenarioScoring
  /\ Additive.nonNegative additivesSeedData
  /\ NutritionScoring.organicBonus (NutritionScoring.breakdown scenarioScoring)
     = 0
  /\ NutritionScoring.finalScore scenarioScoring <= 90.
Proof.
  destruct (C10_organic_zero_caps_final_at_90
              additivesSeedData scenarioFacts scenarioScoring scenario_scoring)
    as (Horganic & _ & Hcap & _).
  split; [ exact scenario_scoring | ].
  split; [ exact additivesSeedData_nonNegative | ].
  split; [ exact Horganic | ].
  exact (Hcap additivesSeedData_nonNegative).
Defined.

(** Without the table invariant the cap is lost: a negative deduction
    lifts the additives score above 100. *)
Example negative_deduction_exceeds_cap :
  let table := [ Additive.row (Some "E999") "Rebate" green "" (-100) ] in
  exists scoring,
    calculateScore table
      {| NutritionData.servingSize := None;
         NutritionData.calories := None;
         NutritionData.saturatedFat := None;
         NutritionData.sodium := None;
         NutritionData.dietaryFiber := None;
         NutritionData.sugars := None;
         NutritionData.protein := None;
         NutritionData.ingredients := Some (IngredientText "E999") |}
    = Return scoring
    /\ NutritionScoring.finalScore scoring = 120.
Proof. eexists. split; vm_compute; reflexivity. Qed.

(** ** The serving-size pattern *)

Lemma string_app_assoc (a b c : string) :
  ((a ++ b) ++ c)%string = (a ++ b ++ c)%string.
Proof.
  induction a as [ | x a IH ]; [ reflexivity | ].
  cbn [String.append]. rewrite IH. reflexivity.
Qed.

Lemma allChars_app p a b :
  allChars p (a ++ b) = allChars p a && allChars p b.
Proof.
  induction a as [ | c a IH ]; [ reflexivity | ].
  cbn [String.append allChars]. rewrite IH. apply andb_assoc.
Qed.

(** No character of [\s] starts with a digit or a letter g, and none is
    empty. *)
Lemma whiteSpace_heads :
  Forall (fun w => match w with
                   | String c _ => isDigit c = false /\ isG c = false
                   | EmptyString => False
                   end) whiteSpace.
Proof. vm_compute. repeat constructor. Qed.

Lemma isSpace_In w : isSpace w = true <-> In w whiteSpace.
Proof.
  unfold isSpace. rewrite existsb_exists. split.
  - intros (x & Hin & Heq). apply String.eqb_eq in Heq. subst x. exact Hin.
  - intros H. exists w. split; [ exact H | apply String.eqb_refl ].
Qed.

Lemma whiteSpace_head w :
  In w whiteSpace ->
  exists c tail, w = String c tail /\ isDigit c = false /\ isG c = false.
Proof.
  intros H. pose proof whiteSpace_heads as Hall.
  rewrite Forall_forall in Hall. specialize (Hall w H).
  destruct w as [ | c tail ]; [ destruct Hall | ].
  exists c, tail. split; [ reflexivity | exact Hall ].
Qed.

Lemma isG_cases c : isG c = true -> c = "g"%char \/ c = "G"%char.
Proof.
  destruct c as [b0 b1 b2 b3 b4 b5 b6 b7].
  destruct b0, b1, b2, b3, b4, b5, b6, b7; vm_compute; intros H;
    first [ discriminate H | left; reflexivity | right; reflexivity ].
Qed.

Lemma isG_not_digit c : isG c = true -> isDigit c = false.
Proof. intros H. destruct (isG_cases c H) as [ -> | -> ]; reflexivity. Qed.

Lemma gramMatch_unfold s :
  gramMatch s
  = match gramMatchAt s with
    | Some digits => Some digits
    | None =>
        match s with
        | String _ s' => gramMatch s'
        | EmptyString => None
        end
    end.
Proof. destruct s; reflexivity. Qed.

Lemma takeDigits_app digits rest :
  allChars isDigit digits = true ->
  match rest with
  | String c _ => isDigit c = false
  | EmptyString => True
  end ->
  takeDigits (digits ++ rest) = (digits, rest).
Proof.
  intros Hdigits Hrest.
  induction digits as [ | d digits IH ]; simpl.
  - destruct rest as [ | c rest ]; [ reflexivity | ].
    simpl. rewrite Hrest. reflexivity.
  - simpl in Hdigits. apply andb_prop in Hdigits. destruct Hdigits as [Hd Hds].
    rewrite Hd, (IH Hds). reflexivity.
Qed.

Lemma takeDigits_spec s :
  s = (fst (takeDigits s) ++ snd (takeDigits s))%string
  /\ allChars isDigit (fst (takeDigits s)) = true.
Proof.
  induction s as [ | c s [IHs IHd] ]; [ split; reflexivity | ].
  cbn [takeDigits]. destruct (isDigit c) eqn:Hc.
  - destruct (takeDigits s) as [ds rest]. cbn [fst snd] in *.
    split; [ cbn [String.append]; f_equal; exact IHs | ].
    cbn [allChars]. rewrite Hc. exact IHd.
  - split; reflexivity.
Qed.

(** [skipSpaces] passes over each character of [\s] ... *)
Lemma skipSpaces_whiteSpace w s :
  In w whiteSpace -> skipSpaces (w ++ s) = skipSpaces s.
Proof.
  intros H. vm_compute in H.
  repeat (destruct H as [ <- | H ]; [ reflexivity | ]).
  destruct H.
Qed.

Lemma skipSpaces_blanks blanks s :
  Blanks blanks -> skipSpaces (blanks ++ s) = skipSpaces s.
Proof.
  induction 1 as [ | w blanks Hw _ IH ]; [ reflexivity | ].
  rewrite string_app_assoc, (skipSpaces_whiteSpace _ _ Hw). exact IH.
Qed.

(** ... stops at a letter g ... *)
Lemma skipSpaces_at_g g rest :
  isG g = true -> skipSpaces (String g rest) = String g rest.
Proof.
  intros H. destruct (isG_cases g H) as [ -> | -> ];
    destruct rest as [ | c1 [ | c2 rest ] ]; reflexivity.
Qed.

(** ... and passes over nothing else: what it drops is a run of white
    space. *)
Lemma skipSpaces_upto n :
  forall s,
    (String.length s <= n)%nat ->
    exists blanks, Blanks blanks /\ s = (blanks ++ skipSpaces s)%string.
Proof.
  induction n as [ | n IH ]; intros s Hlen.
  - destruct s; [ | cbn [String.length] in Hlen; lia ].
    exists "". split; [ constructor | reflexivity ].
  - destruct s as [ | c0 s1 ];
      [ exists ""; split; [ constructor | reflexivity ] | ].
    cbn [String.length] in Hlen. cbn [skipSpaces].
    destruct (isSpace (String c0 "")) eqn:H1.
    { destruct (IH s1) as (blanks & Hblanks & Heq); [ lia | ].
      exists (String c0 "" ++ blanks)%string.
      split; [ constructor; [ apply isSpace_In, H1 | exact Hblanks ] | ].
      cbn [String.append]. f_equal. exact Heq. }
    destruct s1 as [ | c1 s2 ];
      [ exists ""; split; [ constructor | reflexivity ] | ].
    cbn [String.length] in Hlen.
    destruct (isSpace (String c0 (String c1 ""))) eqn:H2.
    { destruct (IH s2) as (blanks & Hblanks & Heq); [ lia | ].
      exists (String c0 (String c1 "") ++ blanks)%string.
      split; [ constructor; [ apply isSpace_In, H2 | exact Hblanks ] | ].
      cbn [String.append]. do 2 f_equal. exact Heq. }
    destruct s2 as [ | c2 s3 ];
      [ exists ""; split; [ constructor | reflexivity ] | ].
    cbn [String.length] in Hlen.
    destruct (isSpace (String c0 (String c1 (String c2 "")))) eqn:H3.
    { destruct (IH s3) as (blanks & Hblanks & Heq); [ lia | ].
      exists (String c0 (String c1 (String c2 "")) ++ blanks)%string.
      split; [ constructor; [ apply isSpace_In, H3 | exact Hblanks ] | ].
      cbn [String.append]. do 3 f_equal. exact Heq. }
    exists "". split; [ constructor | reflexivity ].
Qed.

Lemma skipSpaces_spec s :
  exists blanks, Blanks blanks /\ s = (blanks ++ skipSpaces s)%string.
Proof. exact (skipSpaces_upto (String.length s) s (le_n _)). Qed.

Lemma blanks_then_g blanks g rest :
  Blanks blanks ->
  isG g = true ->
  match (blanks ++ String g rest)%string with
  | String c _ => isDigit c = false
  | EmptyString => True
  end.
Proof.
  intros Hblanks Hg. destruct Hblanks as [ | w blanks Hw _ ].
  - exact (isG_not_digit g Hg).
  - destruct (whiteSpace_head w Hw) as (c & tail & -> & Hc & _). exact Hc.
Qed.

(** The pattern at one position: the procedure finds a match exactly
    where there is one, with the same group. *)
Lemma gramMatchAt_complete s digits :
  GramQuantityAt s digits -> gramMatchAt s = Some digits.
Proof.
  intros (blanks & g & rest & -> & Hne & Hdigits & Hblanks & Hg).
  unfold gramMatchAt.
  rewrite (takeDigits_app _ _ Hdigits (blanks_then_g _ _ rest Hblanks Hg)).
  destruct digits; [ contradiction Hne; reflexivity | ].
  cbn [emptyString].
  rewrite (skipSpaces_blanks _ _ Hblanks), (skipSpaces_at_g _ _ Hg), Hg.
  reflexivity.
Qed.

Lemma gramMatchAt_sound s digits :
  gramMatchAt s = Some digits -> GramQuantityAt s digits.
Proof.
  unfold gramMatchAt. pose proof (takeDigits_spec s) as [Hs Hd].
  destruct (takeDigits s) as [ds rest]. cbn [fst snd] in Hs, Hd.
  destruct ds as [ | d ds ]; [ discriminate | ]. cbn [emptyString].
  destruct (skipSpaces_spec rest) as (blanks & Hblanks & Hrest).
  destruct (skipSpaces rest) as [ | g tail ]; [ discriminate | ].
  destruct (isG g) eqn:Hg; [ | discriminate ].
  intros H. injection H as <-.
  exists blanks, g, tail. rewrite <- Hrest.
  repeat split; try assumption. discriminate.
Qed.

(** The pattern over a text: the procedure returns the group of the
    leftmost match. *)
Lemma gramMatch_sound text :
  forall digits, gramMatch text = Some digits -> GramQuantity text digits.
Proof.
  induction text as [ | c text IH ]; intros digits;
    [ intros H; discriminate H | ].
  rewrite gramMatch_unfold.
  destruct (gramMatchAt (String c text)) as [ found | ] eqn:Hat.
  - intros H. injection H as <-. exists "", (String c text).
    split; [ reflexivity | ].
    split; [ exact (gramMatchAt_sound _ _ Hat) | ].
    intros skipped later Hsplit Hlater.
    destruct skipped; cbn [String.append] in Hsplit;
      [ subst later; contradiction Hlater; reflexivity | discriminate Hsplit ].
  - intros H. destruct (IH _ H) as (before & s & -> & Hs & Hleft).
    exists (String c before), s.
    split; [ reflexivity | ].
    split; [ exact Hs | ].
    intros skipped later Hsplit Hlater earlier Hearlier.
    destruct skipped as [ | c' skipped ]; cbn [String.append] in Hsplit.
    + subst later. apply gramMatchAt_complete in Hearlier.
      cbn [String.append] in Hearlier. rewrite Hearlier in Hat.
      discriminate Hat.
    + injection Hsplit as _ Hsplit.
      exact (Hleft skipped later Hsplit Hlater earlier Hearlier).
Qed.

Lemma gramMatch_complete text digits :
  GramQuantity text digits -> gramMatch text = Some digits.
Proof.
  intros (before & s & -> & Hs & Hleft). revert Hleft.
  induction before as [ | c before IH ]; intros Hleft.
  - cbn [String.append]. rewrite gramMatch_unfold.
    rewrite (gramMatchAt_complete _ _ Hs). reflexivity.
  - cbn [String.append]. rewrite gramMatch_unfold.
    destruct (gramMatchAt (String c (before ++ s))) as [ found | ] eqn:Hat.
    + exfalso. apply gramMatchAt_sound in Hat.
      refine (Hleft "" (String c before) eq_refl _ found Hat).
      discriminate.
    + apply IH. intros skipped later Hsplit Hlater.
      apply (Hleft (String c skipped) later); [ | exact Hlater ].
      cbn [String.append]. rewrite Hsplit. reflexivity.
Qed.

Lemma gramMatch_none text :
  gramMatch text = None <-> forall digits, ~ GramQuantity text digits.
Proof.
  split.
  - intros Hnone digits H. apply gramMatch_complete in H.
    rewrite H in Hnone. discriminate Hnone.
  - intros Hnone. destruct (gramMatch text) as [ digits | ] eqn:H;
      [ | reflexivity ].
    destruct (Hnone digits (gramMatch_sound _ _ H)).
Qed.

Lemma gramMatch_nonempty text digits :
  gramMatch text = Some digits -> text <> "".
Proof. destruct text; [ discriminate | intros _; discriminate ]. Qed.

(** The division comes first: in binary64 [(value / g) * 100] need not be
    [value * 100 / g]; a value of 1 per 3 g gives 33.33333333333333, not
    33.333333333333336. *)
Example normalization_divides_first :
  normalizeToPerPor100g (of_Z 1) (Some (ServingText "3g"))
  = Return (mul (div (of_Z 1) (of_Z 3)) (of_Z 100))
  /\ mul (div (of_Z 1) (of_Z 3)) (of_Z 100)
     <> div (mul (of_Z 1) (of_Z 100)) (of_Z 3).
Proof.
  split; [ reflexivity | ].
  vm_compute. intros H. discriminate H.
Qed.

(** The rule in words and the procedure agree on a serving size that is
    a string or absent. *)
Lemma normalized_normalizes servingSize value per100g :
  NormalizedPer100g servingSize value per100g ->
  normalizeToPerPor100g value (option_map ServingText servingSize)
  = Return per100g.
Proof.
  unfold NormalizedPer100g, normalizeToPerPor100g.
  destruct servingSize as [ [ | c text ] | ]; cbn [option_map].
  - intros ->. reflexivity.
  - intros [ (digits & Hquantity & ->) | (Hnone & ->) ].
    + rewrite (gramMatch_complete _ _ Hquantity). reflexivity.
    + rewrite (proj2 (gramMatch_none _) Hnone). reflexivity.
  - intros ->. reflexivity.
Qed.

Lemma per100gOf_normalizes servingSize value :
  normalizeToPerPor100g value (option_map ServingText servingSize)
  = Return (per100gOf servingSize value).
Proof.
  unfold per100gOf, normalizeToPerPor100g.
  destruct servingSize as [ [ | c s ] | ]; try reflexivity.
  cbn [option_map]. destruct (gramMatch (String c s)); reflexivity.
Qed.

Lemma per100gOf_normalized servingSize value :
  NormalizedPer100g servingSize value (per100gOf servingSize value).
Proof.
  unfold NormalizedPer100g, per100gOf, normalizeToPerPor100g.
  destruct servingSize as [ [ | c text ] | ]; cbn [option_map];
    try reflexivity.
  destruct (gramMatch (String c text)) as [ digits | ] eqn:Hmatch.
  - left. exists digits. split; [ apply gramMatch_sound, Hmatch | reflexivity ].
  - right. split; [ apply gramMatch_none, Hmatch | reflexivity ].
Qed.

(** C4, as stated, fails on an absent serving size: the value comes back
    unchanged, where the stated rule scales it by the assumed 30g
    serving. *)
Lemma C4_absent_serving_size_counterexample :
  normalizeToPerPor100g (of_Z 30) None = Return (of_Z 30)
  /\ Reference.normalize (of_Z 30) None = of_Z 100
  /\ normalizeToPerPor100g (of_Z 30) None
     <> Return (Reference.normalize (of_Z 30) None).
Proof.
  split; [ reflexivity | ].
  split; [ vm_compute; reflexivity | ].
  vm_compute. intros H. discriminate H.
Qed.

(** C4 (amended): Normalisation returns the value unchanged when the
    serving size is absent or the empty string; [(value / g) * 100] when
    the text has a gram quantity; and [(value / 30) * 100] when the text
    is non-empty and has none.  The gram quantity is the group of the
    leftmost match of the pattern: a non-empty run of decimal digits
    followed by any run of white space (of Unicode: the no-break space
    and the others count) and a letter g of either case, no such match
    starting at an earlier position; [g] is the integer these digits
    denote.  [gramMatch] finds a quantity exactly when the text has one,
    and finds that one. *)
Theorem C4_normalization_rule value :
  normalizeToPerPor100g value None = Return value
  /\ normalizeToPerPor100g value (Some (ServingText "")) = Return value
  /\ (forall text digits,
        GramQuantity text digits ->
        normalizeToPerPor100g value (Some (ServingText text))
        = Return (mul (div value (of_Z (parseDigits 0 digits))) (of_Z 100)))
  /\ (forall text,
        text <> "" ->
        (forall digits, ~ GramQuantity text digits) ->
        normalizeToPerPor100g value (Some (ServingText text))
        = Return (mul (div value (of_Z 30)) (of_Z 100)))
  /\ (forall text digits,
        gramMatch text = Some digits <-> GramQuantity text digits)
  /\ (forall text,
        gramMatch text = None <-> forall digits, ~ GramQuantity text digits).
Proof.
  split; [ reflexivity | ].
  split; [ reflexivity | ].
  split; [ | split; [ | split ] ].
  - intros text digits Hquantity. apply gramMatch_complete in Hquantity.
    unfold normalizeToPerPor100g.
    pose proof (gramMatch_nonempty _ _ Hquantity) as Hne.
    destruct text; [ contradiction Hne; reflexivity | ].
    rewrite Hquantity. reflexivity.
  - intros text Hne Hnone. apply gramMatch_none in Hnone.
    unfold normalizeToPerPor100g.
    destruct text; [ contradiction Hne; reflexivity | ].
    rewrite Hnone. reflexivity.
  - intros text digits. split;
      [ apply gramMatch_sound | apply gramMatch_complete ].
  - exact gramMatch_none.
Qed.

Lemma C4_witness :
  GramQuantity "2 tbsp (50 g)" "50"
  /\ normalizeToPerPor100g (of_Z 1200) (Some (ServingText "2 tbsp (50 g)"))
     = Return (of_Z 2400)
  /\ GramQuantity ("50" ++ utf8 160 ++ "g") "50"
  /\ normalizeToPerPor100g (of_Z 1200)
       (Some (ServingText ("50" ++ utf8 160 ++ "g")))
     = Return (of_Z 2400)
  /\ "1 cup" <> ""
  /\ (forall digits, ~ GramQuantity "1 cup" digits)
  /\ normalizeToPerPor100g (of_Z 30) (Some (ServingText "1 cup"))
     = Return (of_Z 100).
Proof.
  destruct (C4_normalization_rule (of_Z 1200))
    as (_ & _ & Hgrams & _ & Hfound & _).
  destruct (C4_normalization_rule (of_Z 30))
    as (_ & _ & _ & Hfallback & _ & Hnone).
  assert (Hspaced : GramQuantity "2 tbsp (50 g)" "50")
    by (apply Hfound; reflexivity).
  assert (Hnbsp : GramQuantity ("50" ++ utf8 160 ++ "g") "50")
    by (apply Hfound; reflexivity).
  assert (Hcup : forall digits, ~ GramQuantity "1 cup" digits)
    by (apply Hnone; reflexivity).
  split; [ exact Hspaced | ].
  split; [ rewrite (Hgrams _ _ Hspaced); vm_compute; reflexivity | ].
  split; [ exact Hnbsp | ].
  split; [ rewrite (Hgrams _ _ Hnbsp); vm_compute; reflexivity | ].
  split; [ discriminate | ].
  split; [ exact Hcup | ].
  rewrite (Hfallback "1 cup"); [ vm_compute; reflexivity | discriminate | exact Hcup ].
Defined.

(** ** Falsy readings never reach a band *)

Lemma of_Z_100 : of_Z 100 = S754_finite false 7036874417766400 (-46).
Proof. vm_compute. reflexivity. Qed.

Lemma truthy_false_falsy value :
  truthy value = false -> falsyNumber value.
Proof. destruct value; simpl; intros H; (exact I || discriminate H). Qed.

Lemma div_falsy value grams : falsyNumber value -> falsyNumber (div value grams).
Proof.
  destruct value; simpl; intros H; try contradiction;
    destruct grams; exact I.
Qed.

Lemma mul_100_falsy value : falsyNumber value -> falsyNumber (mul value (of_Z 100)).
Proof.
  rewrite of_Z_100. destruct value; simpl; intros H; try contradiction; exact I.
Qed.

Lemma normalizeToPerPor100g_falsy value servingSize per100g :
  falsyNumber value ->
  normalizeToPerPor100g value servingSize = Return per100g ->
  falsyNumber per100g.
Proof.
  intros Hvalue. unfold normalizeToPerPor100g.
  destruct servingSize as [ [ [ | c s ] | ] | ].
  - intros H; apply Return_inj in H; subst; exact Hvalue.
  - destruct (gramMatch (String c s)); intros H; apply Return_inj in H; subst;
      apply mul_100_falsy, div_falsy, Hvalue.
  - discriminate.
  - intros H; apply Return_inj in H; subst; exact Hvalue.
Qed.

Lemma bandPoints_falsy x :
  falsyNumber x ->
  Reference.bandPoints Reference.caloriesBands x = 0
  /\ Reference.bandPoints Reference.saturatedFatBands x = 0
  /\ Reference.bandPoints Reference.sugarsBands x = 0
  /\ Reference.bandPoints Reference.sodiumBands x = 0
  /\ Reference.bandPoints Reference.fiberBands x = 0
  /\ Reference.bandPoints Reference.proteinBands x = 0.
Proof.
  intros H; destruct x; try solve [ destruct H ];
    repeat split; vm_compute; reflexivity.
Qed.

(** ** Each if-chain is its band table *)

Ltac chain_is_table :=
  intros;
  cbv [Reference.bandPoints Reference.caloriesBands Reference.saturatedFatBands
       Reference.sugarsBands Reference.sodiumBands Reference.fiberBands
       Reference.proteinBands
       caloriesPenalty saturatedFatPenalty sugarsPenalty sodiumPenalty
       fiberBonus proteinBonus];
  repeat match goal with
         | |- context [ if gt ?x ?t then _ else _ ] => destruct (gt x t)
         end;
  lia.

Lemma caloriesPenalty_table score x :
  caloriesPenalty score x
  = score - Reference.bandPoints Reference.caloriesBands x.
Proof. chain_is_table. Qed.

Lemma saturatedFatPenalty_table score x :
  saturatedFatPenalty score x
  = score - Reference.bandPoints Reference.saturatedFatBands x.
Proof. chain_is_table. Qed.

Lemma sugarsPenalty_table score x :
  sugarsPenalty score x
  = score - Reference.bandPoints Reference.sugarsBands x.
Proof. chain_is_table. Qed.

Lemma sodiumPenalty_table score x :
  sodiumPenalty score x
  = score - Reference.bandPoints Reference.sodiumBands x.
Proof. chain_is_table. Qed.

Lemma fiberBonus_table score x :
  fiberBonus score x = score + Reference.bandPoints Reference.fiberBands x.
Proof. chain_is_table. Qed.

Lemma proteinBonus_table score x :
  proteinBonus score x = score + Reference.bandPoints Reference.proteinBands x.
Proof. chain_is_table. Qed.

(** ** One block of the quality calculator against the reference *)

Section Blocks.

Variable servingSize : option ServingSizeValue.
Variable per100g : number -> number.
Hypothesis normalizes :
  forall value, normalizeToPerPor100g value servingSize = Return (per100g value).

Lemma nutrientBlock_reference adjust bands sign field score :
  (forall s x, adjust s x = s + sign * Reference.bandPoints bands x) ->
  (forall x, falsyNumber x -> Reference.bandPoints bands x = 0) ->
  nutrientBlock field servingSize adjust score
  = Return (score + sign * Reference.contribution per100g bands field).
Proof.
  intros Hadjust Hfalsy. unfold nutrientBlock, Reference.contribution.
  destruct field as [ value | ]; [ | f_equal; lia ].
  destruct (truthy value) eqn:Htruthy.
  - rewrite normalizes. unfold bind. rewrite Hadjust. reflexivity.
  - rewrite (Hfalsy (per100g value)); [ f_equal; lia | ].
    eapply normalizeToPerPor100g_falsy;
      [ apply truthy_false_falsy, Htruthy | apply normalizes ].
Qed.

End Blocks.

Lemma calculateNutritionalQuality_reference nutrition per100g :
  (forall value,
     normalizeToPerPor100g value (NutritionData.servingSize nutrition)
     = Return (per100g value)) ->
  calculateNutritionalQuality nutrition
  = Return (Reference.nutritionalQuality per100g nutrition).
Proof.
  intros Hnorm. unfold calculateNutritionalQuality; cbv zeta.
  rewrite (nutrientBlock_reference _ per100g Hnorm
             caloriesPenalty Reference.caloriesBands (-1));
    [ rewrite bind_Return
    | intros; rewrite caloriesPenalty_table; lia
    | intros x Hx; apply (bandPoints_falsy x Hx) ].
  rewrite (nutrientBlock_reference _ per100g Hnorm
             saturatedFatPenalty Reference.saturatedFatBands (-1));
    [ rewrite bind_Return
    | intros; rewrite saturatedFatPenalty_table; lia
    | intros x Hx; apply (bandPoints_falsy x Hx) ].
  rewrite (nutrientBlock_reference _ per100g Hnorm
             sugarsPenalty Reference.sugarsBands (-1));
    [ rewrite bind_Return
    | intros; rewrite sugarsPenalty_table; lia
    | intros x Hx; apply (bandPoints_falsy x Hx) ].
  rewrite (nutrientBlock_reference _ per100g Hnorm
             sodiumPenalty Reference.sodiumBands (-1));
    [ rewrite bind_Return
    | intros; rewrite sodiumPenalty_table; lia
    | intros x Hx; apply (bandPoints_falsy x Hx) ].
  rewrite (nutrientBlock_reference _ per100g Hnorm
             fiberBonus Reference.fiberBands 1);
    [ rewrite bind_Return
    | intros; rewrite fiberBonus_table; lia
    | intros x Hx; apply (bandPoints_falsy x Hx) ].
  rewrite (nutrientBlock_reference _ per100g Hnorm
             proteinBonus Reference.proteinBands 1);
    [ rewrite bind_Return
    | intros; rewrite proteinBonus_table; lia
    | intros x Hx; apply (bandPoints_falsy x Hx) ].
  unfold Reference.nutritionalQuality, Reference.clamp.
  do 3 f_equal. lia.
Qed.


(** C3, as stated with the normalisation rule of the specification,
    fails on an absent serving size: 200 mg of sodium are scored as they
    are (above 180: 2 points, quality 98), where the rule assumes a 30g
    serving (666.67 mg per 100g, above 540: 6 points, quality 94). *)
Lemma C3_absent_serving_size_counterexample :
  calculateNutritionalQuality lowSodiumFacts = Return 98
  /\ Reference.nutritionalQuality
       (fun value => Reference.normalize value None) lowSodiumFacts
     = 94
  /\ calculateNutritionalQuality lowSodiumFacts
     <> Return (Reference.nutritionalQuality
                  (fun value => Reference.normalize value None)
                  lowSodiumFacts).
Proof.
  split; [ vm_compute; reflexivity | ].
  split; [ vm_compute; reflexivity | ].
  vm_compute. intros H. discriminate H.
Qed.

(** C3 (amended): For a product whose serving size is a string or
    absent, the nutritional quality sub-score is the banded reference
    definition: 100, minus the five-tier penalty of each of calories,
    saturated fat, sugars and sodium that is present, on its per-100g
    value (sodium above 900/720/540/360/180 costs 10/8/6/4/2), plus the
    five-tier bonus of fiber (above 4.7/3.7/2.8/1.9/0.9) and protein
    (above 8/6.4/4.8/3.2/1.6) that is present (5/4/3/2/1), clamped to
    [0,100]; an absent nutrient contributes nothing, and with all six
    absent the quality is 100.  The per-100g value of a reading is the
    reading itself when the serving size is absent or empty,
    [(value / g) * 100] when the serving size has the gram quantity [g],
    and [(value / 30) * 100] when it is non-empty and has none; that
    value exists for every reading. *)
Theorem C3_quality_is_banded_reference nutrition servingSize :
  NutritionData.servingSize nutrition = option_map ServingText servingSize ->
  (exists per100g,
     forall value, NormalizedPer100g servingSize value (per100g value))
  /\ (forall per100g,
        (forall value, NormalizedPer100g servingSize value (per100g value)) ->
        calculateNutritionalQuality nutrition
        = Return (Reference.nutritionalQuality per100g nutrition))
  /\ (NutritionData.calories nutrition = None ->
      NutritionData.saturatedFat nutrition = None ->
      NutritionData.sugars nutrition = None ->
      NutritionData.sodium nutrition = None ->
      NutritionData.dietaryFiber nutrition = None ->
      NutritionData.protein nutrition = None ->
      calculateNutritionalQuality nutrition = Return 100).
Proof.
  intros Hserving.
  split; [ exists (per100gOf servingSize); apply per100gOf_normalized | ].
  split.
  - intros per100g Hnormalized. apply calculateNutritionalQuality_reference.
    intros value. rewrite Hserving.
    apply normalized_normalizes, Hnormalized.
  - unfold calculateNutritionalQuality; cbv zeta.
    intros -> -> -> -> -> ->. reflexivity.
Qed.

Lemma C3_witness :
  NutritionData.servingSize scenarioFacts = option_map ServingText (Some "50g")
  /\ (forall value,
        NormalizedPer100g (Some "50g") value
          (mul (div value (of_Z 50)) (of_Z 100)))
  /\ calculateNutritionalQuality scenarioFacts
     = Return (Reference.nutritionalQuality
                 (fun value => mul (div value (of_Z 50)) (of_Z 100))
                 scenarioFacts)
  /\ Reference.nutritionalQuality
       (fun value => mul (div value (of_Z 50)) (of_Z 100)) scenarioFacts
     = 90
  /\ calculateNutritionalQuality NutritionData.empty = Return 100.
Proof.
  assert (Hrule : forall value,
             NormalizedPer100g (Some "50g") value
               (mul (div value (of_Z 50)) (of_Z 100))).
  { intros value. left. exists "50".
    split; [ apply gramMatch_sound; reflexivity | reflexivity ]. }
  destruct (C3_quality_is_banded_reference scenarioFacts (Some "50g") eq_refl)
    as (_ & Hquality & _).
  destruct (C3_quality_is_banded_reference NutritionData.empty None eq_refl)
    as (_ & _ & Habsent).
  split; [ reflexivity | ].
  split; [ exact Hrule | ].
  split; [ exact (Hquality _ Hrule) | ].
  split; [ vm_compute; reflexivity | ].
  apply Habsent; reflexivity.
Defined.

(** ** De-duplication in the name pass *)

Lemma NoDup_snoc {A} (l : list A) x :
  NoDup l -> ~ In x l -> NoDup (l ++ [x]).
Proof.
  induction l as [ | y l IH ]; simpl; intros Hl Hx.
  - constructor; [ intros [] | constructor ].
  - inversion Hl as [ | ? ? Hy Hl' ]; subst.
    constructor.
    + rewrite in_app_iff. simpl. intros [ H | [ H | [] ] ]; [ exact (Hy H) | ].
      apply Hx. left. symmetry. exact H.
    + apply IH; [ exact Hl' | ]. intros H. apply Hx. right. exact H.
Qed.

Lemma existsb_name_false found (a : Additive.t) :
  existsb (fun b => String.eqb (Additive.name b) (Additive.name a)) found
  = false ->
  ~ In (Additive.name a) (map Additive.name found).
Proof.
  intros Hnone Hin. apply in_map_iff in Hin. destruct Hin as (b & Hname & Hb).
  assert (Hsome : existsb (fun b => String.eqb (Additive.name b)
                                               (Additive.name a)) found = true).
  { apply existsb_exists. exists b. split; [ exact Hb | ].
    apply String.eqb_eq, Hname. }
  rewrite Hsome in Hnone. discriminate Hnone.
Qed.

(** The name pass never introduces a repetition. *)
Lemma namePass_keeps_deduplicated table text names :
  forall found,
    Reference.deduplicated found ->
    Reference.deduplicated (namePass table text names found).
Proof.
  unfold Reference.deduplicated.
  induction names as [ | n rest IH ]; intros found Hfound; simpl.
  - exact Hfound.
  - destruct (includes (toLowerCase text) (toLowerCase n)); [ | apply IH, Hfound ].
    destruct (Additive.findFirstByNameContains table n) as [a | ];
      [ | apply IH, Hfound ].
    destruct (existsb _ found) eqn:Hseen; [ apply IH, Hfound | ].
    apply IH. rewrite map_app. simpl.
    apply NoDup_snoc; [ exact Hfound | ].
    apply existsb_name_false, Hseen.
Qed.

(** The results are the pattern-pass results followed by what the name
    pass adds. *)
Lemma extractAdditives_order table text :
  exists added,
    extractAdditives table (IngredientText text)
    = Return (eNumberPass table (eNumberMatches text) [] ++ added).
Proof.
  unfold extractAdditives. rewrite bind_Return. cbv zeta.
  destruct (namePass_extends table text commonAdditives
              (eNumberPass table (eNumberMatches text) [])) as (added & ->).
  exists added. reflexivity.
Qed.

(** A name hit that resolves to an additive the pattern pass already
    found is suppressed. *)
Example citric_acid_reported_once :
  extractAdditives additivesSeedData (IngredientText "E330, citric acid")
  = Return [ Additive.row (Some "E330") "Citric acid" green
               "Natural acid found in citrus fruits" 0 ].
Proof. vm_compute. reflexivity. Qed.

(** The pattern pass pushes a resolved additive once per occurrence of
    its E-number, whatever the table. *)
Lemma eNumberPass_repeats table eNumber additive :
  Additive.findFirstByENumber table (toUpperCase eNumber) = Some additive ->
  eNumberPass table [eNumber; eNumber] [] = [additive; additive].
Proof. intros H. cbn [eNumberPass]. rewrite H. reflexivity. Qed.

(** ** Case in the E-number lookup *)

Lemma upperChar_not_lower c : isLower (upperChar c) = false.
Proof.
  destruct c as [b0 b1 b2 b3 b4 b5 b6 b7].
  destruct b0, b1, b2, b3, b4, b5, b6, b7; vm_compute; reflexivity.
Qed.

Lemma toUpperCase_no_lowercase s :
  allChars (fun c => negb (isLower c)) (toUpperCase s) = true.
Proof.
  induction s as [ | c s IH ]; [ reflexivity | ].
  cbn [toUpperCase mapChars allChars]. rewrite upperChar_not_lower.
  exact IH.
Qed.

(** Whatever the table, the pattern pass can only resolve to rows whose
    stored code has no lower-case letter. *)
Lemma findFirstByENumber_upper_case table token additive stored :
  Additive.findFirstByENumber table (toUpperCase token) = Some additive ->
  Additive.eNumber additive = Some stored ->
  allChars (fun c => negb (isLower c)) stored = true.
Proof.
  intros Hfind Hstored. apply find_some in Hfind. destruct Hfind as [_ Heq].
  rewrite Hstored in Heq. apply String.eqb_eq in Heq. subst stored.
  apply toUpperCase_no_lowercase.
Qed.

(** C6: evaluation at the failing input.  On the text "E102, E102" the
    pattern pass pushes the seeded additive E102 at each occurrence, and
    the extractor returns it twice: the result is not de-duplicated. *)
Theorem C6_repeated_e_number_reported_twice :
  let e102 := Additive.row (Some "E102") "Tartrazine (Yellow 5)" red
                "Artificial yellow coloring" 20 in
  In e102 additivesSeedData
  /\ eNumberMatches "E102, E102" = ["E102"; "E102"]
  /\ extractAdditives additivesSeedData (IngredientText "E102, E102")
     = Return [e102; e102]
  /\ ~ Reference.deduplicated [e102; e102]
  /\ calculateAdditivesImpact additivesSeedData
       {| NutritionData.servingSize := None;
          NutritionData.calories := None;
          NutritionData.saturatedFat := None;
          NutritionData.sodium := None;
          NutritionData.dietaryFiber := None;
          NutritionData.sugars := None;
          NutritionData.protein := None;
          NutritionData.ingredients := Some (IngredientText "E102, E102") |}
     = Return (makeAdditivesData 60 (map toAdditiveInfo [e102; e102])).
Proof.
  cbv zeta.
  split; [ vm_compute; tauto | ].
  split; [ vm_compute; reflexivity | ].
  split; [ vm_compute; reflexivity | ].
  split; [ | vm_compute; reflexivity ].
  unfold Reference.deduplicated. simpl. intros H.
  inversion H as [ | ? ? Hnotin _ ]. apply Hnotin. left. reflexivity.
Qed.

(** C7: evaluation at the failing input.  The token "E150d" is
    recognised, upper-cased to "E150D" and looked up by equality; the
    seeded row stores "E150d", so nothing is found and the additive is
    dropped. *)
Theorem C7_lowercase_suffix_never_resolved :
  let e150d := Additive.row (Some "E150d") "Caramel IV (ammonia sulfite)"
                 orange "Artificial coloring agent" 10 in
  In e150d additivesSeedData
  /\ eNumberMatches "E150d" = ["E150d"]
  /\ toUpperCase "E150d" = "E150D"
  /\ Additive.findFirstByENumber additivesSeedData "E150D" = None
  /\ extractAdditives additivesSeedData (IngredientText "E150d") = Return []
  /\ extractAdditives additivesSeedData (IngredientText "e322")
     = Return [ Additive.row (Some "E322") "Lecithin" yellow
                  "Emulsifier, usually from soy or sunflower" 5 ].
Proof.
  cbv zeta.
  split; [ vm_compute; tauto | ].
  repeat split; vm_compute; reflexivity.
Qed.

(** C9: evaluation at the failing input.  On the scenario the quality
    is 90 as stated, but "natural flavor" is not among the curated names
    although the seeded table has the row: only E102 and E621 are
    detected, the additives score is 70 and the final score 75. *)
Theorem C9_scenario_scores_75 :
  let naturalFlavor := Additive.row None "Natural flavor" yellow
                         "Natural flavoring compounds" 5 in
  In naturalFlavor additivesSeedData
  /\ ~ In "natural flavor" commonAdditives
  /\ normalizeToPerPor100g (of_Z 1200) (NutritionData.servingSize scenarioFacts)
     = Return (of_Z 2400)
  /\ calculateNutritionalQuality scenarioFacts = Return 90
  /\ calculateScore additivesSeedData scenarioFacts = Return scenarioScoring
  /\ NutritionScoring.additivesImpact (NutritionScoring.breakdown scenarioScoring)
     = 70
  /\ NutritionScoring.finalScore scenarioScoring = 75
  /\ Math_round (weightedScore 90 65 0) = 74.
Proof.
  cbv zeta.
  split; [ vm_compute; tauto | ].
  split; [ vm_compute; intuition discriminate | ].
  repeat split; vm_compute; reflexivity.
Qed.

(* ================================================================== *)
(** * Further properties of the scoring service *)
(* ================================================================== *)

(** ** The range of the quality sub-score *)

Lemma bandPoints_range bands x lo hi :
  Forall (fun band => lo <= snd band <= hi) bands ->
  lo <= 0 <= hi ->
  lo <= Reference.bandPoints bands x <= hi.
Proof.
  intros Hbands H0. induction Hbands as [ | [threshold points] lower Hp _ IH ].
  - exact H0.
  - cbn [Reference.bandPoints]. destruct (gt x threshold); [ exact Hp | exact IH ].
Qed.

Ltac bands_within :=
  repeat (apply Forall_cons; [ cbn [snd]; lia | ]); apply Forall_nil.

Lemma penaltyBands_range x :
  0 <= Reference.bandPoints Reference.caloriesBands x <= 10
  /\ 0 <= Reference.bandPoints Reference.saturatedFatBands x <= 10
  /\ 0 <= Reference.bandPoints Reference.sugarsBands x <= 10
  /\ 0 <= Reference.bandPoints Reference.sodiumBands x <= 10.
Proof.
  split; [ | split; [ | split ] ]; (apply bandPoints_range; [ | lia ]);
    unfold Reference.caloriesBands, Reference.saturatedFatBands,
      Reference.sugarsBands, Reference.sodiumBands; bands_within.
Qed.

Lemma bonusBands_range x :
  0 <= Reference.bandPoints Reference.fiberBands x <= 5
  /\ 0 <= Reference.bandPoints Reference.proteinBands x <= 5.
Proof.
  split; (apply bandPoints_range; [ | lia ]);
    unfold Reference.fiberBands, Reference.proteinBands; bands_within.
Qed.

Lemma nutrientBlock_adjusts field servingSize adjust score score' lo hi :
  (forall s x, s + lo <= adjust s x <= s + hi) ->
  lo <= 0 <= hi ->
  nutrientBlock field servingSize adjust score = Return score' ->
  score + lo <= score' <= score + hi.
Proof.
  intros Hadjust H0. unfold nutrientBlock.
  destruct field as [ value | ];
    [ destruct (truthy value) | ];
    intros H; try (apply Return_inj in H; lia).
  invert_bind H. apply Return_inj in H. subst score'. apply Hadjust.
Qed.

Lemma calculateNutritionalQuality_at_least_60 nutrition quality :
  calculateNutritionalQuality nutrition = Return quality ->
  60 <= quality <= 100.
Proof.
  unfold calculateNutritionalQuality; cbv zeta; intros H.
  invert_bind H.
  apply (nutrientBlock_adjusts _ _ _ _ _ (-10) 0) in Hv;
    [ | intros s x; rewrite caloriesPenalty_table;
        pose proof (penaltyBands_range x); lia | lia ].
  invert_bind H.
  apply (nutrientBlock_adjusts _ _ _ _ _ (-10) 0) in Hv0;
    [ | intros s x; rewrite saturatedFatPenalty_table;
        pose proof (penaltyBands_range x); lia | lia ].
  invert_bind H.
  apply (nutrientBlock_adjusts _ _ _ _ _ (-10) 0) in Hv1;
    [ | intros s x; rewrite sugarsPenalty_table;
        pose proof (penaltyBands_range x); lia | lia ].
  invert_bind H.
  apply (nutrientBlock_adjusts _ _ _ _ _ (-10) 0) in Hv2;
    [ | intros s x; rewrite sodiumPenalty_table;
        pose proof (penaltyBands_range x); lia | lia ].
  invert_bind H.
  apply (nutrientBlock_adjusts _ _ _ _ _ 0 5) in Hv3;
    [ | intros s x; rewrite fiberBonus_table;
        pose proof (bonusBands_range x); lia | lia ].
  invert_bind H.
  apply (nutrientBlock_adjusts _ _ _ _ _ 0 5) in Hv4;
    [ | intros s x; rewrite proteinBonus_table;
        pose proof (bonusBands_range x); lia | lia ].
  apply Return_inj in H. lia.
Qed.

(** X1: Whenever [calculateNutritionalQuality] returns, the quality lies
    between 60 and 100: the four penalties take at most 40 points, so the
    lower clamp at 0 is never reached; both ends are attained. *)
Theorem X1_quality_between_60_and_100 :
  (forall nutrition quality,
     calculateNutritionalQuality nutrition = Return quality ->
     60 <= quality <= 100)
  /\ calculateNutritionalQuality worstFacts = Return 60
  /\ calculateNutritionalQuality NutritionData.empty = Return 100.
Proof.
  split; [ exact calculateNutritionalQuality_at_least_60 | ].
  split; vm_compute; reflexivity.
Qed.

Lemma X1_witness :
  calculateNutritionalQuality scenarioFacts = Return 90 /\ 60 <= 90 <= 100.
Proof.
  assert (H : calculateNutritionalQuality scenarioFacts = Return 90)
    by (vm_compute; reflexivity).
  split; [ exact H | ].
  exact (proj1 X1_quality_between_60_and_100 scenarioFacts 90 H).
Defined.

(** ** When scoring fails *)

Lemma nutrientBlock_not_text field adjust score :
  nutrientBlock field (Some ServingNotText) adjust score
  = if truthyField field
    then Throw "TypeError: servingSize.match is not a function"
    else Return score.
Proof.
  unfold nutrientBlock, truthyField.
  destruct field as [ value | ]; [ | reflexivity ].
  destruct (truthy value); reflexivity.
Qed.

Lemma calculateNutritionalQuality_not_text nutrition :
  NutritionData.servingSize nutrition = Some ServingNotText ->
  calculateNutritionalQuality nutrition
  = if existsb truthyField (scoredReadings nutrition)
    then Throw "TypeError: servingSize.match is not a function"
    else Return 100.
Proof.
  intros Hserving. unfold calculateNutritionalQuality, scoredReadings.
  rewrite Hserving. cbv zeta. cbn [existsb].
  repeat (rewrite nutrientBlock_not_text;
          destruct (truthyField _);
          [ reflexivity | rewrite bind_Return; cbn [orb] ]).
  reflexivity.
Qed.

Lemma calculateNutritionalQuality_returns_on_text nutrition :
  NutritionData.servingSize nutrition <> Some ServingNotText ->
  exists quality, calculateNutritionalQuality nutrition = Return quality.
Proof.
  intros Hserving.
  assert (Htext : exists text,
             NutritionData.servingSize nutrition = option_map ServingText text).
  { destruct (NutritionData.servingSize nutrition) as [ [ s | ] | ].
    - exists (Some s). reflexivity.
    - contradiction Hserving. reflexivity.
    - exists None. reflexivity. }
  destruct Htext as (text & Htext).
  exists (Reference.nutritionalQuality (per100gOf text) nutrition).
  apply calculateNutritionalQuality_reference.
  intros value. rewrite Htext. apply per100gOf_normalizes.
Qed.

Lemma extractAdditives_returns table ingredients :
  ingredients <> IngredientOther ->
  exists found, extractAdditives table ingredients = Return found.
Proof.
  intros Hother. unfold extractAdditives.
  destruct ingredients as [ parts | s | ];
    [ | | contradiction Hother; reflexivity ];
    rewrite bind_Return; cbv zeta; eexists; reflexivity.
Qed.

Lemma calculateAdditivesImpact_returns table nutrition :
  NutritionData.ingredients nutrition <> Some IngredientOther ->
  exists data, calculateAdditivesImpact table nutrition = Return data.
Proof.
  intros Hother.
  destruct (NutritionData.ingredients nutrition) as [ ingredients | ] eqn:Hing.
  - destruct (extractAdditives_returns table ingredients) as (found & Hfound).
    { intros ->. apply Hother. reflexivity. }
    eexists. apply (calculateAdditivesImpact_present _ _ _ _ Hing Hfound).
  - eexists. apply calculateAdditivesImpact_absent, Hing.
Qed.

Lemma calculateAdditivesImpact_other table nutrition :
  NutritionData.ingredients nutrition = Some IngredientOther ->
  calculateAdditivesImpact table nutrition
  = Throw "TypeError: ingredientsText.match is not a function".
Proof. unfold calculateAdditivesImpact. intros ->. reflexivity. Qed.

Lemma calculateScore_of_parts table nutritionData :
  calculateScore table nutritionData
  = match calculateNutritionalQuality nutritionData with
    | Return quality =>
        match calculateAdditivesImpact table nutritionData with
        | Return data =>
            let final := Math_round (weightedScore quality (score data) 0) in
            Return
              (NutritionScoring.make final
                 (getScoreCategory final) (getScoreColor (getScoreCategory final))
                 (NutritionScoring.makeBreakdown quality (score data) 0)
                 (additives data)
                 (generateImprovements quality data 0))
        | Throw _ => Throw "Failed to calculate nutrition score"
        end
    | Throw _ => Throw "Failed to calculate nutrition score"
    end.
Proof.
  unfold calculateScore; cbv zeta.
  destruct (calculateNutritionalQuality nutritionData) as [ quality | ];
    [ | reflexivity ].
  destruct (calculateAdditivesImpact table nutritionData) as [ data | ];
    reflexivity.
Qed.

(** X2: [calculateScore] throws exactly when the serving size is not a
    string while one of the six scored readings is truthy, or when the
    ingredients are neither an array nor a string; the error it throws is
    always "Failed to calculate nutrition score", whatever the cause, and
    on every other input it returns a scoring. *)
Theorem X2_scoring_fails_exactly table nutritionData :
  (scoringFails nutritionData ->
   calculateScore table nutritionData
   = Throw "Failed to calculate nutrition score")
  /\ (~ scoringFails nutritionData ->
      exists scoring, calculateScore table nutritionData = Return scoring).
Proof.
  rewrite calculateScore_of_parts. unfold scoringFails. split.
  - intros [ [Hserving Htruthy] | Hother ].
    + rewrite (calculateNutritionalQuality_not_text _ Hserving), Htruthy.
      reflexivity.
    + rewrite (calculateAdditivesImpact_other _ _ Hother).
      destruct (calculateNutritionalQuality nutritionData); reflexivity.
  - intros Hfine.
    assert (Hquality : exists quality,
               calculateNutritionalQuality nutritionData = Return quality).
    { destruct (NutritionData.servingSize nutritionData)
        as [ [ s | ] | ] eqn:Hserving;
        try (apply calculateNutritionalQuality_returns_on_text;
             rewrite Hserving; discriminate).
      rewrite (calculateNutritionalQuality_not_text _ Hserving).
      destruct (existsb truthyField (scoredReadings nutritionData)) eqn:Htruthy.
      - contradiction Hfine. left. split; reflexivity.
      - exists 100. reflexivity. }
    destruct Hquality as (quality & ->).
    destruct (calculateAdditivesImpact_returns table nutritionData)
      as (data & ->).
    { intros Hother. apply Hfine. right. exact Hother. }
    eexists. reflexivity.
Qed.

Lemma X2_witness :
  scoringFails malformedFacts
  /\ calculateScore additivesSeedData malformedFacts
     = Throw "Failed to calculate nutrition score"
  /\ ~ scoringFails scenarioFacts
  /\ exists scoring,
       calculateScore additivesSeedData scenarioFacts = Return scoring.
Proof.
  assert (Hbad : scoringFails malformedFacts).
  { left. split; vm_compute; reflexivity. }
  assert (Hfine : ~ scoringFails scenarioFacts).
  { intros [ [Hserving _] | Hother ]; [ discriminate Hserving | discriminate Hother ]. }
  split; [ exact Hbad | ].
  split; [ exact (proj1 (X2_scoring_fails_exactly additivesSeedData malformedFacts) Hbad) | ].
  split; [ exact Hfine | ].
  exact (proj2 (X2_scoring_fails_exactly additivesSeedData scenarioFacts) Hfine).
Defined.

(** ** The range of the final score *)

Lemma weightedFloorGrid_holds :
  forallb (fun quality => forallb (weightedFloorCheck quality) subScores)
          qualityScores = true.
Proof. vm_compute. reflexivity. Qed.

Lemma qualityScores_spec z : 60 <= z <= 100 -> In z qualityScores.
Proof.
  intros Hz. unfold qualityScores.
  apply in_map_iff. exists (Z.to_nat z). split; [ lia | ].
  apply in_seq. lia.
Qed.

Lemma finalScore_at_least_36 quality additivesScore :
  60 <= quality <= 100 -> 0 <= additivesScore <= 100 ->
  36 <= Math_round (weightedScore quality additivesScore 0).
Proof.
  intros Hq Ha.
  pose proof weightedFloorGrid_holds as H.
  rewrite forallb_forall in H. specialize (H _ (qualityScores_spec _ Hq)).
  rewrite forallb_forall in H. specialize (H _ (subScores_spec _ Ha)).
  unfold weightedFloorCheck in H. apply Z.leb_le in H. exact H.
Qed.

(** X3: With a table free of negative deductions, every final score that
    [calculateScore] returns lies between 36 and 90, so no product is
    ever scored below 36; both ends are attained with the seeded table. *)
Theorem X3_final_score_between_36_and_90 :
  (forall table nutritionData scoring,
     Additive.nonNegative table ->
     calculateScore table nutritionData = Return scoring ->
     36 <= NutritionScoring.finalScore scoring <= 90)
  /\ (exists scoring,
        calculateScore additivesSeedData worstFacts = Return scoring
        /\ NutritionScoring.finalScore scoring = 36
        /\ NutritionScoring.category scoring = poor)
  /\ (exists scoring,
        calculateScore additivesSeedData NutritionData.empty = Return scoring
        /\ NutritionScoring.finalScore scoring = 90
        /\ NutritionScoring.category scoring = excellent).
Proof.
  split.
  - intros table nutritionData scoring Htable H.
    apply calculateScore_Return in H.
    destruct H as (quality & data & Hquality & Hdata & ->).
    cbv zeta. cbn [NutritionScoring.finalScore].
    pose proof (calculateNutritionalQuality_at_least_60 _ _ Hquality) as Hq.
    pose proof (additivesScore_bounds _ _ _ Hdata) as [Ha0 Ha100].
    specialize (Ha100 Htable).
    pose proof (finalScore_at_least_36 quality (score data) Hq (conj Ha0 Ha100)).
    assert (Hq' : 0 <= quality <= 100) by lia.
    pose proof (finalScore_range quality (score data) Hq' (conj Ha0 Ha100)).
    lia.
  - split; eexists; (split; [ vm_compute; reflexivity | ]);
      split; reflexivity.
Qed.

Lemma X3_witness :
  Additive.nonNegative additivesSeedData
  /\ calculateScore additivesSeedData scenarioFacts = Return scenarioScoring
  /\ 36 <= NutritionScoring.finalScore scenarioScoring <= 90.
Proof.
  split; [ exact additivesSeedData_nonNegative | ].
  split; [ exact scenario_scoring | ].
  exact (proj1 X3_final_score_between_36_and_90
           additivesSeedData scenarioFacts scenarioScoring
           additivesSeedData_nonNegative scenario_scoring).
Defined.

(** ** The improvement suggestions *)

Lemma generateImprovements_shape quality data :
  60 <= quality ->
  generateImprovements quality data 0
  = (if score data <? 80 then
       (match filter isHighRisk (additives data) with
        | _ :: _ =>
            [("Avoid products with "
                ++ join ", " (map AdditiveInfo.name
                                (filter isHighRisk (additives data))))%string]
        | [] => []
        end) ++ [additivesAdvice]
     else [])
    ++ [organicAdvice].
Proof.
  intros Hq. unfold generateImprovements; cbv zeta.
  assert (Hlt : (quality <? 60) = false) by (apply Z.ltb_ge; lia).
  rewrite Hlt. change (0 =? 0) with true. cbv iota.
  destruct (score data <? 80); [ | reflexivity ].
  destruct (filter isHighRisk (additives data)); reflexivity.
Qed.

Lemma avoid_is_no_fixed_advice names :
  let avoid := ("Avoid products with " ++ names)%string in
  avoid <> additivesAdvice /\ avoid <> organicAdvice
  /\ ~ In avoid qualityAdvice.
Proof.
  cbv zeta. cbn [String.append].
  split; [ discriminate | ].
  split; [ discriminate | ].
  intros [ H | [ H | [] ] ]; discriminate H.
Qed.

(** X4: In every scoring [calculateScore] returns, the suggestions end
    with "Consider organic alternatives when available"; the additives
    suggestion is present exactly when the additives score is below 80;
    the two quality suggestions, issued below a quality of 60, never
    appear, the quality never being below 60; there are at most three
    suggestions. *)
Theorem X4_improvements_of_a_scoring table nutritionData scoring :
  calculateScore table nutritionData = Return scoring ->
  let improvements := NutritionScoring.improvements scoring in
  (exists before, improvements = before ++ [organicAdvice])
  /\ (In additivesAdvice improvements
      <-> NutritionScoring.additivesImpact (NutritionScoring.breakdown scoring)
          < 80)
  /\ (forall advice, In advice qualityAdvice -> ~ In advice improvements)
  /\ (List.length improvements <= 3)%nat.
Proof.
  intros H. apply calculateScore_Return in H.
  destruct H as (quality & data & Hquality & Hdata & ->).
  cbv zeta. cbn [NutritionScoring.improvements NutritionScoring.breakdown
                 NutritionScoring.additivesImpact].
  pose proof (calculateNutritionalQuality_at_least_60 _ _ Hquality) as [Hq _].
  rewrite (generateImprovements_shape _ _ Hq).
  set (avoid := ("Avoid products with "
                   ++ join ", " (map AdditiveInfo.name
                                   (filter isHighRisk (additives data))))%string).
  destruct (avoid_is_no_fixed_advice
              (join ", " (map AdditiveInfo.name
                            (filter isHighRisk (additives data)))))
    as (Hna & Hno & Hnq).
  fold avoid in Hna, Hno, Hnq.
  assert (Hfixed : additivesAdvice <> organicAdvice) by discriminate.
  assert (Hquality_fixed :
            forall advice, In advice qualityAdvice ->
                           advice <> additivesAdvice /\ advice <> organicAdvice).
  { intros advice [ <- | [ <- | [] ] ]; split; discriminate. }
  split; [ eexists; reflexivity | ].
  destruct (Z.ltb_spec (score data) 80) as [Hlt | Hge].
  - destruct (filter isHighRisk (additives data)) as [ | a rest ].
    + split; [ split; [ intros _; exact Hlt | intros _; left; reflexivity ] | ].
      split; [ | cbn; lia ].
      intros advice Hadvice [ H | [ H | [] ] ];
        destruct (Hquality_fixed advice Hadvice) as [H1 H2]; congruence.
    + split; [ split; [ intros _; exact Hlt
                      | intros _; right; left; reflexivity ] | ].
      split; [ | cbn; lia ].
      intros advice Hadvice [ H | [ H | [ H | [] ] ] ];
        destruct (Hquality_fixed advice Hadvice) as [H1 H2];
        try congruence;
        try (apply Hnq; rewrite H; exact Hadvice).
  - split.
    + split; [ | intros Hlt; lia ].
      intros [ H | [] ]. symmetry in H. contradiction.
    + split; [ | cbn; lia ].
      intros advice Hadvice [ H | [] ].
      destruct (Hquality_fixed advice Hadvice) as [_ H2]. congruence.
Qed.

Lemma X4_witness :
  calculateScore additivesSeedData scenarioFacts = Return scenarioScoring
  /\ In additivesAdvice (NutritionScoring.improvements scenarioScoring)
  /\ (List.length (NutritionScoring.improvements scenarioScoring) <= 3)%nat.
Proof.
  destruct (X4_improvements_of_a_scoring
              additivesSeedData scenarioFacts scenarioScoring scenario_scoring)
    as (_ & Hadditives & _ & Hlength).
  split; [ exact scenario_scoring | ].
  split; [ apply Hadditives; cbn; lia | exact Hlength ].
Defined.

(** ** Every slot of a batch *)

(** X5: Every result of [batchCalculateScores], computed or sentinel, is
    coherent: its category is the category of its final score, its colour
    the colour of its category, it carries at least one suggestion, and,
    with no negative deduction in the table, its final score lies between
    0 and 90. *)
Theorem X5_batch_results_are_coherent table nutritionDataList scoring :
  In scoring (batchCalculateScores table nutritionDataList) ->
  NutritionScoring.category scoring
  = getScoreCategory (NutritionScoring.finalScore scoring)
  /\ NutritionScoring.color scoring
     = getScoreColor (NutritionScoring.category scoring)
  /\ NutritionScoring.improvements scoring <> []
  /\ (Additive.nonNegative table ->
      0 <= NutritionScoring.finalScore scoring <= 90).
Proof.
  unfold batchCalculateScores; cbv zeta. rewrite map_map.
  intros Hin. apply in_map_iff in Hin.
  destruct Hin as (nutrition & Hscoring & _).
  destruct (calculateScore table nutrition) as [ value | ] eqn:Hscore.
  - subst value.
    pose proof (X := Hscore). apply calculateScore_Return in X.
    destruct X as (quality & data & Hquality & Hdata & Heq).
    rewrite Heq. cbv zeta.
    cbn [NutritionScoring.finalScore NutritionScoring.category
         NutritionScoring.color NutritionScoring.improvements].
    split; [ reflexivity | ]. split; [ reflexivity | ].
    pose proof (calculateNutritionalQuality_at_least_60 _ _ Hquality) as Hq.
    split.
    + rewrite (generateImprovements_shape _ _ (proj1 Hq)).
      intros Hnil. apply app_eq_nil in Hnil. destruct Hnil as [_ Hnil].
      discriminate Hnil.
    + intros Htable.
      pose proof (additivesScore_bounds _ _ _ Hdata) as [Ha0 Ha100].
      specialize (Ha100 Htable).
      assert (Hq' : 0 <= quality <= 100) by lia.
      exact (finalScore_range quality (score data) Hq' (conj Ha0 Ha100)).
  - subst scoring. cbn.
    split; [ reflexivity | ]. split; [ reflexivity | ].
    split; [ discriminate | intros _; lia ].
Qed.

Lemma X5_witness :
  In failedScore
     (batchCalculateScores additivesSeedData [scenarioFacts; malformedFacts])
  /\ NutritionScoring.category failedScore
     = getScoreCategory (NutritionScoring.finalScore failedScore).
Proof.
  assert (Hin : In failedScore
                   (batchCalculateScores additivesSeedData
                      [scenarioFacts; malformedFacts])).
  { right. left. vm_compute. reflexivity. }
  split; [ exact Hin | ].
  exact (proj1 (X5_batch_results_are_coherent _ _ _ Hin)).
Defined.

(** ** The E-number pattern *)

Lemma eNumberHead_spec c0 c1 c2 c3 :
  eNumberHead c0 c1 c2 c3 = isE c0 && isDigit c1 && isDigit c2 && isDigit c3.
Proof. reflexivity. Qed.

Lemma eNumberMatches_unfold s :
  eNumberMatches s
  = match s with
    | EmptyString => []
    | String c0 s1 =>
        match s1 with
        | String c1 (String c2 (String c3 s4)) =>
            if eNumberHead c0 c1 c2 c3 then
              match s4 with
              | String c4 s5 =>
                  if isLetter c4 then
                    String c0 (String c1 (String c2 (String c3 (String c4 ""))))
                      :: eNumberMatches s5
                  else
                    String c0 (String c1 (String c2 (String c3 "")))
                      :: eNumberMatches s4
              | EmptyString =>
                  [String c0 (String c1 (String c2 (String c3 "")))]
              end
            else eNumberMatches s1
        | _ => eNumberMatches s1
        end
    end.
Proof.
  destruct s as [ | c0 [ | c1 [ | c2 [ | c3 s4 ] ] ] ]; reflexivity.
Qed.

Lemma eNumberMatches_skip c0 s1 :
  eNumberAt (String c0 s1) = false ->
  eNumberMatches (String c0 s1) = eNumberMatches s1.
Proof.
  intros H. rewrite (eNumberMatches_unfold (String c0 s1)).
  destruct s1 as [ | c1 [ | c2 [ | c3 s4 ] ] ]; try reflexivity.
  cbn [eNumberAt] in H. rewrite H. reflexivity.
Qed.

Lemma eNumberMatches_end c0 c1 c2 c3 :
  eNumberHead c0 c1 c2 c3 = true ->
  eNumberMatches (String c0 (String c1 (String c2 (String c3 ""))))
  = [String c0 (String c1 (String c2 (String c3 "")))].
Proof.
  intros H.
  rewrite (eNumberMatches_unfold (String c0 (String c1 (String c2 (String c3 ""))))).
  rewrite H. reflexivity.
Qed.

Lemma eNumberMatches_letter c0 c1 c2 c3 c4 s5 :
  eNumberHead c0 c1 c2 c3 = true -> isLetter c4 = true ->
  eNumberMatches
    (String c0 (String c1 (String c2 (String c3 (String c4 s5)))))
  = String c0 (String c1 (String c2 (String c3 (String c4 ""))))
      :: eNumberMatches s5.
Proof.
  intros H H4.
  rewrite (eNumberMatches_unfold
             (String c0 (String c1 (String c2 (String c3 (String c4 s5)))))).
  rewrite H, H4. reflexivity.
Qed.

Lemma eNumberMatches_no_letter c0 c1 c2 c3 c4 s5 :
  eNumberHead c0 c1 c2 c3 = true -> isLetter c4 = false ->
  eNumberMatches
    (String c0 (String c1 (String c2 (String c3 (String c4 s5)))))
  = String c0 (String c1 (String c2 (String c3 "")))
      :: eNumberMatches (String c4 s5).
Proof.
  intros H H4.
  rewrite (eNumberMatches_unfold
             (String c0 (String c1 (String c2 (String c3 (String c4 s5)))))).
  rewrite H, H4. reflexivity.
Qed.

(** Induction along the scan of the pattern. *)
Lemma eNumberMatches_scan (P : string -> list string -> Prop) :
  P "" [] ->
  (forall c0 s1,
     eNumberAt (String c0 s1) = false ->
     P s1 (eNumberMatches s1) ->
     P (String c0 s1) (eNumberMatches s1)) ->
  (forall c0 c1 c2 c3,
     eNumberHead c0 c1 c2 c3 = true ->
     P (String c0 (String c1 (String c2 (String c3 ""))))
       [String c0 (String c1 (String c2 (String c3 "")))]) ->
  (forall c0 c1 c2 c3 c4 s5,
     eNumberHead c0 c1 c2 c3 = true -> isLetter c4 = true ->
     P s5 (eNumberMatches s5) ->
     P (String c0 (String c1 (String c2 (String c3 (String c4 s5)))))
       (String c0 (String c1 (String c2 (String c3 (String c4 ""))))
          :: eNumberMatches s5)) ->
  (forall c0 c1 c2 c3 c4 s5,
     eNumberHead c0 c1 c2 c3 = true -> isLetter c4 = false ->
     P (String c4 s5) (eNumberMatches (String c4 s5)) ->
     P (String c0 (String c1 (String c2 (String c3 (String c4 s5)))))
       (String c0 (String c1 (String c2 (String c3 "")))
          :: eNumberMatches (String c4 s5))) ->
  forall s, P s (eNumberMatches s).
Proof.
  intros Hnil Hskip Hend Hletter Hother.
  assert (H : forall n s, (String.length s <= n)%nat -> P s (eNumberMatches s)).
  { induction n as [ | n IH ]; intros s Hlen.
    - destruct s; [ exact Hnil | cbn in Hlen; lia ].
    - destruct s as [ | c0 s1 ]; [ exact Hnil | ].
      cbn [String.length] in Hlen.
      destruct (eNumberAt (String c0 s1)) eqn:Hat.
      + destruct s1 as [ | c1 [ | c2 [ | c3 s4 ] ] ]; try discriminate Hat.
        cbn [eNumberAt] in Hat. cbn [String.length] in Hlen.
        destruct s4 as [ | c4 s5 ].
        * rewrite (eNumberMatches_end _ _ _ _ Hat). apply Hend, Hat.
        * cbn [String.length] in Hlen.
          destruct (isLetter c4) eqn:H4.
          -- rewrite (eNumberMatches_letter _ _ _ _ _ _ Hat H4).
             apply Hletter; [ exact Hat | exact H4 | apply IH; lia ].
          -- rewrite (eNumberMatches_no_letter _ _ _ _ _ _ Hat H4).
             apply Hother; [ exact Hat | exact H4 | ].
             apply IH. cbn [String.length]. lia.
      + rewrite (eNumberMatches_skip _ _ Hat).
        apply Hskip; [ exact Hat | apply IH; lia ]. }
  intros s. apply (H (String.length s)). lia.
Qed.

(** X6: Every token the pattern pass takes from a text has the E-number
    shape: a letter E of either case, three digits and at most one
    trailing letter; a text without the letter E yields no token. *)
Theorem X6_tokens_have_the_e_number_shape text :
  Forall (fun token => eNumberShape token = true) (eNumberMatches text)
  /\ (allChars (fun c => negb (isE c)) text = true ->
      eNumberMatches text = []).
Proof.
  split.
  - apply (eNumberMatches_scan
             (fun _ tokens => Forall (fun token => eNumberShape token = true) tokens)).
    + constructor.
    + intros c0 s1 _ IH. exact IH.
    + intros c0 c1 c2 c3 H. constructor; [ | constructor ].
      cbn [eNumberShape]. rewrite H. reflexivity.
    + intros c0 c1 c2 c3 c4 s5 H H4 IH. constructor; [ | exact IH ].
      cbn [eNumberShape]. rewrite H, H4. reflexivity.
    + intros c0 c1 c2 c3 c4 s5 H H4 IH. constructor; [ | exact IH ].
      cbn [eNumberShape]. rewrite H. reflexivity.
  - apply (eNumberMatches_scan
             (fun s tokens =>
                allChars (fun c => negb (isE c)) s = true -> tokens = [])).
    + reflexivity.
    + intros c0 s1 _ IH Hall. cbn [allChars] in Hall.
      apply andb_prop in Hall. apply IH, Hall.
    + intros c0 c1 c2 c3 H Hall. cbn [allChars] in Hall.
      apply andb_prop in Hall. destruct Hall as [Hc0 _].
      unfold eNumberHead in H.
      destruct (isE c0); [ discriminate Hc0 | discriminate H ].
    + intros c0 c1 c2 c3 c4 s5 H _ _ Hall. cbn [allChars] in Hall.
      apply andb_prop in Hall. destruct Hall as [Hc0 _].
      unfold eNumberHead in H.
      destruct (isE c0); [ discriminate Hc0 | discriminate H ].
    + intros c0 c1 c2 c3 c4 s5 H _ _ Hall. cbn [allChars] in Hall.
      apply andb_prop in Hall. destruct Hall as [Hc0 _].
      unfold eNumberHead in H.
      destruct (isE c0); [ discriminate Hc0 | discriminate H ].
Qed.

Lemma X6_witness :
  allChars (fun c => negb (isE c)) "sugar, salt" = true
  /\ eNumberMatches "sugar, salt" = [].
Proof.
  split; [ reflexivity | ].
  apply (proj2 (X6_tokens_have_the_e_number_shape "sugar, salt")).
  reflexivity.
Defined.

(** ** Letter case of the ingredient text *)

Ltac by_all_characters c :=
  destruct c as [b0 b1 b2 b3 b4 b5 b6 b7];
  destruct b0, b1, b2, b3, b4, b5, b6, b7; vm_compute; repeat split.

Lemma lowerChar_classes c :
  isE (lowerChar c) = isE c
  /\ isDigit (lowerChar c) = isDigit c
  /\ isLetter (lowerChar c) = isLetter c.
Proof. by_all_characters c. Qed.

Lemma lowerChar_folds c :
  upperChar (lowerChar c) = upperChar c
  /\ lowerChar (lowerChar c) = lowerChar c.
Proof. by_all_characters c. Qed.

Lemma toLowerCase_cons c s :
  toLowerCase (String c s) = String (lowerChar c) (toLowerCase s).
Proof. reflexivity. Qed.

Lemma toUpperCase_toLowerCase s : toUpperCase (toLowerCase s) = toUpperCase s.
Proof.
  induction s as [ | c s IH ]; [ reflexivity | ].
  rewrite toLowerCase_cons. cbn [toUpperCase mapChars].
  rewrite (proj1 (lowerChar_folds c)). f_equal. exact IH.
Qed.

Lemma toLowerCase_idempotent s : toLowerCase (toLowerCase s) = toLowerCase s.
Proof.
  induction s as [ | c s IH ]; [ reflexivity | ].
  rewrite !toLowerCase_cons, (proj2 (lowerChar_folds c)). f_equal. exact IH.
Qed.

Lemma eNumberHead_lowerChar c0 c1 c2 c3 :
  eNumberHead (lowerChar c0) (lowerChar c1) (lowerChar c2) (lowerChar c3)
  = eNumberHead c0 c1 c2 c3.
Proof.
  unfold eNumberHead.
  destruct (lowerChar_classes c0) as (-> & _ & _).
  destruct (lowerChar_classes c1) as (_ & -> & _).
  destruct (lowerChar_classes c2) as (_ & -> & _).
  destruct (lowerChar_classes c3) as (_ & -> & _).
  reflexivity.
Qed.

Lemma eNumberAt_toLowerCase s : eNumberAt (toLowerCase s) = eNumberAt s.
Proof.
  destruct s as [ | c0 [ | c1 [ | c2 [ | c3 s4 ] ] ] ]; try reflexivity.
  rewrite !toLowerCase_cons. cbn [eNumberAt]. apply eNumberHead_lowerChar.
Qed.

Lemma eNumberMatches_toLowerCase s :
  eNumberMatches (toLowerCase s) = map toLowerCase (eNumberMatches s).
Proof.
  apply (eNumberMatches_scan
           (fun s tokens =>
              eNumberMatches (toLowerCase s) = map toLowerCase tokens)).
  - reflexivity.
  - intros c0 s1 Hat IH. rewrite toLowerCase_cons.
    rewrite eNumberMatches_skip; [ exact IH | ].
    rewrite <- toLowerCase_cons, eNumberAt_toLowerCase. exact Hat.
  - intros c0 c1 c2 c3 H. rewrite !toLowerCase_cons.
    rewrite eNumberMatches_end; [ reflexivity | ].
    rewrite eNumberHead_lowerChar. exact H.
  - intros c0 c1 c2 c3 c4 s5 H H4 IH. rewrite !toLowerCase_cons.
    rewrite eNumberMatches_letter;
      [ | rewrite eNumberHead_lowerChar; exact H
        | rewrite (proj2 (proj2 (lowerChar_classes c4))); exact H4 ].
    rewrite IH. reflexivity.
  - intros c0 c1 c2 c3 c4 s5 H H4 IH. rewrite !toLowerCase_cons.
    rewrite eNumberMatches_no_letter;
      [ | rewrite eNumberHead_lowerChar; exact H
        | rewrite (proj2 (proj2 (lowerChar_classes c4))); exact H4 ].
    rewrite <- toLowerCase_cons, IH. reflexivity.
Qed.

Lemma eNumberPass_toLowerCase table tokens :
  forall found,
    eNumberPass table (map toLowerCase tokens) found
    = eNumberPass table tokens found.
Proof.
  induction tokens as [ | token rest IH ]; intros found; [ reflexivity | ].
  cbn [map eNumberPass]. rewrite toUpperCase_toLowerCase.
  destruct (Additive.findFirstByENumber table (toUpperCase token)); apply IH.
Qed.

Lemma namePass_toLowerCase table text names :
  forall found,
    namePass table (toLowerCase text) names found
    = namePass table text names found.
Proof.
  induction names as [ | name rest IH ]; intros found; [ reflexivity | ].
  cbn [namePass]. rewrite toLowerCase_idempotent.
  destruct (includes (toLowerCase text) (toLowerCase name)); [ | apply IH ].
  destruct (Additive.findFirstByNameContains table name); [ | apply IH ].
  destruct (existsb _ found); apply IH.
Qed.

Lemma extractAdditives_text table text :
  extractAdditives table (IngredientText text)
  = Return (namePass table text commonAdditives
              (eNumberPass table (eNumberMatches text) [])).
Proof. reflexivity. Qed.

Lemma extractAdditives_toLowerCase table text :
  extractAdditives table (IngredientText (toLowerCase text))
  = extractAdditives table (IngredientText text).
Proof.
  rewrite !extractAdditives_text, eNumberMatches_toLowerCase,
    eNumberPass_toLowerCase, namePass_toLowerCase.
  reflexivity.
Qed.

Lemma extractAdditives_of_text table ingredients text :
  ingredientsText ingredients = Some text ->
  extractAdditives table ingredients
  = extractAdditives table (IngredientText text).
Proof.
  destruct ingredients as [ parts | s | ]; cbn [ingredientsText]; intros H;
    [ | | discriminate H ]; injection H as <-; reflexivity.
Qed.

(** X7: Detection does not depend on the letter case of the ingredient
    text: two ingredient values whose scanned texts agree up to ASCII
    case yield the same additives, in the same order, for every table. *)
Theorem X7_extraction_ignores_letter_case table ingredients1 ingredients2
    text1 text2 :
  ingredientsText ingredients1 = Some text1 ->
  ingredientsText ingredients2 = Some text2 ->
  toLowerCase text1 = toLowerCase text2 ->
  extractAdditives table ingredients1 = extractAdditives table ingredients2.
Proof.
  intros H1 H2 Hcase.
  rewrite (extractAdditives_of_text _ _ _ H1),
    (extractAdditives_of_text _ _ _ H2).
  rewrite <- (extractAdditives_toLowerCase table text1),
    <- (extractAdditives_toLowerCase table text2), Hcase.
  reflexivity.
Qed.

Lemma X7_witness :
  toLowerCase "Water, E322, MSG" = toLowerCase "water, e322, msg"
  /\ extractAdditives additivesSeedData (IngredientArray ["Water"; "E322"; "MSG"])
     = extractAdditives additivesSeedData (IngredientText "water, e322, msg").
Proof.
  split; [ reflexivity | ].
  apply (X7_extraction_ignores_letter_case additivesSeedData
           (IngredientArray ["Water"; "E322"; "MSG"])
           (IngredientText "water, e322, msg")
           "Water, E322, MSG" "water, e322, msg");
    reflexivity.
Defined.

(** ** The pattern pass over an ingredient array *)

Lemma eNumberAt_not_E c0 s1 :
  isE c0 = false -> eNumberAt (String c0 s1) = false.
Proof.
  intros H. destruct s1 as [ | c1 [ | c2 [ | c3 s4 ] ] ]; try reflexivity.
  cbn [eNumberAt]. unfold eNumberHead. rewrite H. reflexivity.
Qed.

Lemma eNumberMatches_after_separator t :
  eNumberMatches (", " ++ t) = eNumberMatches t.
Proof.
  cbn [String.append].
  rewrite eNumberMatches_skip by (apply eNumberAt_not_E; reflexivity).
  rewrite eNumberMatches_skip by (apply eNumberAt_not_E; reflexivity).
  reflexivity.
Qed.

Lemma eNumberAt_before_separator c0 s1 t :
  eNumberAt (String c0 s1) = false ->
  eNumberAt (String c0 (s1 ++ ", " ++ t)) = false.
Proof.
  intros H.
  destruct s1 as [ | c1 [ | c2 [ | c3 s4 ] ] ]; cbn [String.append eNumberAt].
  - destruct t; [ reflexivity | ]. unfold eNumberHead.
    destruct (isE c0); reflexivity.
  - unfold eNumberHead. destruct (isE c0), (isDigit c1); reflexivity.
  - unfold eNumberHead.
    destruct (isE c0), (isDigit c1), (isDigit c2); reflexivity.
  - exact H.
Qed.

Lemma eNumberMatches_separator s t :
  eNumberMatches (s ++ ", " ++ t) = eNumberMatches s ++ eNumberMatches t.
Proof.
  apply (eNumberMatches_scan
           (fun s tokens =>
              eNumberMatches (s ++ ", " ++ t) = tokens ++ eNumberMatches t)).
  - apply eNumberMatches_after_separator.
  - intros c0 s1 Hat IH.
    change (String c0 s1 ++ ", " ++ t)%string
      with (String c0 (s1 ++ ", " ++ t)).
    rewrite eNumberMatches_skip by (apply eNumberAt_before_separator, Hat).
    exact IH.
  - intros c0 c1 c2 c3 H.
    change (String c0 (String c1 (String c2 (String c3 ""))) ++ ", " ++ t)%string
      with (String c0 (String c1 (String c2 (String c3 (String "," (" " ++ t)))))).
    rewrite eNumberMatches_no_letter by (exact H || reflexivity).
    change (String "," (" " ++ t)) with (", " ++ t)%string.
    rewrite eNumberMatches_after_separator. reflexivity.
  - intros c0 c1 c2 c3 c4 s5 H H4 IH.
    change (String c0 (String c1 (String c2 (String c3 (String c4 s5))))
              ++ ", " ++ t)%string
      with (String c0 (String c1 (String c2 (String c3
              (String c4 (s5 ++ ", " ++ t)))))).
    rewrite (eNumberMatches_letter _ _ _ _ _ _ H H4), IH. reflexivity.
  - intros c0 c1 c2 c3 c4 s5 H H4 IH.
    change (String c0 (String c1 (String c2 (String c3 (String c4 s5))))
              ++ ", " ++ t)%string
      with (String c0 (String c1 (String c2 (String c3
              (String c4 (s5 ++ ", " ++ t)))))).
    rewrite (eNumberMatches_no_letter _ _ _ _ _ _ H H4).
    change (String c4 (s5 ++ ", " ++ t)) with (String c4 s5 ++ ", " ++ t)%string.
    rewrite IH. reflexivity.
Qed.

(** X8: Over an ingredient array the pattern pass finds exactly the
    E-numbers of each element, element after element: joining with ", "
    neither creates a token across two elements nor breaks one. *)
Theorem X8_tokens_of_an_array parts :
  eNumberMatches (join ", " parts) = flat_map eNumberMatches parts.
Proof.
  induction parts as [ | p [ | q rest ] IH ].
  - reflexivity.
  - cbn [join flat_map]. rewrite app_nil_r. reflexivity.
  - change (join ", " (p :: q :: rest))
      with (p ++ ", " ++ join ", " (q :: rest))%string.
    rewrite eNumberMatches_separator, IH. reflexivity.
Qed.

(** ** The serving-size pattern, continued *)

Lemma skipSpaces_keeps p s :
  allChars p s = true -> allChars p (skipSpaces s) = true.
Proof.
  destruct (skipSpaces_spec s) as (blanks & _ & Hs).
  intros H. rewrite Hs, allChars_app in H.
  apply andb_prop in H. apply H.
Qed.

Lemma gramMatchAt_digits s digits :
  gramMatchAt s = Some digits ->
  digits <> "" /\ allChars isDigit digits = true.
Proof.
  unfold gramMatchAt. pose proof (takeDigits_spec s) as [_ Hd].
  destruct (takeDigits s) as [ds rest]. cbn [fst] in Hd.
  destruct ds as [ | d ds ]; [ discriminate | ]. cbn [emptyString].
  destruct (skipSpaces rest) as [ | c tail ]; [ discriminate | ].
  destruct (isG c); [ | discriminate ].
  intros H. injection H as <-. split; [ discriminate | exact Hd ].
Qed.

Lemma gramMatchAt_without_g s :
  allChars (fun c => negb (isG c)) s = true -> gramMatchAt s = None.
Proof.
  intros Hno. unfold gramMatchAt. pose proof (takeDigits_spec s) as [Hs _].
  destruct (takeDigits s) as [ds rest]. cbn [fst snd] in Hs.
  destruct (emptyString ds); [ reflexivity | ].
  rewrite Hs, allChars_app in Hno. apply andb_prop in Hno.
  destruct Hno as [_ Hrest].
  apply (skipSpaces_keeps _ rest) in Hrest.
  destruct (skipSpaces rest) as [ | c tail ]; [ reflexivity | ].
  cbn [allChars] in Hrest. apply andb_prop in Hrest.
  destruct Hrest as [Hc _]. apply negb_true_iff in Hc. rewrite Hc.
  reflexivity.
Qed.

Lemma gramMatch_digits s :
  forall digits,
    gramMatch s = Some digits ->
    digits <> "" /\ allChars isDigit digits = true.
Proof.
  induction s as [ | c s IH ]; intros digits; rewrite gramMatch_unfold.
  - destruct (gramMatchAt "") eqn:Hat; [ | discriminate ].
    intros H. injection H as <-. exact (gramMatchAt_digits _ _ Hat).
  - destruct (gramMatchAt (String c s)) eqn:Hat.
    + intros H. injection H as <-. exact (gramMatchAt_digits _ _ Hat).
    + apply IH.
Qed.

Lemma gramMatch_without_g s :
  allChars (fun c => negb (isG c)) s = true -> gramMatch s = None.
Proof.
  induction s as [ | c s IH ]; intros Hno; rewrite gramMatch_unfold;
    rewrite (gramMatchAt_without_g _ Hno); [ reflexivity | ].
  cbn [allChars] in Hno. apply andb_prop in Hno. apply IH, Hno.
Qed.

Lemma digitValue_range c : isDigit c = true -> 0 <= digitValue c <= 9.
Proof.
  unfold isDigit, between, digitValue. intros H.
  apply andb_prop in H. destruct H as [Hlo Hhi].
  apply N.leb_le in Hlo, Hhi. lia.
Qed.

Lemma parseDigits_nonneg digits :
  forall acc,
    allChars isDigit digits = true -> 0 <= acc -> 0 <= parseDigits acc digits.
Proof.
  induction digits as [ | c digits IH ]; intros acc Hd Hacc; [ exact Hacc | ].
  cbn [allChars] in Hd. apply andb_prop in Hd. destruct Hd as [Hc Hd].
  cbn [parseDigits]. apply IH; [ exact Hd | ].
  pose proof (digitValue_range c Hc). lia.
Qed.

(** X9: What the serving-size pattern captures is a non-empty run of
    decimal digits, so the gram count is a non-negative integer; a
    non-empty serving size without a letter g of either case (cups,
    millilitres, ounces, pieces) is always scored as a 30g serving. *)
Theorem X9_gram_quantity_and_fallback :
  (forall text digits,
     gramMatch text = Some digits ->
     digits <> "" /\ allChars isDigit digits = true
     /\ 0 <= parseDigits 0 digits)
  /\ (forall value text,
        text <> "" ->
        allChars (fun c => negb (isG c)) text = true ->
        normalizeToPerPor100g value (Some (ServingText text))
        = Return (mul (div value (of_Z 30)) (of_Z 100))).
Proof.
  split.
  - intros text digits H. destruct (gramMatch_digits _ _ H) as [Hne Hd].
    split; [ exact Hne | ]. split; [ exact Hd | ].
    apply parseDigits_nonneg; [ exact Hd | lia ].
  - intros value text Hne Hno. unfold normalizeToPerPor100g.
    destruct text; [ contradiction Hne; reflexivity | ].
    rewrite (gramMatch_without_g _ Hno). reflexivity.
Qed.

Lemma X9_witness :
  gramMatch "2 tbsp (30 g)" = Some "30"
  /\ 0 <= parseDigits 0 "30"
  /\ normalizeToPerPor100g (of_Z 90) (Some (ServingText "1 cup (240 ml)"))
     = Return (of_Z 300).
Proof.
  destruct X9_gram_quantity_and_fallback as [Hdigits Hfallback].
  split; [ reflexivity | ].
  split; [ exact (proj2 (proj2 (Hdigits "2 tbsp (30 g)" "30" eq_refl))) | ].
  rewrite Hfallback; [ vm_compute; reflexivity | discriminate | reflexivity ].
Defined.

(** ** What the extractor reports *)



(** X11: The extractor returns the pattern-pass results, in text order,
    followed by what the name pass adds; the name pass never adds an
    additive whose name is already in the results, so a result list is
    free of repetitions as soon as the pattern-pass part is, and always
    when the text has no E-number. *)
Theorem X11_name_pass_appends_without_repetition table ingredients text :
  ingredientsText ingredients = Some text ->
  exists added,
    let patternPass := eNumberPass table (eNumberMatches text) [] in
    extractAdditives table ingredients = Return (patternPass ++ added)
    /\ (Reference.deduplicated patternPass ->
        Reference.deduplicated (patternPass ++ added))
    /\ (eNumberMatches text = [] ->
        Reference.deduplicated (patternPass ++ added)).
Proof.
  intros Htext. rewrite (extractAdditives_of_text _ _ _ Htext).
  rewrite extractAdditives_text.
  destruct (namePass_extends table text commonAdditives
              (eNumberPass table (eNumberMatches text) [])) as (added & Heq).
  exists added. cbv zeta. rewrite <- Heq.
  split; [ reflexivity | ].
  split.
  - apply namePass_keeps_deduplicated.
  - intros Hnone. apply namePass_keeps_deduplicated.
    rewrite Hnone. constructor.
Qed.

Lemma X11_witness :
  ingredientsText (IngredientText "msg, monosodium glutamate, lecithin")
  = Some "msg, monosodium glutamate, lecithin"
  /\ exists found,
       extractAdditives additivesSeedData
         (IngredientText "msg, monosodium glutamate, lecithin")
       = Return found
       /\ Reference.deduplicated found.
Proof.
  split; [ reflexivity | ].
  destruct (X11_name_pass_appends_without_repetition additivesSeedData
              (IngredientText "msg, monosodium glutamate, lecithin")
              "msg, monosodium glutamate, lecithin" eq_refl)
    as (added & Hfound & _ & Hnone).
  eexists. split; [ exact Hfound | ].
  apply Hnone. reflexivity.
Defined.

(** ** The seeded table *)

Lemma additivesSeedData_by_risk :
  Forall (fun a => Additive.pointDeduction a
                   = ADDITIVE_POINT_DEDUCTIONS (Additive.riskLevel a))
         additivesSeedData.
Proof.
  unfold additivesSeedData.
  repeat (apply Forall_cons; [ reflexivity | ]). apply Forall_nil.
Qed.

Lemma totalDeduction_by_risk found :
  Forall (fun a => In a additivesSeedData) found ->
  Reference.totalDeduction found = deductionByRisk (map toAdditiveInfo found)
  /\ Reference.totalDeduction found mod 5 = 0.
Proof.
  pose proof additivesSeedData_by_risk as Hseed.
  rewrite Forall_forall in Hseed.
  induction 1 as [ | a found Ha _ [IHeq IHmod] ]; [ split; reflexivity | ].
  cbn [Reference.totalDeduction deductionByRisk fold_right map].
  fold (Reference.totalDeduction found).
  fold (deductionByRisk (map toAdditiveInfo found)).
  rewrite (Hseed a Ha), <- IHeq.
  cbn [toAdditiveInfo AdditiveInfo.riskLevel].
  split; [ reflexivity | ].
  rewrite Z.add_mod, IHmod by lia.
  destruct (Additive.riskLevel a); reflexivity.
Qed.

(** X12: Scored against the seeded table, the additives impact is 100
    minus 0, 5, 10 or 20 points per reported additive according to its
    risk level (green, yellow, orange, red), floored at 0; it is a
    multiple of 5, and the final score is then exactly the rounding of
    0.6 quality + 0.3 additives, half up. *)
Theorem X12_seeded_scores_follow_risk_levels nutritionData scoring :
  calculateScore additivesSeedData nutritionData = Return scoring ->
  let breakdown := NutritionScoring.breakdown scoring in
  NutritionScoring.additivesImpact breakdown
  = Z.max 0 (100 - deductionByRisk (NutritionScoring.additives scoring))
  /\ NutritionScoring.additivesImpact breakdown mod 5 = 0
  /\ NutritionScoring.finalScore scoring
     = Reference.exactFinalScore
         (NutritionScoring.nutritionalQuality breakdown)
         (NutritionScoring.additivesImpact breakdown) 0.
Proof.
  intros H. apply calculateScore_Return in H.
  destruct H as (quality & data & Hquality & Hdata & ->).
  cbv zeta. cbn [NutritionScoring.finalScore NutritionScoring.breakdown
                 NutritionScoring.nutritionalQuality
                 NutritionScoring.additivesImpact NutritionScoring.additives].
  pose proof (calculateNutritionalQuality_bounds _ _ Hquality) as Hq.
  pose proof (additivesScore_bounds _ _ _ Hdata) as [Ha0 Ha100].
  specialize (Ha100 additivesSeedData_nonNegative).
  assert (Hrisk : score data = Z.max 0 (100 - deductionByRisk (additives data))
                  /\ score data mod 5 = 0).
  { apply calculateAdditivesImpact_Return in Hdata.
    destruct Hdata as [ -> | (ingredients & found & _ & Hfound & ->) ];
      cbn [score additives]; [ split; reflexivity | ].
    apply extractAdditives_from_table in Hfound.
    destruct (totalDeduction_by_risk found Hfound) as [Heq Hmod].
    rewrite <- Heq. split; [ reflexivity | ].
    destruct (Z.max_spec 0 (100 - Reference.totalDeduction found))
      as [ [_ ->] | [_ ->] ]; [ | reflexivity ].
    rewrite Zminus_mod, Hmod. reflexivity. }
  destruct Hrisk as [Hrisk Hmod].
  split; [ exact Hrisk | ]. split; [ exact Hmod | ].
  apply finalScore_exact; [ exact Hq | lia | exact Hmod ].
Qed.

Lemma X12_witness :
  calculateScore additivesSeedData scenarioFacts = Return scenarioScoring
  /\ NutritionScoring.finalScore scenarioScoring
     = Reference.exactFinalScore 90 70 0.
Proof.
  split; [ exact scenario_scoring | ].
  exact (proj2 (proj2 (X12_seeded_scores_follow_risk_levels
                         scenarioFacts scenarioScoring scenario_scoring))).
Defined.

(* ================================================================== *)
(** * Properties of the data service's mappings *)
(* ================================================================== *)

Import NutritionDataService.

Lemma firstTruthy_spec a b :
  firstTruthy a b
  = (if truthyField a then a else if truthyField b then b else None)
  /\ match firstTruthy a b with
     | Some v => truthy v = true
     | None => True
     end.
Proof.
  split; [ reflexivity | ]. unfold firstTruthy.
  destruct a as [ va | ]; cbn [truthyField].
  - destruct (truthy va) eqn:Ha; [ exact Ha | ].
    destruct b as [ vb | ]; cbn [truthyField]; [ | exact I ].
    destruct (truthy vb) eqn:Hb; [ exact Hb | exact I ].
  - destruct b as [ vb | ]; cbn [truthyField]; [ | exact I ].
    destruct (truthy vb) eqn:Hb; [ exact Hb | exact I ].
Qed.

(** X13: In the object mapped from an Open Food Facts product every
    reading is either absent or truthy: a reading of 0 (or NaN) is
    reported as unknown, never as zero.  The per-100g key is taken
    whenever its value is truthy, the plain key only otherwise; an empty
    serving size is reported as absent. *)
Theorem X13_open_food_facts_mapping product property :
  let object := mapOpenFoodFactsToNutrition product in
  match NutritionObject.reading object property with
  | Some v => truthy v = true
  | None => True
  end
  /\ (forall nutriments per100g perServing,
        OpenFoodFactsProduct.nutriments product = Some nutriments ->
        nutrimentKeys property = Some (per100g, perServing) ->
        NutritionObject.reading object property
        = if truthyField (nutriments per100g) then nutriments per100g
          else if truthyField (nutriments perServing)
               then nutriments perServing
               else None)
  /\ (OpenFoodFactsProduct.nutriments product = None ->
      NutritionObject.reading object property = None)
  /\ NutritionObject.servingSize object <> Some "".
Proof.
  cbv zeta. unfold mapOpenFoodFactsToNutrition.
  cbn [NutritionObject.reading NutritionObject.servingSize].
  split; [ | split; [ | split ] ].
  - destruct (nutrimentKeys property) as [ [per100g perServing] | ];
      [ | exact I ].
    apply firstTruthy_spec.
  - intros nutriments per100g perServing -> ->. reflexivity.
  - intros ->. destruct (nutrimentKeys property) as [ [per100g perServing] | ];
      reflexivity.
  - destruct (OpenFoodFactsProduct.serving_size product) as [ [ | c s ] | ];
      discriminate.
Qed.

Lemma X13_witness :
  let nutriments key :=
    if String.eqb key "sodium_100g" then Some (of_Z 0)
    else if String.eqb key "sodium" then Some (of_Z 120)
    else None in
  let product := OpenFoodFactsProduct.make (Some "30g") (Some nutriments) in
  NutritionObject.reading (mapOpenFoodFactsToNutrition product) sodium
  = Some (of_Z 120).
Proof.
  cbv zeta.
  destruct (X13_open_food_facts_mapping
              (OpenFoodFactsProduct.make (Some "30g")
                 (Some (fun key =>
                          if String.eqb key "sodium_100g" then Some (of_Z 0)
                          else if String.eqb key "sodium" then Some (of_Z 120)
                          else None)))
              sodium) as (_ & Hkeys & _).
  rewrite (Hkeys _ "sodium_100g" "sodium" eq_refl eq_refl).
  reflexivity.
Defined.

(** ** The USDA mapping *)

Lemma find_app {A} (f : A -> bool) (l1 l2 : list A) :
  find f (l1 ++ l2)
  = match find f l1 with
    | Some x => Some x
    | None => find f l2
    end.
Proof.
  induction l1 as [ | x l1 IH ]; [ reflexivity | ].
  cbn [app find]. destruct (f x); [ reflexivity | exact IH ].
Qed.

Lemma mapUSDA_fold nutrients :
  forall object property,
    let result :=
      fold_left
        (fun nutritionData nutrient =>
           match usdaProperty (USDANutrient.nutrientId nutrient) with
           | Some property =>
               NutritionObject.set property (USDANutrient.value nutrient)
                                   nutritionData
           | None => nutritionData
           end)
        nutrients object in
    NutritionObject.reading result property
    = match lastNutrientFor property nutrients with
      | Some v => Some v
      | None => NutritionObject.reading object property
      end
    /\ NutritionObject.servingSize result = NutritionObject.servingSize object.
Proof.
  induction nutrients as [ | n nutrients IH ]; intros object property;
    cbv zeta; [ split; reflexivity | ].
  cbn [fold_left]. specialize (IH
    (match usdaProperty (USDANutrient.nutrientId n) with
     | Some p => NutritionObject.set p (USDANutrient.value n) object
     | None => object
     end) property).
  cbv zeta in IH. destruct IH as [IHr IHs]. rewrite IHr, IHs.
  unfold lastNutrientFor. cbn [rev]. rewrite find_app.
  destruct (find _ (rev nutrients)) as [ later | ];
    cbn [option_map]; [ split; [ reflexivity | ] | ].
  - destruct (usdaProperty (USDANutrient.nutrientId n)); reflexivity.
  - cbn [find].
    destruct (usdaProperty (USDANutrient.nutrientId n)) as [ p | ];
      [ | split; reflexivity ].
    cbn [NutritionObject.set NutritionObject.reading
         NutritionObject.servingSize].
    destruct (Reading_eqb property p); split; reflexivity.
Qed.

Lemma mapUSDA_servingSize food :
  NutritionObject.servingSize (mapUSDAToNutrition food) = None.
Proof.
  unfold mapUSDAToNutrition.
  destruct (mapUSDA_fold
              (match USDAProduct.foodNutrients food with
               | Some nutrients => nutrients
               | None => []
               end)
              NutritionObject.empty calories) as [_ Hs].
  cbv zeta in Hs. rewrite Hs. reflexivity.
Qed.

(** X14: In the object mapped from a USDA food each reading is the value
    of the last nutrient of the list that the switch maps to it, and is
    absent when there is none; nutrients with other ids change nothing,
    and the serving size is never set. *)
Theorem X14_usda_mapping food property :
  let nutrients :=
    match USDAProduct.foodNutrients food with
    | Some nutrients => nutrients
    | None => []
    end in
  NutritionObject.reading (mapUSDAToNutrition food) property
  = lastNutrientFor property nutrients
  /\ NutritionObject.servingSize (mapUSDAToNutrition food) = None.
Proof.
  cbv zeta. unfold mapUSDAToNutrition.
  destruct (mapUSDA_fold
              (match USDAProduct.foodNutrients food with
               | Some nutrients => nutrients
               | None => []
               end)
              NutritionObject.empty property) as [Hr Hs].
  cbv zeta in Hr, Hs. rewrite Hr, Hs.
  split; [ | reflexivity ].
  destruct (lastNutrientFor property _); reflexivity.
Qed.

(** ** Scoring what the data service maps *)

Lemma calculateScore_of_object table object :
  exists quality,
    calculateNutritionalQuality (NutritionObject.scoringView object)
    = Return quality
    /\ quality
       = Reference.nutritionalQuality
           (per100gOf (NutritionObject.servingSize object))
           (NutritionObject.scoringView object)
    /\ calculateScore table (NutritionObject.scoringView object)
       = Return
           (let final := Math_round (weightedScore quality 100 0) in
            NutritionScoring.make final
              (getScoreCategory final) (getScoreColor (getScoreCategory final))
              (NutritionScoring.makeBreakdown quality 100 0)
              []
              (generateImprovements quality (makeAdditivesData 100 []) 0)).
Proof.
  eexists. split; [ | split; [ reflexivity | ] ].
  - apply calculateNutritionalQuality_reference.
    intros value. apply per100gOf_normalizes.
  - rewrite calculateScore_of_parts.
    rewrite (calculateNutritionalQuality_reference
               (NutritionObject.scoringView object)
               (per100gOf (NutritionObject.servingSize object)))
      by (intros value; apply per100gOf_normalizes).
    reflexivity.
Qed.

(** X15: Scoring an object built by the data service never fails: the
    serving size is a string or absent and there are no ingredients.  The
    scoring reports no additive, an additives impact of 100, the organic
    suggestion alone, and a final score between 66 and 90, hence a
    category of good or excellent. *)
Theorem X15_scoring_a_mapped_object table object :
  exists scoring,
    calculateScore table (NutritionObject.scoringView object) = Return scoring
    /\ NutritionScoring.additives scoring = []
    /\ NutritionScoring.additivesImpact (NutritionScoring.breakdown scoring)
       = 100
    /\ NutritionScoring.improvements scoring = [organicAdvice]
    /\ 66 <= NutritionScoring.finalScore scoring <= 90
    /\ (NutritionScoring.category scoring = good
        \/ NutritionScoring.category scoring = excellent).
Proof.
  destruct (calculateScore_of_object table object)
    as (quality & Hquality & _ & Hscore).
  eexists. split; [ exact Hscore | ].
  cbv zeta. cbn [NutritionScoring.additives NutritionScoring.breakdown
                 NutritionScoring.additivesImpact NutritionScoring.improvements
                 NutritionScoring.finalScore NutritionScoring.category].
  pose proof (calculateNutritionalQuality_at_least_60 _ _ Hquality) as Hq.
  assert (Hfinal : Math_round (weightedScore quality 100 0)
                   = Reference.exactFinalScore quality 100 0)
    by (apply finalScore_exact; [ lia | lia | reflexivity ]).
  assert (Hrange : 66 <= Math_round (weightedScore quality 100 0) <= 90).
  { rewrite Hfinal. unfold Reference.exactFinalScore.
    split; [ apply Z.div_le_lower_bound
           | apply Z.lt_succ_r, Z.div_lt_upper_bound ]; lia. }
  split; [ reflexivity | ]. split; [ reflexivity | ].
  split; [ rewrite (generateImprovements_shape _ _ (proj1 Hq)); reflexivity | ].
  split; [ exact Hrange | ].
  pose proof (getScoreCategory_spec (Math_round (weightedScore quality 100 0)))
    as (Hexcellent & Hgood & _).
  destruct (Z_le_gt_dec 80 (Math_round (weightedScore quality 100 0))).
  - right. apply Hexcellent. assumption.
  - left. apply Hgood. lia.
Qed.

(** X16: A USDA-mapped food is scored on its readings as given: no
    serving size being set, no reading is rescaled, and the quality is
    the banded reference taken on the raw values. *)
Theorem X16_usda_readings_are_scored_unscaled food :
  calculateNutritionalQuality
    (NutritionObject.scoringView (mapUSDAToNutrition food))
  = Return (Reference.nutritionalQuality
              (fun value => value)
              (NutritionObject.scoringView (mapUSDAToNutrition food))).
Proof.
  apply calculateNutritionalQuality_reference.
  intros value. cbn [NutritionObject.scoringView NutritionData.servingSize].
  rewrite mapUSDA_servingSize. reflexivity.
Qed.

(** ** deduplicateResults *)

Section DeduplicateProperties.

Variable numberToString : number -> string.

Lemma seen_has seen h :
  existsb (String.eqb h) seen = true <-> In h seen.
Proof.
  rewrite existsb_exists. split.
  - intros (x & Hx & Heq). apply String.eqb_eq in Heq. subst x. exact Hx.
  - intros Hin. exists h. split; [ exact Hin | apply String.eqb_refl ].
Qed.

Lemma seen_has_not seen h :
  existsb (String.eqb h) seen = false <-> ~ In h seen.
Proof.
  rewrite <- seen_has. destruct (existsb (String.eqb h) seen);
    split; intros H; try reflexivity; try discriminate.
  contradiction H. reflexivity.
Qed.

Lemma filterUnseen_subsequence results :
  forall seen,
    Subsequence (filterUnseen numberToString seen results) results.
Proof.
  induction results as [ | r rest IH ]; intros seen; cbn [filterUnseen];
    [ constructor | ].
  cbv zeta. destruct (existsb _ seen); constructor; apply IH.
Qed.

Lemma filterUnseen_fresh results :
  forall seen r,
    In r (filterUnseen numberToString seen results) -> ~ In (resultHash numberToString r) seen.
Proof.
  induction results as [ | x rest IH ]; intros seen r; cbn [filterUnseen];
    [ intros [] | ].
  cbv zeta. destruct (existsb _ seen) eqn:Hseen; [ apply IH | ].
  intros [ <- | Hin ]; [ apply seen_has_not, Hseen | ].
  intros Hr. apply (IH _ _ Hin). right. exact Hr.
Qed.

Lemma filterUnseen_distinct results :
  forall seen,
    NoDup (map (resultHash numberToString) (filterUnseen numberToString seen results)).
Proof.
  induction results as [ | x rest IH ]; intros seen; cbn [filterUnseen];
    [ constructor | ].
  cbv zeta. destruct (existsb _ seen); [ apply IH | ].
  cbn [map]. constructor; [ | apply IH ].
  intros Hin. apply in_map_iff in Hin. destruct Hin as (r & Heq & Hr).
  apply (filterUnseen_fresh _ _ _ Hr). left. symmetry. exact Heq.
Qed.

Lemma filterUnseen_covers results :
  forall seen r,
    In r results ->
    In (resultHash numberToString r) seen
    \/ In (resultHash numberToString r) (map (resultHash numberToString) (filterUnseen numberToString seen results)).
Proof.
  induction results as [ | x rest IH ]; intros seen r; [ intros [] | ].
  cbn [filterUnseen]. cbv zeta.
  destruct (existsb _ seen) eqn:Hseen; intros [ <- | Hin ].
  - left. apply seen_has, Hseen.
  - apply IH, Hin.
  - right. left. reflexivity.
  - destruct (IH (resultHash numberToString x :: seen) r Hin)
      as [ [ Heq | Hs ] | Hout ].
    + right. left. exact Heq.
    + left. exact Hs.
    + right. right. exact Hout.
Qed.

Lemma filterUnseen_keeps_distinct results :
  forall seen,
    NoDup (map (resultHash numberToString) results) ->
    (forall r, In r results -> ~ In (resultHash numberToString r) seen) ->
    filterUnseen numberToString seen results = results.
Proof.
  induction results as [ | x rest IH ]; intros seen Hdistinct Hfresh;
    [ reflexivity | ].
  cbn [filterUnseen]. cbv zeta.
  assert (Hx : existsb (String.eqb (resultHash numberToString x)) seen = false)
    by (apply seen_has_not, Hfresh; left; reflexivity).
  rewrite Hx. f_equal.
  cbn [map] in Hdistinct. inversion Hdistinct as [ | ? ? Hnotin Hrest ]; subst.
  apply IH; [ exact Hrest | ].
  intros r Hr [ Heq | Hs ].
  - apply Hnotin. rewrite Heq. apply in_map, Hr.
  - apply (Hfresh r); [ right; exact Hr | exact Hs ].
Qed.

(** X17: [deduplicateResults] keeps the results in order, dropping
    some: the kept results have pairwise distinct hashes, every input has
    a kept result with its hash, the first input is always kept, and
    de-duplicating again changes nothing.  Two results count as
    duplicates as soon as their calories, total fat, protein and sodium
    render alike, whatever their other readings. *)
Theorem X17_deduplicate_results results :
  let kept := deduplicateResults numberToString results in
  Subsequence kept results
  /\ NoDup (map (resultHash numberToString) kept)
  /\ (forall r, In r results ->
                In (resultHash numberToString r)
                   (map (resultHash numberToString) kept))
  /\ hd_error kept = hd_error results
  /\ deduplicateResults numberToString kept = kept.
Proof.
  cbv zeta. unfold deduplicateResults.
  split; [ apply filterUnseen_subsequence | ].
  split; [ apply filterUnseen_distinct | ].
  split.
  - intros r Hr. destruct (filterUnseen_covers results [] r Hr) as [ [] | H ].
    exact H.
  - split; [ destruct results; reflexivity | ].
    apply filterUnseen_keeps_distinct; [ apply filterUnseen_distinct | ].
    intros r _ [].
Qed.

End DeduplicateProperties.

Lemma X17_witness :
  let render (x : number) := "7" in
  let duplicate := NutritionObject.set sugars (of_Z 3) NutritionObject.empty in
  In duplicate [NutritionObject.empty; duplicate]
  /\ In (resultHash render duplicate)
        (map (resultHash render)
             (deduplicateResults render [NutritionObject.empty; duplicate]))
  /\ List.length (deduplicateResults render [NutritionObject.empty; duplicate])
     = 1%nat.
Proof.
  cbv zeta.
  assert (Hin : In (NutritionObject.set sugars (of_Z 3) NutritionObject.empty)
                   [NutritionObject.empty;
                    NutritionObject.set sugars (of_Z 3) NutritionObject.empty])
    by (right; left; reflexivity).
  split; [ exact Hin | ].
  split; [ | reflexivity ].
  exact (proj1 (proj2 (proj2 (X17_deduplicate_results (fun _ => "7") _))) _ Hin).
Defined.

(* ================================================================== *)
(** * Properties of the routes *)
(* ================================================================== *)

Import NutritionRoutes.

(** ** analyze-ingredients *)

Lemma Success_inj {A} (a b : A) : Success a = Success b -> a = b.
Proof. intros H. injection H as ->. reflexivity. Qed.

Lemma analyzeIngredients_of_text table c s :
  let text := String c s in
  let found :=
    namePass table text commonAdditives
      (eNumberPass table (eNumberMatches text) []) in
  let data :=
    makeAdditivesData (Z.max 0 (100 - Reference.totalDeduction found))
                      (map toAdditiveInfo found) in
  analyzeIngredients table (Some (BodyString text))
  = Success
      (IngredientAnalysis.make
         (additives data)
         (score data)
         (match additives data with
          | [] => "No concerning additives found"
          | _ :: _ =>
              if existsb (hasRisk red) (additives data)
              then "High risk additives present"
              else if existsb (hasRisk orange) (additives data)
                   then "Moderate risk additives present"
                   else "Low risk additives only"
          end)
         (filter (fun imp => includes imp "additive"
                             || includes imp "artificial")
                 (generateImprovements 100 data 0))).
Proof.
  cbv zeta. unfold analyzeIngredients. rewrite calculateScore_of_parts.
  change (calculateNutritionalQuality _) with (@Return Z 100).
  cbv beta iota.
  erewrite calculateAdditivesImpact_present;
    [ | reflexivity | reflexivity ].
  reflexivity.
Qed.

(** X18: The ingredient analysis answers 400 exactly when the body's
    [ingredients] is not a non-empty string, and never 500: on every
    non-empty string the scoring returns.  The analysis then reports the
    additives the extractor detects in that string, the additives score
    100 minus their deductions floored at 0, and the assessment "No
    concerning additives found" exactly when nothing was detected. *)
Theorem X18_ingredient_analysis table :
  (forall body,
     (forall c s, body <> Some (BodyString (String c s))) ->
     analyzeIngredients table body
     = AppError "Ingredients string is required" 400)
  /\ (forall body message, analyzeIngredients table body <> AppError message 500)
  /\ (forall text,
        text <> "" ->
        exists analysis found,
          analyzeIngredients table (Some (BodyString text)) = Success analysis
          /\ extractAdditives table (IngredientText text) = Return found
          /\ IngredientAnalysis.additives analysis = map toAdditiveInfo found
          /\ IngredientAnalysis.additivesScore analysis
             = Z.max 0 (100 - Reference.totalDeduction found)
          /\ (IngredientAnalysis.riskAssessment analysis
              = "No concerning additives found" <-> found = [])).
Proof.
  split; [ | split ].
  - intros body Hbody. destruct body as [ [ [ | c s ] | ] | ]; try reflexivity.
    contradiction (Hbody c s). reflexivity.
  - intros body message. destruct body as [ [ [ | c s ] | ] | ];
      try discriminate.
    all: rewrite analyzeIngredients_of_text; discriminate.
  - intros text Hne. destruct text as [ | c s ];
      [ contradiction Hne; reflexivity | ].
    eexists. eexists.
    split; [ apply analyzeIngredients_of_text | ].
    split; [ apply extractAdditives_text | ].
    cbv zeta. cbn [IngredientAnalysis.additives IngredientAnalysis.additivesScore
                   IngredientAnalysis.riskAssessment additives score].
    split; [ reflexivity | ]. split; [ reflexivity | ].
    destruct (namePass table (String c s) commonAdditives
                (eNumberPass table (eNumberMatches (String c s)) []))
      as [ | a found ]; cbn [map].
    + split; reflexivity.
    + split; [ | discriminate ].
      destruct (existsb _ _); [ discriminate | ].
      destruct (existsb _ _); discriminate.
Qed.

Lemma X18_witness :
  analyzeIngredients additivesSeedData (Some BodyNotString)
  = AppError "Ingredients string is required" 400
  /\ exists analysis,
       analyzeIngredients additivesSeedData (Some (BodyString "water, E102"))
       = Success analysis
       /\ IngredientAnalysis.additivesScore analysis = 80.
Proof.
  destruct (X18_ingredient_analysis additivesSeedData) as (H400 & _ & Hok).
  split; [ apply H400; discriminate | ].
  destruct (Hok "water, E102") as (analysis & found & Ha & Hf & _ & Hs & _);
    [ discriminate | ].
  exists analysis. split; [ exact Ha | ].
  rewrite Hs. rewrite extractAdditives_text in Hf. apply Return_inj in Hf.
  subst found. vm_compute. reflexivity.
Defined.

Lemma recommendation_filter :
  let keep imp := includes imp "additive" || includes imp "artificial" in
  keep additivesAdvice = true /\ keep organicAdvice = false.
Proof. split; vm_compute; reflexivity. Qed.

(** X19: In a successful ingredient analysis the recommendations are
    empty exactly when the additives score is at least 80; below 80 they
    end with "Choose products with fewer artificial additives and
    preservatives", preceded at most by the "Avoid products with ..."
    line; the organic suggestion is always filtered out. *)
Theorem X19_analysis_recommendations table body analysis :
  analyzeIngredients table body = Success analysis ->
  let recommendations := IngredientAnalysis.recommendations analysis in
  (recommendations = [] <-> 80 <= IngredientAnalysis.additivesScore analysis)
  /\ (IngredientAnalysis.additivesScore analysis < 80 ->
      exists before,
        recommendations = before ++ [additivesAdvice]
        /\ (List.length before <= 1)%nat)
  /\ ~ In organicAdvice recommendations.
Proof.
  destruct body as [ [ [ | c s ] | ] | ]; try discriminate.
  rewrite analyzeIngredients_of_text. cbv zeta.
  intros H. apply Success_inj in H. rewrite <- H. clear H analysis.
  cbn [IngredientAnalysis.recommendations IngredientAnalysis.additivesScore].
  set (data := makeAdditivesData _ _).
  rewrite (generateImprovements_shape 100 data) by lia.
  destruct recommendation_filter as [Hkeep Hdrop]. cbv zeta in Hkeep, Hdrop.
  rewrite filter_app. cbn [filter]. rewrite Hdrop, app_nil_r.
  destruct (Z.ltb_spec (score data) 80) as [Hlt | Hge].
  - rewrite filter_app. cbn [filter]. rewrite Hkeep.
    set (avoid := match filter isHighRisk (additives data) with
                  | [] => []
                  | _ :: _ => _
                  end).
    assert (Havoid : exists before,
               filter (fun imp => includes imp "additive"
                                  || includes imp "artificial") avoid = before
               /\ (List.length before <= 1)%nat
               /\ ~ In organicAdvice before).
    { eexists. split; [ reflexivity | ]. subst avoid.
      destruct (filter isHighRisk (additives data)); cbn [filter].
      - split; [ cbn; lia | intros [] ].
      - match goal with
        | |- context [ if ?keep then _ else _ ] => destruct keep
        end; cbn [List.length In]; (split; [ lia | ]).
        + intros [ H | [] ].
          apply (proj1 (proj2 (avoid_is_no_fixed_advice _)) H).
        + intros []. }
    destruct Havoid as (before & -> & Hlen & Hnot).
    split; [ split; [ intros Hnil; apply app_eq_nil in Hnil;
                      destruct Hnil as [_ Hnil]; discriminate Hnil
                    | intros Hge; lia ] | ].
    split; [ intros _; exists before; split; [ reflexivity | exact Hlen ] | ].
    rewrite in_app_iff. intros [ H | [ H | [] ] ]; [ exact (Hnot H) | ].
    discriminate H.
  - cbn [filter app].
    split; [ split; [ intros _; exact Hge | reflexivity ] | ].
    split; [ intros Hlt; lia | intros [] ].
Qed.

Lemma X19_witness :
  exists analysis,
    analyzeIngredients additivesSeedData
      (Some (BodyString "E102, E110, artificial flavor"))
    = Success analysis
    /\ In additivesAdvice (IngredientAnalysis.recommendations analysis).
Proof.
  eexists. split; [ vm_compute; reflexivity | ].
  destruct (X19_analysis_recommendations additivesSeedData
              (Some (BodyString "E102, E110, artificial flavor")) _
              ltac:(vm_compute; reflexivity)) as (_ & Hbelow & _).
  destruct Hbelow as (before & Heq & _); [ vm_compute; reflexivity | ].
  rewrite Heq. apply in_or_app. right. left. reflexivity.
Defined.

(** ** The better alternatives of a product *)

Import ProductRoutes.

Lemma firstn_member {A} n (l : list A) x : In x (firstn n l) -> In x l.
Proof.
  revert n. induction l as [ | y l IH ]; intros [ | n ]; cbn [firstn In];
    try tauto.
  intros [ H | H ]; [ left; exact H | right; exact (IH n H) ].
Qed.

Section AlternativesProperties.

Variable Product : Type.

Definition scoresDescend (a b : Scored Product) : Prop :=
  finalScoreOf Product b <= finalScoreOf Product a.

Lemma insertByScore_permutation product sorted :
  Permutation (insertByScore Product product sorted) (product :: sorted).
Proof.
  induction sorted as [ | next rest IH ]; cbn [insertByScore];
    [ apply Permutation_refl | ].
  destruct (finalScoreOf Product next <=? finalScoreOf Product product);
    [ apply Permutation_refl | ].
  apply perm_trans with (next :: product :: rest);
    [ apply perm_skip, IH | apply perm_swap ].
Qed.

Lemma sortByScore_permutation products :
  Permutation (sortByScore Product products) products.
Proof.
  induction products as [ | p rest IH ]; [ apply perm_nil | ].
  cbn [sortByScore fold_right]. fold (sortByScore Product rest).
  apply perm_trans with (p :: sortByScore Product rest);
    [ apply insertByScore_permutation | apply perm_skip, IH ].
Qed.

Lemma insertByScore_sorted product sorted :
  Sorted scoresDescend sorted ->
  Sorted scoresDescend (insertByScore Product product sorted).
Proof.
  induction 1 as [ | next rest Hrest IH Hhd ]; cbn [insertByScore].
  - repeat constructor.
  - destruct (Z.leb_spec (finalScoreOf Product next)
                         (finalScoreOf Product product)) as [Hle | Hgt].
    + constructor; [ constructor; assumption | ].
      constructor. exact Hle.
    + constructor; [ exact IH | ].
      destruct rest as [ | third rest ]; cbn [insertByScore].
      * constructor. unfold scoresDescend. lia.
      * destruct (finalScoreOf Product third <=? finalScoreOf Product product);
          constructor; [ unfold scoresDescend; lia | ].
        inversion Hhd; assumption.
Qed.

Lemma sortByScore_sorted products :
  StronglySorted scoresDescend (sortByScore Product products).
Proof.
  apply Sorted_StronglySorted.
  - intros a b c Hab Hbc. unfold scoresDescend in *. lia.
  - induction products as [ | p rest IH ]; [ constructor | ].
    cbn [sortByScore fold_right]. apply insertByScore_sorted, IH.
Qed.

Lemma firstn_sorted n (l : list (Scored Product)) :
  StronglySorted scoresDescend l ->
  StronglySorted scoresDescend (firstn n l).
Proof.
  intros Hl. revert n.
  induction Hl as [ | x l Hl IH Hx ]; intros [ | n ]; cbn [firstn];
    try constructor.
  - apply IH.
  - rewrite Forall_forall in *. intros y Hy. apply Hx.
    apply (firstn_member _ _ _ Hy).
Qed.

Lemma sliceFromStart_firstn {A} finish (l : list A) :
  exists n, sliceFromStart finish l = firstn n l.
Proof.
  destruct finish as [ finish | ]; cbn [sliceFromStart].
  - destruct (finish <? 0); eexists; reflexivity.
  - exists 0%nat. reflexivity.
Qed.

(** X20: The better alternatives of a product all score strictly higher
    than the original (their improvement score is positive), each is one
    of the scored candidates, they are listed by decreasing final score,
    at most [limit] of them when the limit is a non-negative number and
    none when it does not parse; when the limit is at least the number of
    higher-scoring candidates, all of these are returned. *)
Theorem X20_better_alternatives originalScore limit products :
  let qualifying :=
    filter (fun product => originalScore <? finalScoreOf Product product)
           products in
  let result := betterAlternatives Product originalScore limit products in
  (forall product,
     In product result ->
     In product products
     /\ 0 < improvementScore Product originalScore product)
  /\ StronglySorted scoresDescend result
  /\ (forall n, limit = Some n -> 0 <= n ->
                (List.length result <= Z.to_nat n)%nat)
  /\ (forall n, limit = Some n ->
                (List.length qualifying <= Z.to_nat n)%nat ->
                Permutation result qualifying)
  /\ (limit = None -> result = []).
Proof.
  cbv zeta. unfold betterAlternatives.
  set (qualifying := filter _ products).
  split; [ | split; [ | split; [ | split ] ] ].
  - intros product Hin.
    destruct (sliceFromStart_firstn limit (sortByScore Product qualifying))
      as (n & Hn).
    rewrite Hn in Hin. apply firstn_member in Hin.
    apply (Permutation_in _ (sortByScore_permutation qualifying)) in Hin.
    apply filter_In in Hin. destruct Hin as [Hin Hbetter].
    split; [ exact Hin | ].
    apply Z.ltb_lt in Hbetter. unfold improvementScore. lia.
  - destruct (sliceFromStart_firstn limit (sortByScore Product qualifying))
      as (n & ->).
    apply firstn_sorted, sortByScore_sorted.
  - intros n -> Hn. cbn [sliceFromStart].
    destruct (Z.ltb_spec n 0); [ lia | ]. apply firstn_le_length.
  - intros n -> Hlen. cbn [sliceFromStart].
    pose proof (Permutation_length (sortByScore_permutation qualifying)) as Hsame.
    destruct (Z.ltb_spec n 0).
    + assert (Hnil : qualifying = []).
      { destruct qualifying; [ reflexivity | ].
        cbn [List.length] in Hlen. lia. }
      rewrite Hnil. cbn [sortByScore fold_right].
      rewrite firstn_nil. apply perm_nil.
    + rewrite firstn_all2 by lia. apply sortByScore_permutation.
  - intros ->. reflexivity.
Qed.

End AlternativesProperties.

Lemma X20_witness :
  let low := ("bar", failedScore) in
  let high := ("fruit", scenarioScoring) in
  betterAlternatives string 10 (Some 5) [low; high] = [high]
  /\ 0 < improvementScore string 10 high.
Proof.
  cbv zeta.
  assert (Hresult : betterAlternatives string 10 (Some 5)
                      [("bar", failedScore); ("fruit", scenarioScoring)]
                    = [("fruit", scenarioScoring)]) by reflexivity.
  split; [ exact Hresult | ].
  apply (proj1 (X20_better_alternatives string 10 (Some 5)
                  [("bar", failedScore); ("fruit", scenarioScoring)])
           ("fruit", scenarioScoring)).
  rewrite Hresult. left. reflexivity.
Defined.
